(** * UnixSocketPort: a single-client packet port over a UNIX domain socket

    Shallow embedding of [core/drivers/_unix_socket.c] and proofs about its
    connection life cycle ([AcceptNewClient], [CloseConnection]) and its two
    data paths ([RecvPackets], [SendPackets]).

    The driver is stateful C++ talking to the kernel and to the packet-buffer
    allocator.  Its code is embedded as programs of a small state monad over
    a [world]: the fields of the port object, [errno], the process's
    descriptor table, the sockets behind it, the buffer pool, what the
    kernel makes of message headers with unassigned fields, and the
    chronological trace of the calls the driver made. *)

From Stdlib Require Import ZArith List Lia Bool Ascii String.
From stdpp Require Import base option list relations strings.
Import ListNotations.

Local Open Scope Z_scope.

(** ** Constants *)

Definition NOT_CONNECTED : Z := -1.
Definition RECV_SKIP_TICKS : Z := 256.
Definition MAX_TX_FRAGS : Z := 8.

(** Modelled from the spec: the size of a buffer's data area, [SNBUF_DATA]
    of snbuf.h, is not part of the driver file; the driver's own comment at
    the [recv] call fixes it ("datagrams larger than 2KB will be
    truncated"). *)
Definition SNBUF_DATA : Z := 2048.

(** Modelled from the spec: the [errno] values of <errno.h> (Linux
    numbering, where [EWOULDBLOCK] is an alias of [EAGAIN]). *)
Definition EINTR : Z := 4.
Definition EBADF : Z := 9.
Definition EAGAIN : Z := 11.
Definition EWOULDBLOCK : Z := 11.

Definition SOCK_NONBLOCK : Z := 2048.

(** ** Packet buffers *)

(** One segment of a packet: [buf_addr] is the memory that
    [rte_pktmbuf_mtod] points to, [data_len] the number of valid bytes in
    it ([rte_pktmbuf_data_len]). *)
Record rte_mbuf := Mbuf {
  buf_addr : list Byte.byte;
  data_len : nat
}.

(** [struct snbuf]: the head segment [mbuf] (whose data area is
    [pkt->_data]), the header field [nb_segs], and the segments reached
    through [mbuf->next]. *)
Record snbuf := Snbuf {
  snb_id : nat;
  nb_segs : nat;
  mbuf : rte_mbuf;
  next : list rte_mbuf
}.

Definition _data (pkt : snbuf) : list Byte.byte := buf_addr (mbuf pkt).

Definition set__data (pkt : snbuf) (d : list Byte.byte) : snbuf :=
  {| snb_id := snb_id pkt; nb_segs := nb_segs pkt;
     mbuf := {| buf_addr := d; data_len := data_len (mbuf pkt) |};
     next := next pkt |}.

(** The valid bytes of a segment, and of a whole packet. *)
Definition seg_bytes (m : rte_mbuf) : list Byte.byte :=
  take (data_len m) (buf_addr m).

Definition segments (pkt : snbuf) : list rte_mbuf := mbuf pkt :: next pkt.

(** A well-formed packet: the header's segment count is the length of the
    chain. *)
Definition snb_wf (pkt : snbuf) : bool :=
  Nat.eqb (nb_segs pkt) (length (segments pkt)).

(** ** The kernel side *)

(** What the next [recv] on a connected socket meets.  An empty queue on a
    non-blocking socket is the would-block condition. *)
Inductive rx_event :=
| RxDatagram (d : list Byte.byte)
| RxError (e : Z)
| RxShutdown.

Record socket := Socket {
  inbox : list rx_event;
  (** outcomes of the coming [sendmsg] calls that reach the socket: [Some e]
      fails with [errno] [e], [None] (and an exhausted list) delivers the
      datagram *)
  tx_faults : list (option Z);
  outbox : list (list Byte.byte)
}.

(** What the next [accept4] on the listening socket meets; an empty queue
    blocks the caller. *)
Inductive accept_event :=
| AcceptError (e : Z)
| AcceptPeer (s : socket).

Record iovec := Iovec {
  iov_base : list Byte.byte;
  iov_len : nat
}.

(** [struct msghdr].  A field other than the gather list holds its value,
    or nothing when it was never assigned: the object is then a local
    variable declared without an initializer, and what [sendmsg] finds in
    the field is whatever the stack held. *)
Record msghdr := Msghdr {
  msg_name : option Z;
  msg_namelen : option Z;
  msg_iov : list iovec;
  msg_iovlen : nat;
  msg_control : option Z;
  msg_controllen : option Z;
  msg_flags : option Z
}.

(** Calls made by the driver, in the order they were made. *)
Inductive event :=
| Eaccept4 (sockfd ret : Z)
| Edup2 (oldfd newfd ret : Z)
| Eclose (fd ret : Z)
| Epthread_create (ret : Z)
| Elog
| Esnb_alloc (pkt : option nat)
| Esnb_free (pkt : nat)
| Esnb_free_bulk (pkts : list nat)
| Erecv (sockfd len ret : Z)
| Esendmsg (sockfd : Z) (msg : msghdr) (ret : Z).

(** ** The port object *)

Record UnixSocketPort := Port {
  recv_skip_cnt_ : Z;          (* uint32_t *)
  listen_fd_ : Z;
  client_fd_ : Z;
  old_client_fd_ : Z;
  accept_thread_ : Z
}.

Record world := World {
  port : UnixSocketPort;
  errno : Z;
  (** descriptor table: slot [fd] names the socket the descriptor is open
      on, by its index in [socks] *)
  fdtab : list (option nat);
  socks : list socket;
  backlog : list accept_event;
  (** return codes of the coming [pthread_create] calls (exhausted: 0) *)
  spawn_rets : list Z;
  (** Acceptor tasks created so far *)
  threads : nat;
  (** what the coming [sendmsg] calls make of a message header with fields
      that were never assigned: [Some e] when the values found there make
      the call fail with [errno] [e], [None] (and an exhausted list) when
      they are harmless *)
  hdr_junk : list (option Z);
  pool : list snbuf;
  trace : list event
}.

Definition set_port (p : UnixSocketPort) (w : world) : world :=
  {| port := p; errno := errno w; fdtab := fdtab w; socks := socks w;
     backlog := backlog w; spawn_rets := spawn_rets w; threads := threads w;
     hdr_junk := hdr_junk w; pool := pool w; trace := trace w |}.

Definition set_errno (e : Z) (w : world) : world :=
  {| port := port w; errno := e; fdtab := fdtab w; socks := socks w;
     backlog := backlog w; spawn_rets := spawn_rets w; threads := threads w;
     hdr_junk := hdr_junk w; pool := pool w; trace := trace w |}.

Definition set_fdtab (t : list (option nat)) (w : world) : world :=
  {| port := port w; errno := errno w; fdtab := t; socks := socks w;
     backlog := backlog w; spawn_rets := spawn_rets w; threads := threads w;
     hdr_junk := hdr_junk w; pool := pool w; trace := trace w |}.

Definition set_socks (s : list socket) (w : world) : world :=
  {| port := port w; errno := errno w; fdtab := fdtab w; socks := s;
     backlog := backlog w; spawn_rets := spawn_rets w; threads := threads w;
     hdr_junk := hdr_junk w; pool := pool w; trace := trace w |}.

Definition set_backlog (b : list accept_event) (w : world) : world :=
  {| port := port w; errno := errno w; fdtab := fdtab w; socks := socks w;
     backlog := b; spawn_rets := spawn_rets w; threads := threads w;
     hdr_junk := hdr_junk w; pool := pool w; trace := trace w |}.

Definition set_spawn (rs : list Z) (n : nat) (w : world) : world :=
  {| port := port w; errno := errno w; fdtab := fdtab w; socks := socks w;
     backlog := backlog w; spawn_rets := rs; threads := n;
     hdr_junk := hdr_junk w; pool := pool w; trace := trace w |}.

Definition set_hdr_junk (g : list (option Z)) (w : world) : world :=
  {| port := port w; errno := errno w; fdtab := fdtab w; socks := socks w;
     backlog := backlog w; spawn_rets := spawn_rets w; threads := threads w;
     hdr_junk := g; pool := pool w; trace := trace w |}.

Definition set_pool (p : list snbuf) (w : world) : world :=
  {| port := port w; errno := errno w; fdtab := fdtab w; socks := socks w;
     backlog := backlog w; spawn_rets := spawn_rets w; threads := threads w;
     hdr_junk := hdr_junk w; pool := p; trace := trace w |}.

Definition log (e : event) (w : world) : world :=
  {| port := port w; errno := errno w; fdtab := fdtab w; socks := socks w;
     backlog := backlog w; spawn_rets := spawn_rets w; threads := threads w;
     hdr_junk := hdr_junk w; pool := pool w; trace := trace w ++ [e] |}.

Definition with_recv_skip_cnt (v : Z) (p : UnixSocketPort) : UnixSocketPort :=
  {| recv_skip_cnt_ := v; listen_fd_ := listen_fd_ p;
     client_fd_ := client_fd_ p; old_client_fd_ := old_client_fd_ p;
     accept_thread_ := accept_thread_ p |}.

Definition with_client_fd (v : Z) (p : UnixSocketPort) : UnixSocketPort :=
  {| recv_skip_cnt_ := recv_skip_cnt_ p; listen_fd_ := listen_fd_ p;
     client_fd_ := v; old_client_fd_ := old_client_fd_ p;
     accept_thread_ := accept_thread_ p |}.

Definition with_old_client_fd (v : Z) (p : UnixSocketPort) : UnixSocketPort :=
  {| recv_skip_cnt_ := recv_skip_cnt_ p; listen_fd_ := listen_fd_ p;
     client_fd_ := client_fd_ p; old_client_fd_ := v;
     accept_thread_ := accept_thread_ p |}.

Definition with_accept_thread (v : Z) (p : UnixSocketPort) : UnixSocketPort :=
  {| recv_skip_cnt_ := recv_skip_cnt_ p; listen_fd_ := listen_fd_ p;
     client_fd_ := client_fd_ p; old_client_fd_ := old_client_fd_ p;
     accept_thread_ := v |}.

(** ** The monad of driver code

    A computation reads and updates the world; [None] is a computation that
    does not return (blocked for ever, or a dereference of [NULL]). *)

Definition M (A : Type) : Type := world -> option (A * world).

Definition ret {A} (a : A) : M A := fun w => Some (a, w).

Definition bind {A B} (c : M A) (k : A -> M B) : M B :=
  fun w => match c w with
           | Some (a, w') => k a w'
           | None => None
           end.

Definition stuck {A} : M A := fun _ => None.

Definition gets {A} (f : world -> A) : M A := fun w => Some (f w, w).

Definition modify (f : world -> world) : M unit := fun w => Some (tt, f w).

Notation "'let*' x ':=' c 'in' k" := (bind c (fun x => k))
  (at level 10, x pattern, c at level 100, k at level 200).

Notation "c1 ';;' c2" := (bind c1 (fun _ => c2))
  (at level 100, c2 at level 200, right associativity).

Definition this {A} (f : UnixSocketPort -> A) : M A := gets (fun w => f (port w)).

Definition this_set (f : UnixSocketPort -> UnixSocketPort) : M unit :=
  modify (fun w => set_port (f (port w)) w).

(** ** System calls

    The kernel is not part of the driver.  Its calls are modelled after
    their manual pages, as far as the driver can observe them: the result,
    [errno], the descriptor table and the queues of the sockets. *)

(** The socket an open descriptor refers to. *)
Definition fd_lookup (t : list (option nat)) (fd : Z) : option nat :=
  if fd <? 0 then None
  else match t !! Z.to_nat fd with
       | Some (Some s) => Some s
       | _ => None
       end.

(** Store into slot [i] of the descriptor table, growing it when needed. *)
Definition fd_store (t : list (option nat)) (i : nat) (v : option nat)
  : list (option nat) :=
  if (i <? length t)%nat then <[i := v]> t
  else t ++ replicate (i - length t) None ++ [v].

(** The lowest descriptor number that is not in use. *)
Fixpoint lowest_free (t : list (option nat)) : nat :=
  match t with
  | Some _ :: t' => S (lowest_free t')
  | _ => O
  end.

Definition fail (e : Z) : M Z := modify (set_errno e) ;; ret (-1).

(** [accept4(sockfd, NULL, NULL, flags)] on a blocking listening socket. *)
Definition accept4 (sockfd : Z) (flags : Z) : M Z :=
  let* t := gets fdtab in
  let* r :=
    match fd_lookup t sockfd with
    | None => fail EBADF
    | Some _ =>
      let* q := gets backlog in
      match q with
      | [] => stuck
      | AcceptError e :: q' => modify (set_backlog q') ;; fail e
      | AcceptPeer s :: q' =>
        let* ss := gets socks in
        let fd := lowest_free t in
        modify (set_backlog q') ;;
        modify (set_socks (ss ++ [s])) ;;
        modify (set_fdtab (fd_store t fd (Some (length ss)))) ;;
        ret (Z.of_nat fd)
      end
    end in
  modify (log (Eaccept4 sockfd r)) ;;
  ret r.

(** [dup2(oldfd, newfd)]: [newfd] is silently closed first when open. *)
Definition dup2 (oldfd newfd : Z) : M Z :=
  let* t := gets fdtab in
  let* r :=
    match fd_lookup t oldfd with
    | None => fail EBADF
    | Some s =>
      if newfd <? 0 then fail EBADF
      else if newfd =? oldfd then ret newfd
      else modify (set_fdtab (fd_store t (Z.to_nat newfd) (Some s))) ;;
           ret newfd
    end in
  modify (log (Edup2 oldfd newfd r)) ;;
  ret r.

Definition close (fd : Z) : M Z :=
  let* t := gets fdtab in
  let* r :=
    match fd_lookup t fd with
    | None => fail EBADF
    | Some _ => modify (set_fdtab (<[Z.to_nat fd := None]> t)) ;; ret 0
    end in
  modify (log (Eclose fd r)) ;;
  ret r.

(** [pthread_create(&thread, NULL, AcceptThreadMain, this)]: returns 0 and
    starts an Acceptor task, or returns an error number. *)
Definition pthread_create : M Z :=
  let* rs := gets spawn_rets in
  let* n := gets threads in
  let r := hd 0 rs in
  modify (set_spawn (tl rs) (if r =? 0 then S n else n)) ;;
  (if r =? 0 then this_set (with_accept_thread (Z.of_nat (S n))) else ret tt) ;;
  modify (log (Epthread_create r)) ;;
  ret r.

Definition log_perr : M unit := modify (log Elog).
Definition log_err : M unit := modify (log Elog).

(** The socket behind a descriptor, with its index in [socks]. *)
Definition sock_of (w : world) (fd : Z) : option (nat * socket) :=
  match fd_lookup (fdtab w) fd with
  | Some i => match socks w !! i with
              | Some s => Some (i, s)
              | None => None
              end
  | None => None
  end.

Definition put_sock (i : nat) (s : socket) : M unit :=
  modify (fun w => set_socks (<[i := s]> (socks w)) w).

(** [recv(sockfd, buf, len, 0)]: the result and the new contents of [buf].
    A datagram longer than [len] is cut to [len] bytes; an empty queue on
    the non-blocking socket is [EAGAIN]; after the peer's shutdown every
    read returns 0. *)
Definition recv (sockfd : Z) (buf : list Byte.byte) (len : Z)
  : M (Z * list Byte.byte) :=
  let* o := gets (fun w => sock_of w sockfd) in
  let* (r, buf') :=
    match o with
    | None => let* r := fail EBADF in ret (r, buf)
    | Some (i, s) =>
      match inbox s with
      | [] => let* r := fail EAGAIN in ret (r, buf)
      | RxError e :: q =>
        put_sock i (Socket q (tx_faults s) (outbox s)) ;;
        let* r := fail e in ret (r, buf)
      | RxShutdown :: _ => ret (0, buf)
      | RxDatagram d :: q =>
        let n := Nat.min (length d) (Z.to_nat len) in
        put_sock i (Socket q (tx_faults s) (outbox s)) ;;
        ret (Z.of_nat n, take n d ++ drop n buf)
      end
    end in
  modify (log (Erecv sockfd len r)) ;;
  ret (r, buf').

(** The datagram a gather list denotes. *)
Definition gather (msg : msghdr) : list Byte.byte :=
  concat (map (fun v => take (iov_len v) (iov_base v))
              (take (msg_iovlen msg) (msg_iov msg))).

(** A header that asks for nothing but the gather list: no address, no
    ancillary data, no flags. *)
Definition header_clean (msg : msghdr) : bool :=
  bool_decide (msg_name msg = Some 0 /\ msg_namelen msg = Some 0 /\
               msg_control msg = Some 0 /\ msg_controllen msg = Some 0 /\
               msg_flags msg = Some 0).

(** The kernel reading the header of a message: a clean header is accepted;
    what it makes of any other, of the fields never assigned above all, is
    not decided by the caller. *)
Definition read_header (msg : msghdr) : M (option Z) :=
  if header_clean msg then ret None
  else
    let* g := gets hdr_junk in
    modify (set_hdr_junk (tl g)) ;;
    ret (hd None g).

(** [sendmsg(sockfd, &msg, 0)]: one datagram per call.  The descriptor is
    looked up first, the header is read next, and only then does the call
    reach the socket. *)
Definition sendmsg (sockfd : Z) (msg : msghdr) : M Z :=
  let* o := gets (fun w => sock_of w sockfd) in
  let* r :=
    match o with
    | None => fail EBADF
    | Some (i, s) =>
      let* v := read_header msg in
      match v with
      | Some e => fail e
      | None =>
        match tx_faults s with
        | Some e :: f =>
          put_sock i (Socket (inbox s) f (outbox s)) ;;
          fail e
        | f =>
          let d := gather msg in
          put_sock i (Socket (inbox s) (tl f) (outbox s ++ [d])) ;;
          ret (Z.of_nat (length d))
        end
      end
    end in
  modify (log (Esendmsg sockfd msg r)) ;;
  ret r.

(** ** The packet-buffer allocator *)

(** Modelled from the spec: [snb_alloc] of snbuf.h, "allocate() ->
    Option<Buffer>".  It takes a buffer from the pool and hands it out as
    one empty segment, or gives [NULL] when the pool is exhausted. *)
Definition snb_alloc : M (option snbuf) :=
  let* p := gets pool in
  match p with
  | [] => modify (log (Esnb_alloc None)) ;; ret None
  | b :: p' =>
    modify (set_pool p') ;;
    modify (log (Esnb_alloc (Some (snb_id b)))) ;;
    ret (Some {| snb_id := snb_id b; nb_segs := 1;
                 mbuf := {| buf_addr := _data b; data_len := 0 |};
                 next := [] |})
  end.

(** Modelled from the spec: [snb_free] of snbuf.h, "release(Buffer)". *)
Definition snb_free (pkt : snbuf) : M unit :=
  let* p := gets pool in
  modify (set_pool (pkt :: p)) ;;
  modify (log (Esnb_free (snb_id pkt))).

(** Modelled from the spec: [snb_free_bulk] of snbuf.h,
    "release_bulk(Buffer[])": the first [cnt] entries of the array. *)
Definition snb_free_bulk (pkts : list snbuf) (cnt : Z) : M unit :=
  let* p := gets pool in
  let released := take (Z.to_nat cnt) pkts in
  modify (set_pool (released ++ p)) ;;
  modify (log (Esnb_free_bulk (map snb_id released))).

(** Modelled from the spec: [snb_append] of snbuf.h, the
    "append-with-length operation" on the "fixed-capacity writable region":
    [len] more bytes of the data area become valid when they fit. *)
Definition snb_append (pkt : snbuf) (len : Z) : snbuf :=
  let m := mbuf pkt in
  if (Z.of_nat (data_len m) + len <=? SNBUF_DATA) && (0 <=? len) then
    {| snb_id := snb_id pkt; nb_segs := nb_segs pkt;
       mbuf := {| buf_addr := buf_addr m;
                  data_len := data_len m + Z.to_nat len |};
       next := next pkt |}
  else pkt.

(** ** The driver *)

(** The accept loop of [AcceptNewClient]; [fuel] bounds its iterations. *)
Fixpoint accept_loop (fuel : nat) : M Z :=
  match fuel with
  | O => stuck
  | S fuel' =>
    let* lfd := this listen_fd_ in
    let* r := accept4 lfd SOCK_NONBLOCK in
    if 0 <=? r then ret r
    else
      let* e := gets errno in
      (if negb (e =? EINTR) then log_perr else ret tt) ;;
      accept_loop fuel'
  end.

(** [AcceptNewClient()].  The loop gets fuel for every event queued on the
    listening socket and one more iteration; it does not return when the
    queue runs out before a peer connects, or when the listening descriptor
    is not open. *)
Definition AcceptNewClient : M unit :=
  let* q := gets backlog in
  let* r := accept_loop (S (length q)) in
  this_set (with_recv_skip_cnt 0) ;;
  let* old := this old_client_fd_ in
  if negb (old =? NOT_CONNECTED) then
    let* cfd := this client_fd_ in
    dup2 r cfd ;;
    close r ;;
    ret tt
  else
    this_set (with_client_fd r).

(** [CloseConnection()]. *)
Definition CloseConnection : M unit :=
  let* cfd := this client_fd_ in
  this_set (with_old_client_fd cfd) ;;
  this_set (with_client_fd NOT_CONNECTED) ;;
  let* r := pthread_create in
  this_set (with_accept_thread 0) ;;
  (if negb (r =? 0) then log_err else ret tt).

(** The receive loop, entered with [received] buffers already stored in the
    caller's array [pkts]; the store [pkts[received++] = pkt] fills the array
    from its start, so that [pkts] lists the filled entries in order.
    Every iteration that goes round again has taken an event out of the
    socket's queue, and [fuel] bounds their number. *)
Fixpoint recv_loop (fuel : nat) (client_fd cnt : Z) (pkts : list snbuf)
    (received : Z) : M (list snbuf * Z) :=
  match fuel with
  | O => stuck
  | S fuel' =>
    if received <? cnt then
      let* a := snb_alloc in
      match a with
      | None => ret (pkts, received)
      | Some pkt =>
        let* (r, d) := recv client_fd (_data pkt) SNBUF_DATA in
        let pkt := set__data pkt d in
        if 0 <? r then
          let pkt := snb_append pkt r in
          recv_loop fuel' client_fd cnt (pkts ++ [pkt]) (received + 1)
        else
          snb_free pkt ;;
          let* e := gets errno in
          if (r <? 0) && ((e =? EAGAIN) || (e =? EWOULDBLOCK)) then
            ret (pkts, received)
          else if (r <? 0) && (e =? EINTR) then
            recv_loop fuel' client_fd cnt pkts received
          else
            CloseConnection ;;
            ret (pkts, received)
      end
    else ret (pkts, received)
  end.

(** The events queued on the socket behind a descriptor. *)
Definition pending (w : world) (fd : Z) : list rx_event :=
  match sock_of w fd with
  | Some (_, s) => inbox s
  | None => []
  end.

(** [RecvPackets(qid, pkts, cnt)]: the buffers stored in [pkts] and their
    number.  The loop gets fuel for every event queued on the connection and
    one more iteration, which is all it can use ([recv_loop_returns]). *)
Definition RecvPackets (cnt : Z) : M (list snbuf * Z) :=
  let* client_fd := this client_fd_ in
  if client_fd =? NOT_CONNECTED then ret ([], 0)
  else
    let* skip := this recv_skip_cnt_ in
    if negb (skip =? 0) then
      this_set (with_recv_skip_cnt ((skip - 1) mod 2 ^ 32)) ;;
      ret ([], 0)
    else
      let* q := gets (fun w => pending w client_fd) in
      let* (pkts, received) := recv_loop (S (length q)) client_fd cnt [] 0 in
      (if received =? 0 then this_set (with_recv_skip_cnt RECV_SKIP_TICKS)
       else ret tt) ;;
      ret (pkts, received).

(** The inner loop of [SendPackets]: one [iovec] per segment, for [nb_segs]
    segments along the chain; running off the chain dereferences [NULL]. *)
Fixpoint fill_iov (nb_segs : nat) (mbuf : list rte_mbuf)
  : option (list iovec) :=
  match nb_segs with
  | O => Some []
  | S j =>
    match mbuf with
    | [] => None
    | m :: next =>
      match fill_iov j next with
      | Some iov => Some ({| iov_base := buf_addr m; iov_len := data_len m |} :: iov)
      | None => None
      end
    end
  end.

(** The outer loop of [SendPackets], with [n] iterations left before
    [i < cnt] fails.  Of [struct msghdr msg], declared without an
    initializer, the body assigns [msg_iov] and [msg_iovlen] and no other
    field. *)
Fixpoint send_loop (n : nat) (client_fd : Z) (pkts : list snbuf) (i : nat)
    (sent : Z) : M Z :=
  match n with
  | O => ret sent
  | S n' =>
    match pkts !! i with
    | None => stuck
    | Some pkt =>
      match fill_iov (nb_segs pkt) (segments pkt) with
      | None => stuck
      | Some iov =>
        let msg := {| msg_name := None; msg_namelen := None;
                      msg_iov := iov; msg_iovlen := nb_segs pkt;
                      msg_control := None; msg_controllen := None;
                      msg_flags := None |} in
        let* r := sendmsg client_fd msg in
        if r <? 0 then ret sent
        else send_loop n' client_fd pkts (S i) (sent + 1)
      end
    end
  end.

(** [SendPackets(qid, pkts, cnt)]: the number of buffers sent. *)
Definition SendPackets (pkts : list snbuf) (cnt : Z) : M Z :=
  let* client_fd := this client_fd_ in
  let* sent := send_loop (Z.to_nat cnt) client_fd pkts 0 0 in
  (if negb (sent =? 0) then snb_free_bulk pkts sent else ret tt) ;;
  ret sent.

(** ** Vocabulary of the statements *)

Definition iov_of (m : rte_mbuf) : iovec :=
  {| iov_base := buf_addr m; iov_len := data_len m |}.

(** The message header [SendPackets] builds for a packet. *)
Definition msg_of (pkt : snbuf) : msghdr :=
  {| msg_name := None; msg_namelen := None;
     msg_iov := map iov_of (segments pkt); msg_iovlen := nb_segs pkt;
     msg_control := None; msg_controllen := None; msg_flags := None |}.

(** The bytes of a packet: its segments' valid bytes, in chain order. *)
Definition payload (pkt : snbuf) : list Byte.byte :=
  concat (map seg_bytes (segments pkt)).

(** The trace entry of a write of [pkt] that went through, and of one that
    failed. *)
Definition sent_event (fd : Z) (pkt : snbuf) : event :=
  Esendmsg fd (msg_of pkt) (Z.of_nat (length (payload pkt))).

Definition unsent_event (fd : Z) (pkt : snbuf) : event :=
  Esendmsg fd (msg_of pkt) (-1).

(** Among the next [n] outcomes [f], the number of good ones before the
    first that is a failure. *)
Fixpoint writes_before_failure (f : list (option Z)) (n : nat) : nat :=
  match n with
  | O => O
  | S n' =>
    match f with
    | Some _ :: _ => O
    | _ => S (writes_before_failure (tl f) n')
    end
  end.

(** Among the next [n] writes of the driver on a descriptor, the number that
    go through before the first one that fails, on its header or on the
    socket: none when the descriptor is not open on a socket. *)
Definition sendable (w : world) (fd : Z) (n : nat) : nat :=
  match sock_of w fd with
  | Some (_, s) =>
    Nat.min (writes_before_failure (hdr_junk w) n)
            (writes_before_failure (tx_faults s) n)
  | None => O
  end.

(** The buffer [snb_alloc] hands out when [b] heads the pool. *)
Definition fresh (b : snbuf) : snbuf :=
  {| snb_id := snb_id b; nb_segs := 1;
     mbuf := {| buf_addr := _data b; data_len := 0 |}; next := [] |}.

(** One call of a data path that returned. *)
Inductive data_path_step (w w' : world) : Prop :=
| step_recv (cnt : Z) (r : list snbuf * Z) :
    RecvPackets cnt w = Some (r, w') -> data_path_step w w'
| step_send (pkts : list snbuf) (cnt k : Z) :
    SendPackets pkts cnt w = Some (k, w') -> data_path_step w w'.

(** One call of an entry point of the driver that returned: the Acceptor
    task, or a data path. *)
Inductive driver_step (w w' : world) : Prop :=
| step_accept : AcceptNewClient w = Some (tt, w') -> driver_step w w'
| step_data : data_path_step w w' -> driver_step w w'.

(** While a descriptor is retired, no connection is active. *)
Definition retired_means_idle (w : world) : Prop :=
  old_client_fd_ (port w) <> NOT_CONNECTED ->
  client_fd_ (port w) = NOT_CONNECTED.

(** A trace entry that belongs to connection-loss handling. *)
Definition is_loss_event (e : event) : bool :=
  match e with
  | Epthread_create _ | Elog => true
  | _ => false
  end.


(** The world once [snb_free] has put [pkt] back. *)
Definition released (pkt : snbuf) (w : world) : world :=
  log (Esnb_free (snb_id pkt)) (set_pool (pkt :: pool w) w).

(** What the data paths leave alone outside the port object: the descriptor
    table, the accept queue and the Acceptor tasks. *)
Definition kernel_frame (w w' : world) : Prop :=
  fdtab w' = fdtab w /\ backlog w' = backlog w /\
  spawn_rets w' = spawn_rets w /\ threads w' = threads w.

(** The buffer the receive loop stores for a datagram [d] read into the
    buffer [b] taken from the pool, and the world after that read. *)
Definition filled (b : snbuf) (d : list Byte.byte) : snbuf :=
  let n := Nat.min (length d) (Z.to_nat SNBUF_DATA) in
  snb_append (set__data (fresh b) (take n d ++ drop n (_data b))) (Z.of_nat n).

Definition after_read (fd : Z) (i : nat) (s : socket) (b : snbuf)
    (rest : list snbuf) (d : list Byte.byte) (q : list rx_event) (w : world)
  : world :=
  let n := Nat.min (length d) (Z.to_nat SNBUF_DATA) in
  log (Erecv fd SNBUF_DATA (Z.of_nat n))
    (set_socks (<[i := Socket q (tx_faults s) (outbox s)]> (socks w))
       (log (Esnb_alloc (Some (snb_id b))) (set_pool rest w))).

(** Successive calls of the receive path, one per requested count. *)
Fixpoint polls (cnts : list Z) : M (list (list snbuf * Z)) :=
  match cnts with
  | [] => ret []
  | cnt :: cnts' =>
    let* r := RecvPackets cnt in
    let* rs := polls cnts' in
    ret (r :: rs)
  end.

(** ** Example worlds

    A process with its three standard descriptors, the listening socket on
    descriptor 3 and, once a peer is connected, the connection on
    descriptor 4. *)

Definition tty : socket := Socket [] [] [].

Definition blank (id : nat) : snbuf :=
  {| snb_id := id; nb_segs := 1;
     mbuf := {| buf_addr := replicate 4 Byte.x00; data_len := 0 |};
     next := [] |}.

(** The world [Init] leaves behind, with peers [q] about to connect. *)
Definition booted (q : list accept_event) (pl : list snbuf) : world :=
  {| port := {| recv_skip_cnt_ := 0; listen_fd_ := 3;
                client_fd_ := NOT_CONNECTED; old_client_fd_ := NOT_CONNECTED;
                accept_thread_ := 0 |};
     errno := 0;
     fdtab := [Some 0; Some 0; Some 0; Some 1]%nat;
     socks := [tty; tty];
     backlog := q; spawn_rets := []; threads := 1; hdr_junk := [];
     pool := pl; trace := [] |}.

(** The world with the first peer connected on the socket [s], and the
    Idle-Poll Counter at [skip]. *)
Definition connected (skip : Z) (s : socket) (pl : list snbuf) : world :=
  {| port := {| recv_skip_cnt_ := skip; listen_fd_ := 3;
                client_fd_ := 4; old_client_fd_ := NOT_CONNECTED;
                accept_thread_ := 0 |};
     errno := 0;
     fdtab := [Some 0; Some 0; Some 0; Some 1; Some 2]%nat;
     socks := [tty; tty; s];
     backlog := []; spawn_rets := []; threads := 1; hdr_junk := [];
     pool := pl; trace := [] |}.

(** A packet of one segment holding [d]. *)
Definition packet (id : nat) (d : list Byte.byte) : snbuf :=
  {| snb_id := id; nb_segs := 1;
     mbuf := {| buf_addr := d; data_len := length d |}; next := [] |}.

(** A packet of three segments, of 1, 2 and 3 bytes. *)
Definition chained : snbuf :=
  {| snb_id := 7; nb_segs := 3;
     mbuf := {| buf_addr := [Byte.x61; Byte.x00]; data_len := 1 |};
     next := [ {| buf_addr := [Byte.x62; Byte.x63]; data_len := 2 |};
               {| buf_addr := [Byte.x64; Byte.x65; Byte.x66; Byte.x00];
                  data_len := 3 |} ] |}.

(** ** Setup and teardown

    [Init] and [DeInit] work on more than the data paths do: the address
    the port listens on, the name space of socket addresses, and the thread
    calls of teardown.  A [host] is the world of the data paths together
    with these. *)

Definition AF_UNIX : Z := 1.
Definition SOCK_SEQPACKET : Z := 5.
Definition ENOENT : Z := 2.
Definition EINVAL : Z := 22.
Definition EADDRINUSE : Z := 98.

(** Modelled from the spec: [P_tmpdir] of <stdio.h>, and the sizes of the
    members of [struct sockaddr_un] of <sys/un.h>. *)
Definition P_tmpdir : string := "/tmp"%string.
Definition sizeof_sun_family : Z := 2.
Definition sizeof_sun_path : nat := 108.

Record sockaddr_un := SockaddrUn {
  sun_family : Z;
  sun_path : string
}.

(** Modelled from the spec: [snobj_err] of snobj.h is not part of the
    driver file; the error object it builds carries the error code and the
    formatted message. *)
Record snobj := snobj_err {
  err_code : Z;
  err_msg : string
}.

(** Calls of setup and teardown, in the order they were made. *)
Inductive host_event :=
| Hsocket (domain type protocol ret : Z)
| Hunlink (pathname : string) (ret : Z)
| Hbind (sockfd : Z) (addr : sockaddr_un) (addrlen ret : Z)
| Hlisten (sockfd backlog ret : Z)
| Hpthread_cancel (thread : Z)
| Hpthread_detach.

Record host := Host {
  kernel : world;
  addr_ : sockaddr_un;
  (** the socket addresses in use: path names, and abstract names, which
      start with a NUL *)
  names : list string;
  (** what the kernel answers to [socket], [bind] and [listen] when it
      refuses them for a reason of its own *)
  socket_fault : option Z;
  bind_fault : option Z;
  listen_fault : option Z;
  syslog : list host_event
}.

Definition set_kernel (w : world) (h : host) : host :=
  {| kernel := w; addr_ := addr_ h; names := names h;
     socket_fault := socket_fault h; bind_fault := bind_fault h;
     listen_fault := listen_fault h; syslog := syslog h |}.

Definition set_addr (a : sockaddr_un) (h : host) : host :=
  {| kernel := kernel h; addr_ := a; names := names h;
     socket_fault := socket_fault h; bind_fault := bind_fault h;
     listen_fault := listen_fault h; syslog := syslog h |}.

Definition set_names (l : list string) (h : host) : host :=
  {| kernel := kernel h; addr_ := addr_ h; names := l;
     socket_fault := socket_fault h; bind_fault := bind_fault h;
     listen_fault := listen_fault h; syslog := syslog h |}.

Definition hlog (e : host_event) (h : host) : host :=
  {| kernel := kernel h; addr_ := addr_ h; names := names h;
     socket_fault := socket_fault h; bind_fault := bind_fault h;
     listen_fault := listen_fault h; syslog := syslog h ++ [e] |}.

Definition with_listen_fd (v : Z) (p : UnixSocketPort) : UnixSocketPort :=
  {| recv_skip_cnt_ := recv_skip_cnt_ p; listen_fd_ := v;
     client_fd_ := client_fd_ p; old_client_fd_ := old_client_fd_ p;
     accept_thread_ := accept_thread_ p |}.

(** Code over a host; the code of the data paths runs on its kernel. *)
Definition H (A : Type) : Type := host -> option (A * host).

Definition hret {A} (a : A) : H A := fun h => Some (a, h).

Definition hbind {A B} (c : H A) (k : A -> H B) : H B :=
  fun h => match c h with
           | Some (a, h') => k a h'
           | None => None
           end.

Definition lift {A} (c : M A) : H A :=
  fun h => match c (kernel h) with
           | Some (a, w) => Some (a, set_kernel w h)
           | None => None
           end.

Definition hgets {A} (f : host -> A) : H A := fun h => Some (f h, h).

Definition hmodify (f : host -> host) : H unit := fun h => Some (tt, f h).

Notation "'let+' x ':=' c 'in' k" := (hbind c (fun x => k))
  (at level 10, x pattern, c at level 100, k at level 200).

Notation "c1 ';+' c2" := (hbind c1 (fun _ => c2))
  (at level 100, c2 at level 200, right associativity).

(** *** C strings *)

(** The characters a [%s] conversion or [strlen] reads: those before the
    first NUL. *)
Fixpoint c_str (s : string) : string :=
  match s with
  | EmptyString => EmptyString
  | String c s' => if Ascii.eqb c Ascii.zero then EmptyString
                   else String c (c_str s')
  end.

Definition strlen (s : string) : Z := Z.of_nat (String.length (c_str s)).

Fixpoint str_take (n : nat) (s : string) : string :=
  match n, s with
  | S n', String c s' => String c (str_take n' s')
  | _, _ => EmptyString
  end.

(** [snprintf(buf, size, ...)]: the formatted text, cut to [size - 1]
    characters. *)
Definition snprintf (size : nat) (text : string) : string :=
  str_take (Nat.pred size) text.

(** [s[0]], which is the terminating NUL of an empty string. *)
Definition first_char (s : string) : Ascii.ascii :=
  match s with
  | String c _ => c
  | EmptyString => Ascii.zero
  end.

(** [s[0] = c] *)
Definition set_first_char (c : Ascii.ascii) (s : string) : string :=
  match s with
  | String _ s' => String c s'
  | EmptyString => String c EmptyString
  end.

(** *** System calls of setup and teardown *)

Definition hfail (e : Z) : H Z := lift (fail e).

(** [socket(domain, type, protocol)]: a new socket on the lowest free
    descriptor. *)
Definition sys_socket (domain type protocol : Z) : H Z :=
  let+ f := hgets socket_fault in
  let+ r :=
    match f with
    | Some e => hfail e
    | None =>
      lift (let* t := gets fdtab in
            let* ss := gets socks in
            let fd := lowest_free t in
            modify (set_socks (ss ++ [Socket [] [] []])) ;;
            modify (set_fdtab (fd_store t fd (Some (length ss)))) ;;
            ret (Z.of_nat fd))
    end in
  hmodify (hlog (Hsocket domain type protocol r)) ;+
  hret r.

(** [unlink(pathname)]: the name is free afterwards. *)
Definition unlink (pathname : string) : H Z :=
  let+ l := hgets names in
  let+ r :=
    if bool_decide (c_str pathname ∈ l) then
      hmodify (set_names (filter (fun n => n <> c_str pathname) l)) ;+ hret 0
    else hfail ENOENT in
  hmodify (hlog (Hunlink pathname r)) ;+
  hret r.

(** The name an address gives a socket: the [addrlen - sizeof(sun_family)]
    first characters of [sun_path]. *)
Definition sockaddr_name (addr : sockaddr_un) (addrlen : Z) : string :=
  str_take (Z.to_nat (addrlen - sizeof_sun_family)) (sun_path addr).

(** [bind(sockfd, &addr, addrlen)]: refused when the name is in use; with
    no name at all the kernel binds the socket to a name of its choice. *)
Definition sys_bind (sockfd : Z) (addr : sockaddr_un) (addrlen : Z) : H Z :=
  let+ t := lift (gets fdtab) in
  let+ f := hgets bind_fault in
  let+ l := hgets names in
  let name := sockaddr_name addr addrlen in
  let+ r :=
    match fd_lookup t sockfd, f with
    | None, _ => hfail EBADF
    | Some _, Some e => hfail e
    | Some _, None =>
      if bool_decide (name = EmptyString) then hret 0
      else if bool_decide (name ∈ l) then hfail EADDRINUSE
      else hmodify (set_names (name :: l)) ;+ hret 0
    end in
  hmodify (hlog (Hbind sockfd addr addrlen r)) ;+
  hret r.

Definition listen (sockfd backlog : Z) : H Z :=
  let+ t := lift (gets fdtab) in
  let+ f := hgets listen_fault in
  let+ r :=
    match fd_lookup t sockfd, f with
    | None, _ => hfail EBADF
    | Some _, Some e => hfail e
    | Some _, None => hret 0
    end in
  hmodify (hlog (Hlisten sockfd backlog r)) ;+
  hret r.

Definition pthread_cancel (thread : Z) : H unit :=
  hmodify (hlog (Hpthread_cancel thread)).

Definition pthread_detach : H unit := hmodify (hlog Hpthread_detach).

(** *** The driver's setup and teardown *)

(** The object as constructed, every member at its initializer [{0}]. *)
Definition constructed : UnixSocketPort :=
  {| recv_skip_cnt_ := 0; listen_fd_ := 0; client_fd_ := 0;
     old_client_fd_ := 0; accept_thread_ := 0 |}.

(** [AcceptThreadMain(arg)] *)
Definition AcceptThreadMain : H unit :=
  pthread_detach ;+
  lift AcceptNewClient.

(** [Init(conf)], for a port called [name] with [num_txq] and [num_rxq]
    queues; [path] is [snobj_eval_str(conf, "path")].  The result is the
    error object, or none for [NULL]. *)
Definition Init (num_txq num_rxq : Z) (name : string) (path : option string)
  : H (option snobj) :=
  lift (this_set (with_client_fd NOT_CONNECTED)) ;+
  lift (this_set (with_old_client_fd NOT_CONNECTED)) ;+
  if (1 <? num_txq) || (1 <? num_rxq) then
    hret (Some (snobj_err EINVAL "Cannot have more than 1 queue per RX/TX"%string))
  else
    let+ fd := sys_socket AF_UNIX SOCK_SEQPACKET 0 in
    lift (this_set (with_listen_fd fd)) ;+
    if fd <? 0 then
      let+ e := lift (gets errno) in
      hret (Some (snobj_err e "socket(AF_UNIX) failed"%string))
    else
      let p :=
        match path with
        | Some path => snprintf sizeof_sun_path (c_str path)
        | None =>
          snprintf sizeof_sun_path
                   (c_str P_tmpdir +:+ "/bess_unix_"%string +:+ c_str name)
        end in
      hmodify (set_addr {| sun_family := AF_UNIX; sun_path := p |}) ;+
      let addrlen := sizeof_sun_family + strlen p in
      (if negb (Ascii.eqb (first_char p) "@"%char) then
         unlink p ;+ hret tt
       else
         hmodify (set_addr {| sun_family := AF_UNIX;
                              sun_path := set_first_char Ascii.zero p |})) ;+
      let+ a := hgets addr_ in
      let+ r := sys_bind fd a addrlen in
      if r <? 0 then
        let+ e := lift (gets errno) in
        hret (Some (snobj_err e ("bind("%string +:+ c_str (sun_path a)
                                +:+ ") failed"%string)))
      else
        let+ r := listen fd 1 in
        if r <? 0 then
          let+ e := lift (gets errno) in
          hret (Some (snobj_err e "listen() failed"%string))
        else
          let+ r := lift pthread_create in
          lift (this_set (with_accept_thread 0)) ;+
          if negb (r =? 0) then
            hret (Some (snobj_err r "pthread_create() failed"%string))
          else hret None.

(** [DeInit()] *)
Definition DeInit : H unit :=
  let+ t := lift (this accept_thread_) in
  (if negb (t =? 0) then pthread_cancel t else hret tt) ;+
  let+ l := lift (this listen_fd_) in
  lift (close l) ;+
  let+ c := lift (this client_fd_) in
  if 0 <=? c then lift (close c) ;+ hret tt else hret tt.

(** ** Vocabulary of the further properties *)

(** The port object after [CloseConnection]. *)
Definition closed (p : UnixSocketPort) : UnixSocketPort :=
  {| recv_skip_cnt_ := recv_skip_cnt_ p; listen_fd_ := listen_fd_ p;
     client_fd_ := NOT_CONNECTED; old_client_fd_ := client_fd_ p;
     accept_thread_ := 0 |}.

(** The trace of one failed [accept4] in the accept loop. *)
Definition accept_failure (lfd : Z) (e : Z) : list event :=
  Eaccept4 lfd (-1) :: (if e =? EINTR then [] else [Elog]).

(** What holds of the port object from [Init] on: [accept_thread_] is zero,
    the Idle-Poll Counter is within its range, and a retired descriptor
    goes with an idle slot. *)
Definition driver_inv (w : world) : Prop :=
  accept_thread_ (port w) = 0 /\
  0 <= recv_skip_cnt_ (port w) <= RECV_SKIP_TICKS /\
  retired_means_idle w.

(** The path [Init] puts in [addr_.sun_path], the address it binds, and the
    length it passes to [bind]. *)
Definition init_sun_path (name : string) (path : option string) : string :=
  match path with
  | Some path => snprintf sizeof_sun_path (c_str path)
  | None => snprintf sizeof_sun_path
                     (c_str P_tmpdir +:+ "/bess_unix_"%string +:+ c_str name)
  end.

Definition is_abstract (p : string) : bool := Ascii.eqb (first_char p) "@"%char.

Definition init_addr (name : string) (path : option string) : sockaddr_un :=
  let p := init_sun_path name path in
  {| sun_family := AF_UNIX;
     sun_path := if is_abstract p then set_first_char Ascii.zero p else p |}.

Definition init_addrlen (name : string) (path : option string) : Z :=
  sizeof_sun_family + strlen (init_sun_path name path).

(** A process with its three standard descriptors and a port object just
    constructed. *)
Definition process (q : list accept_event) : world :=
  {| port := constructed; errno := 0;
     fdtab := [Some 0; Some 0; Some 0]%nat; socks := [tty];
     backlog := q; spawn_rets := []; threads := 0; hdr_junk := [];
     pool := []; trace := [] |}.

(** A host where the socket addresses [l] are in use. *)
Definition machine (q : list accept_event) (l : list string) : host :=
  {| kernel := process q; addr_ := {| sun_family := 0; sun_path := EmptyString |};
     names := l; socket_fault := None; bind_fault := None;
     listen_fault := None; syslog := [] |}.

(** * Proofs *)

(** ** Running monadic code *)

Ltac mstep :=
  repeat (progress (unfold bind, ret, gets, modify, fail, stuck, this,
                           this_set, log_err, log_perr, put_sock in *;
                    cbn in * )).

Ltac unfold_setters :=
  unfold set_port, set_errno, set_fdtab, set_socks, set_backlog, set_spawn,
         set_hdr_junk, set_pool, log, with_recv_skip_cnt, with_client_fd,
         with_old_client_fd, with_accept_thread in *;
  cbn in *.

Lemma bind_Some {A B} (c : M A) (k : A -> M B) (w : world) (b : B) (w' : world) :
  bind c k w = Some (b, w') ->
  exists a w1, c w = Some (a, w1) /\ k a w1 = Some (b, w').
Proof.
  unfold bind. destruct (c w) as [[a w1]|]; [|discriminate].
  intros H. exists a, w1. split; [reflexivity|exact H].
Qed.

Lemma bind_run {A B} (c : M A) (k : A -> M B) (w : world) (a : A) (w1 : world) :
  c w = Some (a, w1) -> bind c k w = k a w1.
Proof. unfold bind. intros ->. reflexivity. Qed.

Lemma kernel_frame_refl w : kernel_frame w w.
Proof. repeat split. Qed.

Lemma kernel_frame_trans w1 w2 w3 :
  kernel_frame w1 w2 -> kernel_frame w2 w3 -> kernel_frame w1 w3.
Proof. unfold kernel_frame. intuition congruence. Qed.

(** ** Descriptors and sockets *)

Lemma fd_lookup_NOT_CONNECTED (t : list (option nat)) :
  fd_lookup t NOT_CONNECTED = None.
Proof. reflexivity. Qed.

Lemma sock_of_NOT_CONNECTED (w : world) : sock_of w NOT_CONNECTED = None.
Proof. reflexivity. Qed.

Lemma sock_of_put (w : world) (fd : Z) (i : nat) (s s' : socket) :
  sock_of w fd = Some (i, s) ->
  sock_of (set_socks (<[i := s']> (socks w)) w) fd = Some (i, s').
Proof.
  unfold sock_of. cbn.
  destruct (fd_lookup (fdtab w) fd) as [j|]; [|discriminate].
  destruct (socks w !! j) as [s0|] eqn:Hj; [|discriminate].
  intros H. inversion H; subst j s0.
  rewrite list_lookup_insert_eq; [reflexivity|].
  eapply lookup_lt_Some; eassumption.
Qed.

(** [sock_of] reads the descriptor table and the sockets only. *)
Lemma sock_of_ext (w w' : world) (fd : Z) :
  fdtab w' = fdtab w -> socks w' = socks w -> sock_of w' fd = sock_of w fd.
Proof. unfold sock_of. intros -> ->. reflexivity. Qed.

Lemma sock_of_log (e : event) (w : world) (fd : Z) :
  sock_of (log e w) fd = sock_of w fd.
Proof. reflexivity. Qed.

(** ** [sendmsg], case by case *)

Lemma sendmsg_closed (fd : Z) (msg : msghdr) (w : world) :
  sock_of w fd = None ->
  sendmsg fd msg w = Some (-1, log (Esendmsg fd msg (-1)) (set_errno EBADF w)).
Proof. unfold sendmsg. mstep. intros ->. reflexivity. Qed.

Lemma header_of_packet (pkt : snbuf) : header_clean (msg_of pkt) = false.
Proof. apply bool_decide_eq_false_2. intros [H _]. discriminate H. Qed.

Lemma junk_case (f : list (option Z)) :
  (exists e f', f = Some e :: f') \/ (forall e f', f <> Some e :: f').
Proof.
  destruct f as [|[e|] f]; [right|left|right]; try congruence; eauto.
Qed.

Lemma hd_harmless (g : list (option Z)) :
  (forall e g', g <> Some e :: g') -> hd None g = None.
Proof.
  intros H. destruct g as [|[e|] g]; try reflexivity.
  exfalso. eapply H. reflexivity.
Qed.

(** The header is refused: the call fails before it reaches the socket. *)
Lemma sendmsg_rejected (fd : Z) (msg : msghdr) (w : world) i s e g :
  sock_of w fd = Some (i, s) ->
  header_clean msg = false ->
  hdr_junk w = Some e :: g ->
  sendmsg fd msg w =
  Some (-1, log (Esendmsg fd msg (-1)) (set_errno e (set_hdr_junk g w))).
Proof.
  unfold sendmsg, read_header. intros Hs Hc Hg. rewrite Hc. mstep.
  rewrite Hs, Hg. reflexivity.
Qed.

Lemma sendmsg_fault (fd : Z) (msg : msghdr) (w : world) i s e f :
  sock_of w fd = Some (i, s) ->
  header_clean msg = false ->
  (forall e' g, hdr_junk w <> Some e' :: g) ->
  tx_faults s = Some e :: f ->
  sendmsg fd msg w =
  Some (-1, log (Esendmsg fd msg (-1))
              (set_errno e
                 (set_socks (<[i := Socket (inbox s) f (outbox s)]> (socks w))
                    (set_hdr_junk (tl (hdr_junk w)) w)))).
Proof.
  unfold sendmsg, read_header. intros Hs Hc Hg Hf. rewrite Hc. mstep.
  rewrite Hs, (hd_harmless _ Hg), Hf. reflexivity.
Qed.

Lemma sendmsg_ok (fd : Z) (msg : msghdr) (w : world) i s :
  sock_of w fd = Some (i, s) ->
  header_clean msg = false ->
  (forall e g, hdr_junk w <> Some e :: g) ->
  (forall e f, tx_faults s <> Some e :: f) ->
  sendmsg fd msg w =
  Some (Z.of_nat (length (gather msg)),
        log (Esendmsg fd msg (Z.of_nat (length (gather msg))))
          (set_socks
             (<[i := Socket (inbox s) (tl (tx_faults s))
                            (outbox s ++ [gather msg])]> (socks w))
             (set_hdr_junk (tl (hdr_junk w)) w))).
Proof.
  unfold sendmsg, read_header. intros Hs Hc Hg H. rewrite Hc. mstep.
  rewrite Hs, (hd_harmless _ Hg).
  destruct (tx_faults s) as [|[e|] f]; try reflexivity.
  exfalso. eapply H. reflexivity.
Qed.

(** ** Gathering a packet *)

Lemma fill_iov_chain (l : list rte_mbuf) :
  fill_iov (length l) l = Some (map iov_of l).
Proof.
  induction l as [|m l IH]; cbn; [reflexivity|]. rewrite IH. reflexivity.
Qed.

Lemma fill_iov_wf (pkt : snbuf) :
  snb_wf pkt = true ->
  fill_iov (nb_segs pkt) (segments pkt) = Some (msg_iov (msg_of pkt)).
Proof.
  unfold snb_wf. intros H. apply Nat.eqb_eq in H. rewrite H.
  apply fill_iov_chain.
Qed.

Lemma gather_chain (l : list rte_mbuf) (msg : msghdr) :
  msg_iov msg = map iov_of l -> msg_iovlen msg = length l ->
  gather msg = concat (map seg_bytes l).
Proof.
  unfold gather. intros -> ->.
  replace (length l) with (length (map iov_of l)) by apply length_map.
  rewrite firstn_all, map_map. reflexivity.
Qed.

Lemma gather_wf (pkt : snbuf) :
  snb_wf pkt = true -> gather (msg_of pkt) = payload pkt.
Proof.
  unfold snb_wf, payload. intros H. apply Nat.eqb_eq in H.
  apply gather_chain; [reflexivity|exact H].
Qed.

(** ** The send loop *)

Lemma writes_before_failure_le (n : nat) :
  forall f : list (option Z), (writes_before_failure f n <= n)%nat.
Proof.
  induction n as [|n IH]; intros f; cbn; [lia|].
  destruct f as [|[e|] f]; cbn; try lia.
  - specialize (IH []). lia.
  - specialize (IH f). lia.
Qed.

Lemma sendable_le (w : world) (fd : Z) (n : nat) : (sendable w fd n <= n)%nat.
Proof.
  unfold sendable. destruct (sock_of w fd) as [[i s]|]; [|lia].
  pose proof (writes_before_failure_le n (tx_faults s)). lia.
Qed.

Lemma drop_lookup_cons {A} (l : list A) (i : nat) (x : A) :
  l !! i = Some x -> drop i l = x :: drop (S i) l.
Proof.
  revert i. induction l as [|y l IH]; intros [|i] H; cbn in *;
    try discriminate.
  - inversion H. reflexivity.
  - apply IH. exact H.
Qed.

Lemma writes_before_failure_ok (f : list (option Z)) (n : nat) :
  (forall e f', f <> Some e :: f') ->
  writes_before_failure f (S n) = S (writes_before_failure (tl f) n).
Proof.
  intros H. destruct f as [|[e|] f]; try reflexivity.
  exfalso. eapply H. reflexivity.
Qed.

Section WellFormedBatch.

(** A batch whose packets all have the segment count of their chain. *)
Variable pkts : list snbuf.
Hypothesis Hwf : Forall (fun p => snb_wf p = true) pkts.

Lemma batch_lookup_wf (i : nat) (pkt : snbuf) :
  pkts !! i = Some pkt -> snb_wf pkt = true.
Proof.
  intros H. rewrite Forall_forall in Hwf. apply Hwf.
  apply list_elem_of_lookup. eauto.
Qed.

(** The loop of [SendPackets] on well-formed packets: it sends the packets
    from index [i] on, in order, as long as the writes go through, and stops
    at the first one that fails.  Each write that goes through adds the
    packet's bytes, as one datagram, to what the peer receives. *)
Lemma send_loop_spec (fd : Z) :
  forall (n i : nat) (sent : Z) (w : world),
    (i + n <= length pkts)%nat ->
    let k := sendable w fd n in
    exists w',
      send_loop n fd pkts i sent w = Some (sent + Z.of_nat k, w') /\
      port w' = port w /\ kernel_frame w w' /\ pool w' = pool w /\
      trace w' =
        trace w ++ map (sent_event fd) (take k (drop i pkts)) ++
        (if (k <? n)%nat
         then match pkts !! (i + k)%nat with
              | Some p => [unsent_event fd p]
              | None => []
              end
         else []) /\
      forall j s, sock_of w fd = Some (j, s) ->
        exists s', sock_of w' fd = Some (j, s') /\
          inbox s' = inbox s /\
          outbox s' = outbox s ++ map payload (take k (drop i pkts)).
Proof.
  induction n as [|n IH]; intros i sent w Hlen k; subst k.
  - exists w. unfold sendable.
    destruct (sock_of w fd) as [[j s]|]; cbn;
      rewrite ?Z.add_0_r, ?app_nil_r;
      repeat split; try reflexivity;
      intros j' s' H; inversion H; subst; eexists; rewrite ?app_nil_r; eauto.
  - destruct (lookup_lt_is_Some_2 pkts i) as [pkt Hpkt]; [lia|].
    pose proof (batch_lookup_wf i pkt Hpkt) as Hw.
    pose proof (header_of_packet pkt) as Hc.
    cbn [send_loop]. rewrite Hpkt, (fill_iov_wf pkt Hw).
    change {| msg_name := None; msg_namelen := None;
              msg_iov := msg_iov (msg_of pkt); msg_iovlen := nb_segs pkt;
              msg_control := None; msg_controllen := None;
              msg_flags := None |}
      with (msg_of pkt).
    unfold sendable.
    destruct (sock_of w fd) as [[j s]|] eqn:Hs.
    + destruct (junk_case (hdr_junk w)) as [(e & g & Hg)|Hhdr].
      { (* the header is refused: the write fails and the loop stops *)
        erewrite bind_run; [|apply (sendmsg_rejected _ _ _ _ _ _ _ Hs Hc Hg)].
        rewrite Hg. cbn. eexists. split; [rewrite Z.add_0_r; reflexivity|].
        rewrite Nat.add_0_r, Hpkt. repeat split.
        intros j' s' H; inversion H; subst j' s'.
        exists s. split; [exact Hs|]. rewrite app_nil_r. auto. }
      destruct (junk_case (tx_faults s)) as [(e & f & Hf)|Hok].
      * (* a fault is queued: the write fails and the loop stops *)
        erewrite bind_run; [|apply (sendmsg_fault _ _ _ _ _ _ _ Hs Hc Hhdr Hf)].
        rewrite Hf. cbn [writes_before_failure]. rewrite Nat.min_0_r.
        cbn. eexists. split; [rewrite Z.add_0_r; reflexivity|].
        rewrite Nat.add_0_r, Hpkt. repeat split.
        intros j' s' H; inversion H; subst j' s'.
        eexists. split; [eapply (sock_of_put w); exact Hs|].
        cbn. rewrite app_nil_r. auto.
      * (* the write goes through and the loop goes on *)
        erewrite bind_run; [|apply (sendmsg_ok _ _ _ _ _ Hs Hc Hhdr Hok)].
        rewrite gather_wf by exact Hw.
        rewrite (writes_before_failure_ok _ _ Hhdr).
        rewrite (writes_before_failure_ok _ _ Hok).
        rewrite <- Nat.succ_min_distr.
        destruct (Z.ltb_spec (Z.of_nat (length (payload pkt))) 0) as [?|_]; [lia|].
        match goal with |- context [send_loop n fd pkts (S i) _ ?w1] =>
          destruct (IH (S i) (sent + 1) w1)
            as (w' & Hrun & Hp & Hk & Hpool & Htr & Hout); [lia|];
          assert (Hs1 : sock_of w1 fd =
                        Some (j, Socket (inbox s) (tl (tx_faults s))
                                        (outbox s ++ [payload pkt])))
            by (rewrite sock_of_log;
                eapply (sock_of_put (set_hdr_junk (tl (hdr_junk w)) w));
                exact Hs)
        end.
        unfold sendable in Hrun, Htr, Hout. rewrite Hs1 in Hrun, Htr, Hout.
        cbn [tx_faults hdr_junk log set_socks set_hdr_junk] in Hrun, Htr, Hout.
        set (k := (writes_before_failure (tl (hdr_junk w)) n `min`
                   writes_before_failure (tl (tx_faults s)) n)%nat) in *.
        exists w'.
        split; [rewrite Hrun; f_equal; f_equal; lia|].
        split; [exact Hp|]. split; [exact Hk|]. split; [exact Hpool|].
        rewrite (drop_lookup_cons _ _ _ Hpkt). cbn [take map].
        split.
        -- rewrite Htr. cbn [trace log set_socks set_hdr_junk].
           rewrite <- !app_assoc. cbn [app]. unfold sent_event at 1.
           replace (i + S k)%nat with (S i + k)%nat by lia.
           reflexivity.
        -- intros j' s' H; inversion H; subst j' s'.
           destruct (Hout _ _ eq_refl) as (s' & Hs' & Hin & Ho).
           exists s'. split; [exact Hs'|]. split; [exact Hin|].
           rewrite Ho. cbn [outbox]. rewrite <- app_assoc. reflexivity.
    + erewrite bind_run; [|apply (sendmsg_closed _ _ _ Hs)].
      cbn. eexists. split; [rewrite Z.add_0_r; reflexivity|].
      rewrite Nat.add_0_r, Hpkt. repeat split. intros; discriminate.
Qed.

(** A whole call of [SendPackets] on a batch of well-formed packets. *)
Lemma SendPackets_spec (cnt : Z) (w : world) :
  (Z.to_nat cnt <= length pkts)%nat ->
  let fd := client_fd_ (port w) in
  let k := sendable w fd (Z.to_nat cnt) in
  exists w',
    SendPackets pkts cnt w = Some (Z.of_nat k, w') /\
    port w' = port w /\ kernel_frame w w' /\
    pool w' = take k pkts ++ pool w /\
    trace w' =
      trace w ++ map (sent_event fd) (take k pkts) ++
      (if (k <? Z.to_nat cnt)%nat
       then match pkts !! k with
            | Some p => [unsent_event fd p]
            | None => []
            end
       else []) ++
      (if (k =? 0)%nat then [] else [Esnb_free_bulk (map snb_id (take k pkts))]) /\
    forall j s, sock_of w fd = Some (j, s) ->
      exists s', sock_of w' fd = Some (j, s') /\
        inbox s' = inbox s /\
        outbox s' = outbox s ++ map payload (take k pkts).
Proof.
  intros Hlen fd k.
  destruct (send_loop_spec fd (Z.to_nat cnt) 0 0 w Hlen)
    as (w1 & Hrun & Hp & Hk & Hpool & Htr & Hout).
  fold k in Hrun, Htr, Hout. rewrite drop_0 in Htr, Hout.
  cbn [Nat.add] in Htr.
  rewrite Z.add_0_l in Hrun.
  unfold SendPackets. unfold this at 1. unfold gets at 1.
  unfold bind at 1. fold fd.
  erewrite bind_run; [|exact Hrun].
  destruct (Nat.eqb_spec k 0) as [Hk0|Hk0].
  - rewrite Hk0 in *. cbn. eexists. split; [reflexivity|].
    rewrite app_nil_r.
    split; [exact Hp|]. split; [exact Hk|]. split; [exact Hpool|].
    split; [exact Htr|exact Hout].
  - assert (Hz : (Z.of_nat k =? 0) = false) by (apply Z.eqb_neq; lia).
    rewrite Hz. unfold snb_free_bulk. mstep. rewrite Nat2Z.id.
    eexists. split; [reflexivity|]. cbn.
    split; [exact Hp|]. split; [exact Hk|].
    split; [rewrite Hpool; reflexivity|].
    split; [rewrite Htr, <- !app_assoc; reflexivity|].
    intros j s Hs. destruct (Hout j s Hs) as (s' & Hs' & Hrest).
    exists s'. split; [|exact Hrest].
    rewrite <- Hs'. apply sock_of_ext; reflexivity.
Qed.

End WellFormedBatch.

(** Whatever the batch, a call of [SendPackets] that returns has touched
    neither the port object nor the descriptor table. *)
Lemma send_loop_frame (n : nat) (fd : Z) (pkts : list snbuf) :
  forall (i : nat) (sent : Z) (w : world) (k : Z) (w' : world),
    send_loop n fd pkts i sent w = Some (k, w') ->
    port w' = port w /\ kernel_frame w w'.
Proof.
  induction n as [|n IH]; intros i sent w k w' H; cbn in H.
  - inversion H; subst. repeat split.
  - destruct (pkts !! i) as [pkt|]; [|discriminate].
    destruct (fill_iov (nb_segs pkt) (segments pkt)) as [iov|]; [|discriminate].
    apply bind_Some in H as (r & w1 & Hs & H).
    assert (Hf : port w1 = port w /\ kernel_frame w w1).
    { unfold sendmsg, read_header in Hs.
      destruct (header_clean _); mstep;
        (destruct (sock_of w fd) as [[j s]|];
         [try destruct (hd None (hdr_junk w));
          try destruct (tx_faults s) as [|[e|] f]|]);
        inversion Hs; subst; repeat split. }
    destruct Hf as [Hp Hk].
    destruct (r <? 0).
    + inversion H; subst. auto.
    + apply IH in H as (Hp' & Hk').
      split; [congruence|]. eapply kernel_frame_trans; eassumption.
Qed.

Lemma SendPackets_frame (pkts : list snbuf) (cnt : Z) (w : world) (k : Z) (w' : world) :
  SendPackets pkts cnt w = Some (k, w') ->
  port w' = port w /\ kernel_frame w w'.
Proof.
  unfold SendPackets. intros H.
  apply bind_Some in H as (fd & w1 & Hfd & H).
  unfold this, gets in Hfd. inversion Hfd; subst fd w1.
  apply bind_Some in H as (sent & w2 & Hl & H).
  apply send_loop_frame in Hl as (Hp & Hk).
  destruct (negb (sent =? 0)); unfold snb_free_bulk in H; mstep;
    inversion H; subst; cbn; auto.
Qed.

(** ** [recv] and the allocator, case by case *)

Lemma recv_closed (fd : Z) (buf : list Byte.byte) (len : Z) (w : world) :
  sock_of w fd = None ->
  recv fd buf len w =
  Some ((-1, buf), log (Erecv fd len (-1)) (set_errno EBADF w)).
Proof. unfold recv. mstep. intros ->. reflexivity. Qed.

Lemma recv_empty (fd : Z) (buf : list Byte.byte) (len : Z) (w : world) i s :
  sock_of w fd = Some (i, s) ->
  inbox s = [] ->
  recv fd buf len w =
  Some ((-1, buf), log (Erecv fd len (-1)) (set_errno EAGAIN w)).
Proof. unfold recv. mstep. intros -> ->. reflexivity. Qed.

Lemma recv_error (fd : Z) (buf : list Byte.byte) (len : Z) (w : world) i s e q :
  sock_of w fd = Some (i, s) ->
  inbox s = RxError e :: q ->
  recv fd buf len w =
  Some ((-1, buf),
        log (Erecv fd len (-1))
          (set_errno e
             (set_socks (<[i := Socket q (tx_faults s) (outbox s)]> (socks w)) w))).
Proof. unfold recv. mstep. intros -> ->. reflexivity. Qed.

Lemma recv_shutdown (fd : Z) (buf : list Byte.byte) (len : Z) (w : world) i s q :
  sock_of w fd = Some (i, s) ->
  inbox s = RxShutdown :: q ->
  recv fd buf len w = Some ((0, buf), log (Erecv fd len 0) w).
Proof. unfold recv. mstep. intros -> ->. reflexivity. Qed.

Lemma recv_datagram (fd : Z) (buf : list Byte.byte) (len : Z) (w : world) i s d q :
  sock_of w fd = Some (i, s) ->
  inbox s = RxDatagram d :: q ->
  let n := Nat.min (length d) (Z.to_nat len) in
  recv fd buf len w =
  Some ((Z.of_nat n, take n d ++ drop n buf),
        log (Erecv fd len (Z.of_nat n))
          (set_socks (<[i := Socket q (tx_faults s) (outbox s)]> (socks w)) w)).
Proof. unfold recv. mstep. intros -> ->. reflexivity. Qed.

Lemma snb_alloc_some (w : world) (b : snbuf) (rest : list snbuf) :
  pool w = b :: rest ->
  snb_alloc w =
  Some (Some (fresh b), log (Esnb_alloc (Some (snb_id b))) (set_pool rest w)).
Proof. unfold snb_alloc. mstep. intros ->. reflexivity. Qed.

Lemma snb_alloc_none (w : world) :
  pool w = [] ->
  snb_alloc w = Some (None, log (Esnb_alloc None) w).
Proof. unfold snb_alloc. mstep. intros ->. reflexivity. Qed.

(** ** One iteration of the receive loop *)

Lemma recv_loop_done (fuel : nat) (fd cnt : Z) pkts received (w : world) :
  cnt <= received ->
  recv_loop (S fuel) fd cnt pkts received w = Some ((pkts, received), w).
Proof.
  intros H. cbn [recv_loop].
  destruct (Z.ltb_spec received cnt); [lia|reflexivity].
Qed.

Lemma recv_loop_exhausted (fuel : nat) (fd cnt : Z) pkts received (w : world) :
  received < cnt ->
  pool w = [] ->
  recv_loop (S fuel) fd cnt pkts received w =
  Some ((pkts, received), log (Esnb_alloc None) w).
Proof.
  intros H Hp. cbn [recv_loop].
  destruct (Z.ltb_spec received cnt); [|lia].
  erewrite bind_run; [|apply snb_alloc_none; exact Hp]. reflexivity.
Qed.

Lemma snb_free_run (pkt : snbuf) (w : world) :
  snb_free pkt w = Some (tt, released pkt w).
Proof. reflexivity. Qed.

(** An iteration whose read returns no data, up to the point where the
    loop looks at [errno]. *)
Lemma recv_loop_unread (fuel : nat) (fd cnt : Z) pkts received
    (w w1 w2 : world) (pkt : snbuf) (r : Z) (d : list Byte.byte) :
  received < cnt ->
  snb_alloc w = Some (Some pkt, w1) ->
  recv fd (_data pkt) SNBUF_DATA w1 = Some ((r, d), w2) ->
  r <= 0 ->
  recv_loop (S fuel) fd cnt pkts received w =
  let w3 := released (set__data pkt d) w2 in
  if (r <? 0) && ((errno w2 =? EAGAIN) || (errno w2 =? EWOULDBLOCK)) then
    Some ((pkts, received), w3)
  else if (r <? 0) && (errno w2 =? EINTR) then
    recv_loop fuel fd cnt pkts received w3
  else
    (CloseConnection ;; ret (pkts, received)) w3.
Proof.
  intros Hlt Ha Hr Hle. cbn [recv_loop].
  destruct (Z.ltb_spec received cnt); [|lia].
  erewrite bind_run; [|exact Ha]. cbn beta iota.
  erewrite bind_run; [|exact Hr]. cbn beta iota.
  destruct (Z.ltb_spec 0 r); [lia|].
  erewrite bind_run; [|apply snb_free_run].
  unfold gets at 1. unfold bind at 1.
  change (errno (released (set__data pkt d) w2)) with (errno w2).
  cbn zeta.
  destruct ((r <? 0) && ((errno w2 =? EAGAIN) || (errno w2 =? EWOULDBLOCK)));
    [reflexivity|].
  destruct ((r <? 0) && (errno w2 =? EINTR)); reflexivity.
Qed.

Lemma filled_buffer (b : snbuf) (d : list Byte.byte) :
  snb_id (filled b d) = snb_id b /\
  data_len (mbuf (filled b d)) = Nat.min (length d) (Z.to_nat SNBUF_DATA) /\
  payload (filled b d) = take (Z.to_nat SNBUF_DATA) d /\
  snb_wf (filled b d) = true.
Proof.
  unfold filled, snb_append.
  set (n := Nat.min (length d) (Z.to_nat SNBUF_DATA)).
  assert (Hn : (n <= Z.to_nat SNBUF_DATA)%nat) by (subst n; lia).
  assert (Hd : (n <= length d)%nat) by (subst n; lia).
  cbn [mbuf set__data fresh data_len].
  replace ((Z.of_nat 0 + Z.of_nat n <=? SNBUF_DATA) && (0 <=? Z.of_nat n))
    with true.
  2: { symmetry. apply andb_true_iff. split; [apply Z.leb_le|apply Z.leb_le];
       unfold SNBUF_DATA in *; lia. }
  cbn [snb_id mbuf data_len set__data fresh Nat.add]. rewrite Nat2Z.id.
  split; [reflexivity|]. split; [reflexivity|]. split; [|reflexivity].
  unfold payload, segments, seg_bytes.
  cbn [mbuf next map concat data_len buf_addr set__data fresh snb_id nb_segs].
  rewrite app_nil_r.
  rewrite take_app_le by (rewrite length_take; lia).
  rewrite take_take. replace (n `min` n)%nat with n by lia.
  subst n. destruct (Nat.le_ge_cases (length d) (Z.to_nat SNBUF_DATA)) as [H|H].
  - rewrite Nat.min_l by exact H. rewrite !take_ge by lia. reflexivity.
  - rewrite Nat.min_r by exact H. reflexivity.
Qed.

(** An iteration whose read returns a datagram that is not empty. *)
Lemma recv_loop_datagram (fuel : nat) (fd cnt : Z) pkts received (w : world)
    b rest i s d q :
  received < cnt ->
  pool w = b :: rest ->
  sock_of w fd = Some (i, s) ->
  inbox s = RxDatagram d :: q ->
  d <> [] ->
  recv_loop (S fuel) fd cnt pkts received w =
  recv_loop fuel fd cnt (pkts ++ [filled b d]) (received + 1)
            (after_read fd i s b rest d q w).
Proof.
  intros Hlt Hp Hs Hq Hd. cbn [recv_loop].
  destruct (Z.ltb_spec received cnt); [|lia].
  erewrite bind_run; [|apply snb_alloc_some; exact Hp]. cbn beta iota.
  erewrite bind_run.
  2: { eapply recv_datagram; [|exact Hq].
       rewrite sock_of_log. erewrite sock_of_ext; [exact Hs| |]; reflexivity. }
  cbn beta iota zeta.
  set (n := Nat.min (length d) (Z.to_nat SNBUF_DATA)).
  assert (Hn : (0 < n)%nat).
  { subst n. destruct d; [congruence|]. unfold SNBUF_DATA. cbn [length]. lia. }
  destruct (Z.ltb_spec 0 (Z.of_nat n)); [|lia].
  reflexivity.
Qed.

Lemma CloseConnection_run (w : world) :
  CloseConnection w =
  let r := hd 0 (spawn_rets w) in
  Some (tt,
        {| port := {| recv_skip_cnt_ := recv_skip_cnt_ (port w);
                      listen_fd_ := listen_fd_ (port w);
                      client_fd_ := NOT_CONNECTED;
                      old_client_fd_ := client_fd_ (port w);
                      accept_thread_ := 0 |};
           errno := errno w; fdtab := fdtab w; socks := socks w;
           backlog := backlog w; spawn_rets := tl (spawn_rets w);
           threads := (if r =? 0 then S (threads w) else threads w);
           hdr_junk := hdr_junk w;
           pool := pool w;
           trace := trace w ++
                    Epthread_create r :: (if r =? 0 then [] else [Elog]) |}).
Proof.
  unfold CloseConnection, pthread_create. mstep.
  destruct (hd 0 (spawn_rets w) =? 0) eqn:E; cbn; rewrite E; cbn.
  - reflexivity.
  - mstep. unfold_setters. rewrite <- app_assoc. reflexivity.
Qed.

(** An iteration whose read returns no data either ends the loop, leaving
    the Idle-Poll Counter as the read left it, or is the retry after an
    interrupted call. *)
Lemma recv_loop_unread_cases (fuel : nat) (fd cnt : Z) pkts received
    (w w1 w2 : world) (pkt : snbuf) (r : Z) (d : list Byte.byte) :
  received < cnt ->
  snb_alloc w = Some (Some pkt, w1) ->
  recv fd (_data pkt) SNBUF_DATA w1 = Some ((r, d), w2) ->
  r <= 0 ->
  (exists w', recv_loop (S fuel) fd cnt pkts received w =
              Some ((pkts, received), w') /\
              recv_skip_cnt_ (port w') = recv_skip_cnt_ (port w2)) \/
  (r < 0 /\ errno w2 = EINTR /\
   recv_loop (S fuel) fd cnt pkts received w =
   recv_loop fuel fd cnt pkts received (released (set__data pkt d) w2)).
Proof.
  intros Hlt Ha Hr Hle.
  rewrite (recv_loop_unread fuel fd cnt pkts received w w1 w2 pkt r d Hlt Ha Hr Hle).
  cbn zeta.
  destruct ((r <? 0) && ((errno w2 =? EAGAIN) || (errno w2 =? EWOULDBLOCK))).
  - left. eexists. split; reflexivity.
  - destruct ((r <? 0) && (errno w2 =? EINTR)) eqn:E.
    + right. apply andb_true_iff in E as [E1 E2].
      apply Z.ltb_lt in E1. apply Z.eqb_eq in E2. auto.
    + left. erewrite bind_run; [|apply CloseConnection_run].
      eexists. split; reflexivity.
Qed.

Lemma pending_after_pop (w w' : world) (fd : Z) i s q tf ob :
  sock_of w fd = Some (i, s) ->
  fdtab w' = fdtab w ->
  socks w' = <[i := Socket q tf ob]> (socks w) ->
  pending w' fd = q.
Proof.
  intros Hs Hf Hss. unfold pending.
  rewrite (sock_of_ext (set_socks (<[i := Socket q tf ob]> (socks w)) w) w')
    by assumption.
  rewrite (sock_of_put w fd i s _ Hs). reflexivity.
Qed.

(** With fuel for every queued event and one more, the receive loop
    returns; it has added buffers to the array, each no longer than the data
    area, and has not touched the Idle-Poll Counter. *)
Lemma recv_loop_returns (fuel : nat) (fd cnt : Z) :
  forall (pkts : list snbuf) (received : Z) (w : world),
    (length (pending w fd) < fuel)%nat ->
    exists out w',
      recv_loop fuel fd cnt pkts received w =
      Some ((pkts ++ out, received + Z.of_nat (length out)), w') /\
      recv_skip_cnt_ (port w') = recv_skip_cnt_ (port w) /\
      Forall (fun p => (data_len (mbuf p) <= Z.to_nat SNBUF_DATA)%nat) out.
Proof.
  induction fuel as [|fuel IH]; intros pkts received w Hfuel; [lia|].
  assert (Hnil : forall w',
    recv_loop (S fuel) fd cnt pkts received w = Some ((pkts, received), w') ->
    recv_skip_cnt_ (port w') = recv_skip_cnt_ (port w) ->
    exists out w'',
      recv_loop (S fuel) fd cnt pkts received w =
      Some ((pkts ++ out, received + Z.of_nat (length out)), w'') /\
      recv_skip_cnt_ (port w'') = recv_skip_cnt_ (port w) /\
      Forall (fun p => (data_len (mbuf p) <= Z.to_nat SNBUF_DATA)%nat) out).
  { intros w' Hrun Hc. exists [], w'.
    rewrite app_nil_r, Z.add_0_r. auto. }
  destruct (Z.le_gt_cases cnt received) as [Hge|Hlt].
  { eapply Hnil; [apply recv_loop_done; exact Hge|reflexivity]. }
  destruct (pool w) as [|b rest] eqn:Hp.
  { eapply Hnil; [apply recv_loop_exhausted; assumption|reflexivity]. }
  pose proof (snb_alloc_some w b rest Hp) as Ha.
  set (w1 := log (Esnb_alloc (Some (snb_id b))) (set_pool rest w)) in *.
  assert (Hs1 : sock_of w1 fd = sock_of w fd) by reflexivity.
  unfold pending in Hfuel.
  destruct (sock_of w fd) as [[i s]|] eqn:Hs.
  - destruct (inbox s) as [|[d|e|] q] eqn:Hq.
    + (* nothing queued *)
      destruct (recv_loop_unread_cases fuel fd cnt pkts received w w1 _
                  (fresh b) (-1) _ Hlt Ha (recv_empty _ _ _ _ _ _ Hs1 Hq))
        as [(w' & Hrun & Hc)|(_ & He & _)]; [lia| |discriminate He].
      eapply Hnil; [exact Hrun|exact Hc].
    + destruct d as [|x d].
      * (* an empty datagram reads as 0 *)
        destruct (recv_loop_unread_cases fuel fd cnt pkts received w w1 _
                    (fresh b) 0 _ Hlt Ha (recv_datagram _ _ _ _ _ _ _ _ Hs1 Hq))
          as [(w' & Hrun & Hc)|(Hr & _)]; [reflexivity| |lia].
        eapply Hnil; [exact Hrun|exact Hc].
      * rewrite (recv_loop_datagram fuel fd cnt pkts received w b rest i s
                   (x :: d) q Hlt Hp Hs Hq) by discriminate.
        destruct (IH (pkts ++ [filled b (x :: d)]) (received + 1)
                     (after_read fd i s b rest (x :: d) q w))
          as (out & w' & Hrun & Hc & Hout).
        { erewrite pending_after_pop; [|exact Hs|reflexivity|reflexivity].
          cbn [length] in Hfuel. lia. }
        exists (filled b (x :: d) :: out), w'.
        rewrite Hrun, <- app_assoc. cbn [app length].
        split; [f_equal; f_equal; f_equal; lia|].
        split; [exact Hc|].
        constructor; [|exact Hout].
        destruct (filled_buffer b (x :: d)) as (_ & Hl & _). rewrite Hl. lia.
    + (* an error: a retry when it is EINTR *)
      destruct (recv_loop_unread_cases fuel fd cnt pkts received w w1 _
                  (fresh b) (-1) _ Hlt Ha (recv_error _ _ _ _ _ _ _ _ Hs1 Hq))
        as [(w' & Hrun & Hc)|(_ & _ & Hrun)]; [lia| |].
      * eapply Hnil; [exact Hrun|exact Hc].
      * rewrite Hrun.
        match goal with |- context [recv_loop fuel fd cnt pkts received ?w3] =>
          destruct (IH pkts received w3) as (out & w' & Hrun' & Hc & Hout)
        end.
        { erewrite pending_after_pop; [|exact Hs|reflexivity|reflexivity].
          cbn [length] in Hfuel. lia. }
        exists out, w'. rewrite Hrun'. auto.
    + (* the peer has shut down *)
      destruct (recv_loop_unread_cases fuel fd cnt pkts received w w1 _
                  (fresh b) 0 _ Hlt Ha (recv_shutdown _ _ _ _ _ _ _ Hs1 Hq))
        as [(w' & Hrun & Hc)|(Hr & _)]; [reflexivity| |lia].
      eapply Hnil; [exact Hrun|exact Hc].
  - (* the descriptor is not open *)
    destruct (recv_loop_unread_cases fuel fd cnt pkts received w w1 _
                (fresh b) (-1) _ Hlt Ha (recv_closed _ _ _ _ Hs1))
      as [(w' & Hrun & Hc)|(_ & He & _)]; [lia| |discriminate He].
    eapply Hnil; [exact Hrun|exact Hc].
Qed.

(** ** Whole calls of the receive path *)

Lemma RecvPackets_not_connected (cnt : Z) (w : world) :
  client_fd_ (port w) = NOT_CONNECTED ->
  RecvPackets cnt w = Some (([], 0), w).
Proof. unfold RecvPackets. mstep. intros ->. reflexivity. Qed.

Lemma RecvPackets_throttled (cnt : Z) (w : world) :
  client_fd_ (port w) <> NOT_CONNECTED ->
  recv_skip_cnt_ (port w) <> 0 ->
  RecvPackets cnt w =
  Some (([], 0),
        set_port (with_recv_skip_cnt ((recv_skip_cnt_ (port w) - 1) mod 2 ^ 32)
                                     (port w)) w).
Proof.
  unfold RecvPackets. mstep. intros Hc Hs.
  apply Z.eqb_neq in Hc, Hs. rewrite Hc, Hs. reflexivity.
Qed.

(** A call that gets past both checks is the loop, followed by the idle
    backoff when the loop stored nothing. *)
Lemma RecvPackets_polls (cnt : Z) (w : world) pkts received (w1 : world) :
  client_fd_ (port w) <> NOT_CONNECTED ->
  recv_skip_cnt_ (port w) = 0 ->
  recv_loop (S (length (pending w (client_fd_ (port w))))) (client_fd_ (port w))
            cnt [] 0 w = Some ((pkts, received), w1) ->
  RecvPackets cnt w =
  Some ((pkts, received),
        if received =? 0
        then set_port (with_recv_skip_cnt RECV_SKIP_TICKS (port w1)) w1
        else w1).
Proof.
  intros Hc Hs Hl. unfold RecvPackets.
  unfold this at 1. unfold gets at 1. unfold bind at 1.
  apply Z.eqb_neq in Hc. rewrite Hc.
  unfold this at 1. unfold gets at 1. unfold bind at 1.
  rewrite Hs. cbn [Z.eqb negb].
  unfold gets at 1. unfold bind at 1.
  erewrite bind_run; [|exact Hl]. cbn beta iota.
  destruct (received =? 0); reflexivity.
Qed.

(** The receive path always returns. *)
Lemma RecvPackets_returns (cnt : Z) (w : world) :
  exists pkts w',
    RecvPackets cnt w = Some ((pkts, Z.of_nat (length pkts)), w') /\
    Forall (fun p => Z.of_nat (data_len (mbuf p)) <= SNBUF_DATA) pkts /\
    (client_fd_ (port w) <> NOT_CONNECTED ->
     recv_skip_cnt_ (port w) = 0 ->
     recv_skip_cnt_ (port w') =
     if Z.of_nat (length pkts) =? 0 then RECV_SKIP_TICKS else 0).
Proof.
  destruct (Z.eq_dec (client_fd_ (port w)) NOT_CONNECTED) as [Hc|Hc].
  { exists [], w. rewrite RecvPackets_not_connected by exact Hc.
    split; [reflexivity|]. split; [constructor|]. intros H. contradiction. }
  destruct (Z.eq_dec (recv_skip_cnt_ (port w)) 0) as [Hs|Hs].
  2: { eexists [], _. rewrite RecvPackets_throttled by assumption.
       split; [reflexivity|]. split; [constructor|]. intros _ H. contradiction. }
  destruct (recv_loop_returns (S (length (pending w (client_fd_ (port w)))))
              (client_fd_ (port w)) cnt [] 0 w)
    as (out & w1 & Hrun & Hcnt & Hout); [lia|].
  cbn [app] in Hrun. rewrite Z.add_0_l in Hrun.
  rewrite (RecvPackets_polls cnt w _ _ _ Hc Hs Hrun).
  eexists out, _. split; [reflexivity|].
  split.
  { eapply Forall_impl; [exact Hout|]. cbn beta. intros p Hp.
    unfold SNBUF_DATA in *. lia. }
  intros _ _. destruct (Z.of_nat (length out) =? 0); [reflexivity|].
  rewrite Hcnt. exact Hs.
Qed.

(** * The connection life cycle *)

(** The descriptor [accept4] hands out is open on the new socket. *)
Lemma lowest_free_le (t : list (option nat)) : (lowest_free t <= length t)%nat.
Proof. induction t as [|[k|] t IH]; cbn; lia. Qed.

Lemma lookup_store_lowest (t : list (option nat)) (v : option nat) :
  fd_store t (lowest_free t) v !! lowest_free t = Some v.
Proof.
  unfold fd_store.
  destruct (Nat.ltb_spec (lowest_free t) (length t)) as [Hlt|Hge].
  - apply list_lookup_insert_eq. exact Hlt.
  - pose proof (lowest_free_le t) as Hle.
    replace (lowest_free t) with (length t) by lia.
    rewrite Nat.sub_diag. cbn [replicate app].
    rewrite lookup_app_r by lia. rewrite Nat.sub_diag. reflexivity.
Qed.

Lemma fd_lookup_store_lowest (t : list (option nat)) (k : nat) :
  fd_lookup (fd_store t (lowest_free t) (Some k)) (Z.of_nat (lowest_free t))
  = Some k.
Proof.
  unfold fd_lookup.
  destruct (Z.ltb_spec (Z.of_nat (lowest_free t)) 0); [lia|].
  rewrite Nat2Z.id, lookup_store_lowest. reflexivity.
Qed.

(** With no descriptor retired, [AcceptNewClient] resets the Idle-Poll
    Counter and makes the accepted descriptor the active one. *)
Lemma AcceptNewClient_installs_directly (w : world) (l : nat) (s : socket)
    (q : list accept_event) :
  old_client_fd_ (port w) = NOT_CONNECTED ->
  fd_lookup (fdtab w) (listen_fd_ (port w)) = Some l ->
  backlog w = AcceptPeer s :: q ->
  exists w',
    AcceptNewClient w = Some (tt, w') /\
    recv_skip_cnt_ (port w') = 0 /\
    client_fd_ (port w') = Z.of_nat (lowest_free (fdtab w)) /\
    sock_of w' (client_fd_ (port w')) = Some (length (socks w), s).
Proof.
  intros Hold Hl Hq. unfold AcceptNewClient.
  unfold gets at 1. unfold bind at 1. rewrite Hq.
  cbn [length accept_loop]. unfold accept4. mstep.
  rewrite Hl, Hq. mstep.
  destruct (Z.leb_spec 0 (Z.of_nat (lowest_free (fdtab w)))); [|lia].
  mstep. rewrite Hold. cbn.
  eexists. split; [reflexivity|]. cbn.
  split; [reflexivity|]. split; [reflexivity|].
  unfold sock_of. cbn. rewrite fd_lookup_store_lowest.
  rewrite lookup_app_r by lia. rewrite Nat.sub_diag. reflexivity.
Qed.

(** The calls of the Acceptor leave the port object alone. *)
Lemma accept4_port (fd flags : Z) (w : world) (r : Z) (w' : world) :
  accept4 fd flags w = Some (r, w') -> port w' = port w.
Proof.
  unfold accept4. mstep.
  destruct (fd_lookup (fdtab w) fd) as [i|]; mstep.
  - destruct (backlog w) as [|[e|s] q]; mstep; try discriminate;
      intros H; inversion H; reflexivity.
  - intros H; inversion H; reflexivity.
Qed.

Lemma accept_loop_port (fuel : nat) :
  forall (w : world) (r : Z) (w' : world),
    accept_loop fuel w = Some (r, w') -> port w' = port w /\ 0 <= r.
Proof.
  induction fuel as [|fuel IH]; intros w r w' H; [discriminate|].
  cbn [accept_loop] in H.
  apply bind_Some in H as (lfd & w0 & Hl & H).
  unfold this, gets in Hl. inversion Hl; subst lfd w0.
  apply bind_Some in H as (r1 & w1 & Ha & H).
  apply accept4_port in Ha.
  destruct (Z.leb_spec 0 r1).
  - inversion H; subst. auto.
  - apply bind_Some in H as (e & w2 & He & H).
    unfold gets in He. inversion He; subst e w2.
    apply bind_Some in H as ([] & w3 & Hlog & H).
    assert (port w3 = port w1).
    { destruct (negb (errno w1 =? EINTR)); mstep; inversion Hlog; reflexivity. }
    apply IH in H as [Hp Hr]. split; [congruence|exact Hr].
Qed.

Lemma dup2_port (a b : Z) (w : world) (r : Z) (w' : world) :
  dup2 a b w = Some (r, w') -> port w' = port w.
Proof.
  unfold dup2. mstep.
  destruct (fd_lookup (fdtab w) a) as [i|]; mstep.
  - destruct (b <? 0); [|destruct (b =? a)]; mstep;
      intros H; inversion H; reflexivity.
  - intros H; inversion H; reflexivity.
Qed.

Lemma close_port (a : Z) (w : world) (r : Z) (w' : world) :
  close a w = Some (r, w') -> port w' = port w.
Proof.
  unfold close. mstep.
  destruct (fd_lookup (fdtab w) a) as [i|]; mstep;
    intros H; inversion H; reflexivity.
Qed.

(** With a descriptor retired, [AcceptNewClient] resets the Idle-Poll
    Counter and leaves both descriptors of the slot as they are. *)
Lemma AcceptNewClient_pending (w w' : world) :
  old_client_fd_ (port w) <> NOT_CONNECTED ->
  AcceptNewClient w = Some (tt, w') ->
  recv_skip_cnt_ (port w') = 0 /\
  client_fd_ (port w') = client_fd_ (port w) /\
  old_client_fd_ (port w') = old_client_fd_ (port w).
Proof.
  intros Hold H. unfold AcceptNewClient in H.
  apply bind_Some in H as (q & w0 & Hq & H).
  unfold gets in Hq. inversion Hq; subst q w0.
  apply bind_Some in H as (r & w1 & Ha & H).
  apply accept_loop_port in Ha as [Hp Hr].
  apply bind_Some in H as ([] & w2 & Hs & H).
  unfold this_set, modify in Hs. inversion Hs; subst w2. clear Hs.
  apply bind_Some in H as (old & w3 & Ho & H).
  unfold this, gets in Ho. inversion Ho; subst old w3. clear Ho.
  cbn [port set_port old_client_fd_ with_recv_skip_cnt] in H.
  rewrite Hp in H. apply Z.eqb_neq in Hold. rewrite Hold in H. cbn [negb] in H.
  apply bind_Some in H as (cfd & w4 & Hc & H).
  unfold this, gets in Hc. inversion Hc; subst cfd w4. clear Hc.
  apply bind_Some in H as (r2 & w5 & Hd & H). apply dup2_port in Hd.
  apply bind_Some in H as (r3 & w6 & Hcl & H). apply close_port in Hcl.
  unfold ret in H. inversion H; subst w6.
  rewrite Hcl, Hd. cbn. auto.
Qed.

Lemma AcceptNewClient_direct (w w' : world) :
  old_client_fd_ (port w) = NOT_CONNECTED ->
  AcceptNewClient w = Some (tt, w') ->
  old_client_fd_ (port w') = NOT_CONNECTED.
Proof.
  intros Hold H. unfold AcceptNewClient in H.
  apply bind_Some in H as (q & w0 & Hq & H).
  unfold gets in Hq. inversion Hq; subst q w0.
  apply bind_Some in H as (r & w1 & Ha & H).
  apply accept_loop_port in Ha as [Hp Hr].
  apply bind_Some in H as ([] & w2 & Hs & H).
  unfold this_set, modify in Hs. inversion Hs; subst w2. clear Hs.
  apply bind_Some in H as (old & w3 & Ho & H).
  unfold this, gets in Ho. inversion Ho; subst old w3. clear Ho.
  cbn [port set_port old_client_fd_ with_recv_skip_cnt] in H.
  rewrite Hp, Hold in H. cbn in H.
  unfold this_set, modify in H. inversion H; subst w'. cbn.
  exact Hold.
Qed.

(** The receive loop either leaves the slot as it is or ends with no
    active descriptor. *)
Lemma recv_loop_slot (fuel : nat) (fd cnt : Z) :
  forall pkts received (w : world) r (w' : world),
    recv_loop fuel fd cnt pkts received w = Some (r, w') ->
    client_fd_ (port w') = NOT_CONNECTED \/
    (client_fd_ (port w') = client_fd_ (port w) /\
     old_client_fd_ (port w') = old_client_fd_ (port w)).
Proof.
  induction fuel as [|fuel IH]; intros pkts received w r w' H; [discriminate|].
  cbn [recv_loop] in H.
  destruct (received <? cnt); [|inversion H; subst; auto].
  apply bind_Some in H as (a & w1 & Ha & H).
  assert (Hp1 : port w1 = port w).
  { unfold snb_alloc in Ha. mstep.
    destruct (pool w); inversion Ha; reflexivity. }
  destruct a as [pkt|]; [|inversion H; subst; rewrite Hp1; auto].
  apply bind_Some in H as ([r0 d] & w2 & Hr & H).
  assert (Hp2 : port w2 = port w1).
  { unfold recv in Hr. mstep.
    destruct (sock_of w1 fd) as [[i s]|];
      [destruct (inbox s) as [|[?|?|] ?]|]; inversion Hr; reflexivity. }
  destruct (0 <? r0).
  - apply IH in H as [H|[H1 H2]]; [auto|]. right. split; congruence.
  - apply bind_Some in H as ([] & w3 & Hf & H).
    rewrite snb_free_run in Hf. inversion Hf; subst w3. clear Hf.
    apply bind_Some in H as (e & w4 & He & H).
    unfold gets in He. inversion He; subst e w4. clear He.
    destruct (_ && _).
    + inversion H; subst. right. cbn. split; congruence.
    + destruct (_ && _).
      * apply IH in H as [H|[H1 H2]]; [auto|]. right.
        cbn in H1, H2. split; congruence.
      * rewrite (bind_run _ _ _ _ _ (CloseConnection_run _)) in H.
        inversion H; subst. left. reflexivity.
Qed.

Lemma RecvPackets_slot (cnt : Z) (w : world) r (w' : world) :
  RecvPackets cnt w = Some (r, w') ->
  client_fd_ (port w') = NOT_CONNECTED \/
  (client_fd_ (port w') = client_fd_ (port w) /\
   old_client_fd_ (port w') = old_client_fd_ (port w)).
Proof.
  unfold RecvPackets. intros H.
  apply bind_Some in H as (fd & w0 & Hfd & H).
  unfold this, gets in Hfd. inversion Hfd; subst fd w0. clear Hfd.
  destruct (client_fd_ (port w) =? NOT_CONNECTED); [inversion H; subst; auto|].
  apply bind_Some in H as (skip & w0 & Hsk & H).
  unfold this, gets in Hsk. inversion Hsk; subst skip w0. clear Hsk.
  destruct (negb (recv_skip_cnt_ (port w) =? 0)).
  { mstep. inversion H; subst. right. split; reflexivity. }
  apply bind_Some in H as (q & w0 & Hq & H).
  unfold gets in Hq. inversion Hq; subst q w0. clear Hq.
  apply bind_Some in H as ([pkts received] & w1 & Hl & H).
  apply recv_loop_slot in Hl.
  destruct (received =? 0); mstep; inversion H; subst; cbn; exact Hl.
Qed.

(** C1, at a reconnect.  The first peer is accepted and installed directly
    on descriptor 4; its shutdown is read and the loss is declared, which
    retires descriptor 4 and sets [client_fd_] to [NOT_CONNECTED]; the second
    accept then resets the Idle-Poll Counter but runs [dup2(5, -1)], which
    fails, and [close(5)]: [client_fd_] stays [NOT_CONNECTED] and no
    descriptor is open on the new peer's socket (the socket of index 3). *)
Theorem AcceptNewClient_reconnect_drops_peer :
  let peer1 := Socket [RxShutdown] [] [] in
  let peer2 := Socket [RxDatagram [Byte.x41]] [] [] in
  let w0 := booted [AcceptPeer peer1; AcceptPeer peer2] [blank 0] in
  exists w1 w2 w3,
    AcceptNewClient w0 = Some (tt, w1) /\
    client_fd_ (port w1) = 4 /\ sock_of w1 4 = Some (2%nat, peer1) /\
    RecvPackets 1 w1 = Some (([], 0), w2) /\
    client_fd_ (port w2) = NOT_CONNECTED /\ old_client_fd_ (port w2) = 4 /\
    recv_skip_cnt_ (port w2) = RECV_SKIP_TICKS /\
    AcceptNewClient w2 = Some (tt, w3) /\
    recv_skip_cnt_ (port w3) = 0 /\
    client_fd_ (port w3) = NOT_CONNECTED /\
    socks w3 !! 3%nat = Some peer2 /\
    fdtab w3 = [Some 0; Some 0; Some 0; Some 1; Some 2; None]%nat /\
    trace w3 = trace w2 ++ [Eaccept4 3 5; Edup2 5 (-1) (-1); Eclose 5 0].
Proof.
  cbv zeta. do 3 eexists.
  split; [vm_compute; reflexivity|].
  split; [reflexivity|]. split; [reflexivity|].
  split; [vm_compute; reflexivity|].
  split; [reflexivity|]. split; [reflexivity|]. split; [reflexivity|].
  split; [vm_compute; reflexivity|].
  repeat split.
Qed.

(** From the world [Init] leaves behind, whatever the driver's entry points
    do, a retired descriptor goes with an idle slot: [AcceptNewClient] with a
    descriptor retired leaves [client_fd_] as it is, and only
    [AcceptNewClient] could make it a descriptor again.  So the [dup2] of
    the reconnect always has [NOT_CONNECTED] for its target. *)
Theorem lost_connection_is_never_replaced (q : list accept_event)
    (pl : list snbuf) (w : world) :
  rtc driver_step (booted q pl) w -> retired_means_idle w.
Proof.
  intros H.
  assert (H0 : retired_means_idle (booted q pl)) by (intros Hc; contradiction).
  revert H0. induction H as [w|w1 w2 w3 Hstep _ IH]; [auto|].
  intros H1. apply IH. clear IH. unfold retired_means_idle in *.
  destruct Hstep as [Ha|[cnt r Hr|pkts cnt k Hs]].
  - destruct (Z.eq_dec (old_client_fd_ (port w1)) NOT_CONNECTED) as [E|E].
    + apply AcceptNewClient_direct in Ha; [|exact E]. intros; contradiction.
    + destruct (AcceptNewClient_pending _ _ E Ha) as (_ & Hc & Ho).
      intros _. rewrite Hc. auto.
  - apply RecvPackets_slot in Hr as [Hr|[Hc Ho]]; [auto|].
    rewrite Hc, Ho. exact H1.
  - apply SendPackets_frame in Hs as [Hp _]. rewrite Hp. exact H1.
Qed.

(** C2.  [CloseConnection] moves the active descriptor to the retired slot,
    sets the active one to none and calls [pthread_create] once for a new
    Acceptor, which exists when the call returns 0.  It closes nothing: the
    descriptor table is the one it found, and stays so, with the slot
    unchanged, through any later calls of the data paths. *)
Theorem CloseConnection_retires_descriptor (w : world) :
  exists w',
    CloseConnection w = Some (tt, w') /\
    old_client_fd_ (port w') = client_fd_ (port w) /\
    client_fd_ (port w') = NOT_CONNECTED /\
    fdtab w' = fdtab w /\ socks w' = socks w /\
    (let r := hd 0 (spawn_rets w) in
     trace w' = trace w ++ Epthread_create r :: (if r =? 0 then [] else [Elog]) /\
     threads w' = if r =? 0 then S (threads w) else threads w) /\
    forall w'', rtc data_path_step w' w'' ->
      client_fd_ (port w'') = NOT_CONNECTED /\
      old_client_fd_ (port w'') = client_fd_ (port w) /\
      fdtab w'' = fdtab w /\
      fd_lookup (fdtab w'') (old_client_fd_ (port w'')) =
      fd_lookup (fdtab w) (client_fd_ (port w)).
Proof.
  rewrite CloseConnection_run. cbv zeta. eexists. split; [reflexivity|].
  cbn [port old_client_fd_ client_fd_ fdtab socks trace threads].
  do 4 (split; [reflexivity|]). split; [split; reflexivity|].
  intros w'' Hsteps.
  match type of Hsteps with rtc _ ?w1 _ => remember w1 as w' eqn:Ew' end.
  assert (Hinv : client_fd_ (port w') = NOT_CONNECTED /\
                 old_client_fd_ (port w') = client_fd_ (port w) /\
                 fdtab w' = fdtab w) by (subst w'; repeat split).
  clear Ew'. induction Hsteps as [w'|w1 w2 w3 Hstep _ IH].
  - destruct Hinv as (Hc & Ho & Hf). rewrite Ho, Hf. auto.
  - apply IH. destruct Hinv as (Hc & Ho & Hf).
    destruct Hstep as [cnt r Hr|pkts cnt k Hs].
    + rewrite (RecvPackets_not_connected cnt w1 Hc) in Hr.
      inversion Hr; subst. auto.
    + apply SendPackets_frame in Hs as (Hp & Hk & _).
      rewrite Hp, Hk. auto.
Qed.

(** * The receive path *)

(** C3.  An iteration of the receive loop whose read returns no data: the
    buffer it allocated goes back to the pool before anything else; then, on
    a would-block condition the loop ends with the buffers stored so far; on
    an interrupted call the loop runs again from the same [pkts] and
    [received]; on any other outcome, a read of length 0 included, the
    connection is closed by [CloseConnection] and the loop ends.  In no case
    does the buffer enter the caller's array. *)
Theorem recv_loop_read_without_data (fuel : nat) (fd cnt : Z)
    (pkts : list snbuf) (received : Z) (w w1 w2 : world) (pkt : snbuf)
    (r : Z) (d : list Byte.byte) :
  received < cnt ->
  snb_alloc w = Some (Some pkt, w1) ->
  recv fd (_data pkt) SNBUF_DATA w1 = Some ((r, d), w2) ->
  r <= 0 ->
  let w3 := released (set__data pkt d) w2 in
  snb_free (set__data pkt d) w2 = Some (tt, w3) /\
  pool w3 = set__data pkt d :: pool w2 /\
  (r < 0 -> errno w2 = EAGAIN \/ errno w2 = EWOULDBLOCK ->
   recv_loop (S fuel) fd cnt pkts received w = Some ((pkts, received), w3)) /\
  (r < 0 -> errno w2 = EINTR ->
   recv_loop (S fuel) fd cnt pkts received w =
   recv_loop fuel fd cnt pkts received w3) /\
  (r = 0 \/ (errno w2 <> EAGAIN /\ errno w2 <> EWOULDBLOCK /\ errno w2 <> EINTR) ->
   exists w4,
     CloseConnection w3 = Some (tt, w4) /\
     client_fd_ (port w4) = NOT_CONNECTED /\
     pool w4 = pool w3 /\
     recv_loop (S fuel) fd cnt pkts received w = Some ((pkts, received), w4)).
Proof.
  intros Hlt Ha Hr Hle w3.
  pose proof (recv_loop_unread fuel fd cnt pkts received w w1 w2 pkt r d
                Hlt Ha Hr Hle) as Hrun.
  cbv zeta in Hrun. fold w3 in Hrun.
  split; [reflexivity|]. split; [reflexivity|].
  split; [|split].
  - intros Hneg He. rewrite Hrun.
    apply Z.ltb_lt in Hneg. rewrite Hneg.
    replace ((errno w2 =? EAGAIN) || (errno w2 =? EWOULDBLOCK)) with true;
      [reflexivity|].
    symmetry. apply orb_true_iff.
    destruct He as [He|He]; [left|right]; apply Z.eqb_eq; exact He.
  - intros Hneg He. rewrite Hrun.
    apply Z.ltb_lt in Hneg. rewrite Hneg, He. reflexivity.
  - intros Hother. rewrite Hrun, CloseConnection_run. cbv zeta.
    eexists. split; [reflexivity|]. split; [reflexivity|].
    split; [reflexivity|].
    destruct Hother as [H0|(H1 & H2 & H3)].
    + subst r. cbn [Z.ltb Z.compare andb].
      erewrite bind_run; [|apply CloseConnection_run]. reflexivity.
    + apply Z.eqb_neq in H1, H2, H3. rewrite H1, H2, H3.
      rewrite !andb_false_r. cbn [orb].
      erewrite bind_run; [|apply CloseConnection_run]. reflexivity.
Qed.

(** C3, on a connection whose peer has shut down: the read returns 0, the
    buffer goes back to the pool and the connection is closed. *)
Lemma recv_loop_read_without_data_witness :
  let w := connected 0 (Socket [RxShutdown] [] []) [blank 0] in
  exists w4,
    recv_loop 1 4 1 [] 0 w = Some (([], 0), w4) /\
    client_fd_ (port w4) = NOT_CONNECTED /\
    pool w4 = [fresh (blank 0)].
Proof.
  cbv zeta.
  destruct (recv_loop_read_without_data 0 4 1 [] 0
              (connected 0 (Socket [RxShutdown] [] []) [blank 0])
              (log (Esnb_alloc (Some 0%nat))
                 (set_pool [] (connected 0 (Socket [RxShutdown] [] []) [blank 0])))
              (log (Erecv 4 SNBUF_DATA 0)
                 (log (Esnb_alloc (Some 0%nat))
                    (set_pool [] (connected 0 (Socket [RxShutdown] [] []) [blank 0]))))
              (fresh (blank 0)) 0 (_data (fresh (blank 0))))
    as (_ & _ & _ & _ & Hclose).
  - lia.
  - reflexivity.
  - reflexivity.
  - lia.
  - destruct Hclose as (w4 & _ & Hc & Hp & Hrun); [left; reflexivity|].
    exists w4. split; [exact Hrun|]. split; [exact Hc|exact Hp].
Defined.

(** C4.  With a connection active: a nonzero Idle-Poll Counter makes the
    call return 0 with the counter one lower and nothing else changed, so
    that nothing was read; a zero counter lets the call through, and the
    counter is [RECV_SKIP_TICKS] afterwards exactly when the call returns no
    buffer. *)
Theorem RecvPackets_idle_backoff (cnt : Z) (w : world) :
  client_fd_ (port w) <> NOT_CONNECTED ->
  0 <= recv_skip_cnt_ (port w) < 2 ^ 32 ->
  (recv_skip_cnt_ (port w) <> 0 ->
   exists w',
     RecvPackets cnt w = Some (([], 0), w') /\
     recv_skip_cnt_ (port w') = recv_skip_cnt_ (port w) - 1 /\
     w' = set_port (with_recv_skip_cnt (recv_skip_cnt_ (port w) - 1) (port w)) w /\
     trace w' = trace w /\ socks w' = socks w /\ pool w' = pool w) /\
  (recv_skip_cnt_ (port w) = 0 ->
   exists pkts w',
     RecvPackets cnt w = Some ((pkts, Z.of_nat (length pkts)), w') /\
     recv_skip_cnt_ (port w') =
     if Z.of_nat (length pkts) =? 0 then RECV_SKIP_TICKS else 0).
Proof.
  intros Hc Hrange. split.
  - intros Hs. rewrite (RecvPackets_throttled cnt w Hc Hs).
    rewrite Z.mod_small by lia.
    eexists. split; [reflexivity|]. repeat split.
  - intros Hs. destruct (RecvPackets_returns cnt w) as (pkts & w' & Hrun & _ & Hk).
    exists pkts, w'. split; [exact Hrun|]. apply Hk; assumption.
Qed.

(** C4, with the counter at 3 and a datagram waiting, and with the counter
    at 0 and nothing waiting. *)
Lemma RecvPackets_idle_backoff_witness :
  let s := Socket [RxDatagram [Byte.x41]] [] [] in
  (exists w',
     RecvPackets 8 (connected 3 s [blank 0]) = Some (([], 0), w') /\
     recv_skip_cnt_ (port w') = 2 /\ socks w' = [tty; tty; s] /\ trace w' = []) /\
  (exists w',
     RecvPackets 8 (connected 0 tty [blank 0]) = Some (([], 0), w') /\
     recv_skip_cnt_ (port w') = 256).
Proof.
  cbv zeta. split.
  - destruct (RecvPackets_idle_backoff 8
                (connected 3 (Socket [RxDatagram [Byte.x41]] [] []) [blank 0]))
      as [Hskip _].
    + discriminate.
    + cbn. lia.
    + destruct Hskip as (w' & Hrun & Hcnt & _ & Htr & Hss & _); [discriminate|].
      exists w'. split; [exact Hrun|]. split; [exact Hcnt|].
      split; [exact Hss|exact Htr].
  - destruct (RecvPackets_idle_backoff 8 (connected 0 tty [blank 0]))
      as [_ Hpoll].
    + discriminate.
    + cbn. lia.
    + destruct Hpoll as (pkts & w' & Hrun & Hcnt); [reflexivity|].
      assert (Hev : exists w0, RecvPackets 8 (connected 0 tty [blank 0]) =
                               Some (([], 0), w0))
        by (eexists; reflexivity).
      destruct Hev as (w0 & Hev). rewrite Hev in Hrun.
      inversion Hrun; subst pkts w0.
      exists w'. split; [exact Hev|exact Hcnt].
Defined.

(** The receive loop on a connection with nothing queued stores nothing. *)
Lemma recv_loop_nothing_queued (fuel : nat) (fd cnt : Z) pkts received
    (w : world) i s :
  sock_of w fd = Some (i, s) ->
  inbox s = [] ->
  exists w',
    recv_loop (S fuel) fd cnt pkts received w = Some ((pkts, received), w') /\
    port w' = port w.
Proof.
  intros Hs Hq.
  destruct (Z.le_gt_cases cnt received) as [Hge|Hlt].
  { exists w. split; [apply recv_loop_done; exact Hge|reflexivity]. }
  destruct (pool w) as [|b rest] eqn:Hp.
  { eexists. split; [apply recv_loop_exhausted; assumption|reflexivity]. }
  pose proof (snb_alloc_some w b rest Hp) as Ha.
  assert (Hs1 : sock_of (log (Esnb_alloc (Some (snb_id b))) (set_pool rest w)) fd
                = Some (i, s)) by exact Hs.
  rewrite (recv_loop_unread fuel fd cnt pkts received w _ _ (fresh b) (-1) _
             Hlt Ha (recv_empty _ _ _ _ _ _ Hs1 Hq)) by lia.
  eexists. split; reflexivity.
Qed.

(** C9, amended to datagrams that are not empty.  Such a datagram [d] at the
    head of the connection's queue is returned by the call as one buffer,
    the first of the result: of length [length d] and content [d] when [d]
    fits the data area, of length [SNBUF_DATA] and content the first
    [SNBUF_DATA] bytes of [d] otherwise.  When nothing else is queued the
    call returns that buffer alone, and the connection stays active.  No
    receive call returns a buffer longer than [SNBUF_DATA]. *)
Theorem RecvPackets_datagram (cnt : Z) (w : world) b rest i s d q :
  let fd := client_fd_ (port w) in
  fd <> NOT_CONNECTED ->
  recv_skip_cnt_ (port w) = 0 ->
  0 < cnt ->
  pool w = b :: rest ->
  sock_of w fd = Some (i, s) ->
  inbox s = RxDatagram d :: q ->
  d <> [] ->
  (exists pkt more w',
     RecvPackets cnt w = Some ((pkt :: more, 1 + Z.of_nat (length more)), w') /\
     snb_id pkt = snb_id b /\
     (Z.of_nat (length d) <= SNBUF_DATA ->
      Z.of_nat (data_len (mbuf pkt)) = Z.of_nat (length d) /\ payload pkt = d) /\
     (SNBUF_DATA < Z.of_nat (length d) ->
      Z.of_nat (data_len (mbuf pkt)) = SNBUF_DATA /\
      payload pkt = take (Z.to_nat SNBUF_DATA) d) /\
     (q = [] -> more = [] /\ client_fd_ (port w') = fd)) /\
  (forall cnt0 w0, exists pkts w',
     RecvPackets cnt0 w0 = Some ((pkts, Z.of_nat (length pkts)), w') /\
     Forall (fun p => Z.of_nat (data_len (mbuf p)) <= SNBUF_DATA) pkts).
Proof.
  intros fd Hc Hskip Hcnt Hp Hs Hq Hd. split.
  2: { intros cnt0 w0.
       destruct (RecvPackets_returns cnt0 w0) as (pkts & w' & Hrun & Hb & _).
       eauto. }
  pose proof (recv_loop_datagram (length (pending w fd)) fd cnt [] 0 w
                b rest i s d q Hcnt Hp Hs Hq Hd) as Hstep.
  cbn [app] in Hstep.
  set (w1 := after_read fd i s b rest d q w) in *.
  assert (Hs1 : sock_of w1 fd = Some (i, Socket q (tx_faults s) (outbox s))).
  { subst w1. unfold after_read. rewrite sock_of_log.
    erewrite sock_of_ext; [eapply sock_of_put; exact Hs| |]; reflexivity. }
  assert (Hpend : pending w fd = RxDatagram d :: q)
    by (unfold pending; rewrite Hs; exact Hq).
  destruct (recv_loop_returns (length (pending w fd)) fd cnt
              [filled b d] (0 + 1) w1)
    as (out & w2 & Hrun & Hk & _).
  { unfold pending at 1. rewrite Hs1, Hpend. cbn [inbox length].
    apply Nat.lt_succ_diag_r. }
  rewrite <- Hstep in Hrun.
  assert (Hne : (0 + 1 + Z.of_nat (length out) =? 0) = false)
    by (apply Z.eqb_neq; lia).
  pose proof (RecvPackets_polls cnt w _ _ _ Hc Hskip Hrun) as Hcall.
  rewrite Hne in Hcall. cbn [app] in Hcall.
  destruct (filled_buffer b d) as (Hid & Hlen & Hpay & _).
  exists (filled b d), out, w2.
  split; [rewrite Hcall; reflexivity|]. split; [exact Hid|].
  split; [|split].
  - intros Hfit. rewrite Hlen, Hpay. unfold SNBUF_DATA in *.
    split; [lia|]. apply take_ge. lia.
  - intros Hbig. rewrite Hlen, Hpay. unfold SNBUF_DATA in *.
    split; [lia|reflexivity].
  - intros ->. rewrite Hstep in Hrun. rewrite Hpend in Hrun.
    cbn [length] in Hrun.
    destruct (recv_loop_nothing_queued 0 fd cnt [filled b d] (0 + 1) w1
                i _ Hs1 eq_refl) as (w' & Hrun' & Hport).
    rewrite Hrun' in Hrun. inversion Hrun as [[Hout Hn Hw]].
    split.
    + reflexivity.
    + rewrite <- Hw, Hport. reflexivity.
Qed.

(** C9 as amended, on a datagram of two bytes. *)
Lemma RecvPackets_datagram_witness :
  let d := [Byte.x68; Byte.x69] in
  let w := connected 0 (Socket [RxDatagram d] [] []) [blank 0; blank 1] in
  exists pkt w',
    RecvPackets 8 w = Some (([pkt], 1), w') /\
    data_len (mbuf pkt) = 2%nat /\ payload pkt = d /\
    client_fd_ (port w') = 4.
Proof.
  cbv zeta.
  destruct (RecvPackets_datagram 8
              (connected 0 (Socket [RxDatagram [Byte.x68; Byte.x69]] [] [])
                         [blank 0; blank 1])
              (blank 0) [blank 1] 2%nat
              (Socket [RxDatagram [Byte.x68; Byte.x69]] [] [])
              [Byte.x68; Byte.x69] [])
    as [(pkt & more & w' & Hrun & _ & Hfit & _ & Hone) _].
  - discriminate.
  - reflexivity.
  - lia.
  - reflexivity.
  - reflexivity.
  - reflexivity.
  - discriminate.
  - destruct (Hone eq_refl) as [-> Hfd].
    destruct Hfit as [Hlen Hpay]; [unfold SNBUF_DATA; cbn; lia|].
    exists pkt, w'. split; [exact Hrun|].
    split; [cbn [length] in Hlen; lia|]. split; [exact Hpay|exact Hfd].
Defined.

(** C9 as stated fails on an empty datagram, which is within the capacity:
    the read returns 0, no buffer is returned for it and the connection is
    declared lost. *)
Lemma empty_datagram_not_received :
  let w := connected 0 (Socket [RxDatagram []] [] []) [blank 0] in
  sock_of w (client_fd_ (port w)) = Some (2%nat, Socket [RxDatagram []] [] []) /\
  exists w',
    RecvPackets 1 w = Some (([], 0), w') /\
    client_fd_ (port w') = NOT_CONNECTED /\
    trace w' = [Esnb_alloc (Some 0%nat); Erecv 4 SNBUF_DATA 0; Esnb_free 0;
                Epthread_create 0].
Proof.
  cbv zeta. split; [reflexivity|].
  eexists. split; [vm_compute; reflexivity|]. split; reflexivity.
Qed.

(** C10.  A call that asks for no buffer, on an active connection with the
    Idle-Poll Counter at zero, returns 0 and changes nothing but the
    counter, which it sets to [RECV_SKIP_TICKS]; the 256 calls that follow,
    whatever they ask for, return 0 and change nothing but the counter, which
    they bring back to zero.  So the sockets, with whatever their queues
    hold, the pool and the trace are the ones the first call found. *)
Theorem RecvPackets_zero_count_backoff (w : world) (cnts : list Z) :
  client_fd_ (port w) <> NOT_CONNECTED ->
  recv_skip_cnt_ (port w) = 0 ->
  length cnts = 256%nat ->
  let w' := set_port (with_recv_skip_cnt RECV_SKIP_TICKS (port w)) w in
  RecvPackets 0 w = Some (([], 0), w') /\
  trace w' = trace w /\ socks w' = socks w /\ pool w' = pool w /\
  polls cnts w' =
  Some (replicate 256 ([], 0), set_port (with_recv_skip_cnt 0 (port w)) w).
Proof.
  intros Hc Hs Hlen w'. split; [|repeat split].
  - assert (Hl : recv_loop (S (length (pending w (client_fd_ (port w)))))
                   (client_fd_ (port w)) 0 [] 0 w = Some (([], 0), w))
      by (apply recv_loop_done; lia).
    rewrite (RecvPackets_polls 0 w _ _ _ Hc Hs Hl). reflexivity.
  - assert (Hgen : forall (cs : list Z) (p : UnixSocketPort),
              client_fd_ p <> NOT_CONNECTED ->
              recv_skip_cnt_ p = Z.of_nat (length cs) ->
              Z.of_nat (length cs) < 2 ^ 32 ->
              polls cs (set_port p w) =
              Some (replicate (length cs) ([], 0),
                    set_port (with_recv_skip_cnt 0 p) w)).
    { induction cs as [|c cs IH]; intros p Hp Hn Hb.
      - cbn. unfold ret. destruct p; cbn in *; subst. reflexivity.
      - cbn [polls length replicate].
        erewrite bind_run.
        2: { apply RecvPackets_throttled; cbn [port set_port];
             [exact Hp|rewrite Hn; cbn [length]; lia]. }
        cbn [port set_port]. rewrite Hn.
        replace ((Z.of_nat (length (c :: cs)) - 1) mod 2 ^ 32)
          with (Z.of_nat (length cs))
          by (cbn [length] in *; rewrite Z.mod_small; lia).
        change (set_port ?p' (set_port p w)) with (set_port p' w).
        erewrite bind_run; [|apply IH; cbn in *; try assumption; lia].
        reflexivity. }
    rewrite <- Hlen. unfold w'.
    rewrite (Hgen cnts (with_recv_skip_cnt RECV_SKIP_TICKS (port w)));
      [reflexivity|exact Hc|rewrite Hlen; reflexivity|rewrite Hlen; reflexivity].
Qed.

(** C10, with a datagram waiting on the connection. *)
Lemma RecvPackets_zero_count_backoff_witness :
  let s := Socket [RxDatagram [Byte.x41]] [] [] in
  let w := connected 0 s [blank 0] in
  RecvPackets 0 w = Some (([], 0), connected 256 s [blank 0]) /\
  polls (replicate 256 8) (connected 256 s [blank 0]) =
  Some (replicate 256 ([], 0), w).
Proof.
  cbv zeta.
  destruct (RecvPackets_zero_count_backoff
              (connected 0 (Socket [RxDatagram [Byte.x41]] [] []) [blank 0])
              (replicate 256 8))
    as (Hfirst & _ & _ & _ & Hnext).
  - discriminate.
  - reflexivity.
  - reflexivity.
  - split; [exact Hfirst|exact Hnext].
Defined.

(** * The send path *)

(** C5.  A call with a batch of [n] well-formed buffers writes them in
    order and stops at the first write that fails: with [k] the number of
    writes that go through before the first failure, the trace gains the [k]
    writes of the first [k] buffers, then the failed write of the next buffer
    when there is one, then the release of the first [k] buffers when
    [k > 0]; the call returns [k], and the pool gains the first [k] buffers
    and no other. *)
Theorem SendPackets_stops_at_first_failure (pkts : list snbuf) (w : world) :
  Forall (fun p => snb_wf p = true) pkts ->
  let fd := client_fd_ (port w) in
  let n := length pkts in
  let k := sendable w fd n in
  exists w',
    SendPackets pkts (Z.of_nat n) w = Some (Z.of_nat k, w') /\
    (k <= n)%nat /\
    trace w' =
      trace w ++ map (sent_event fd) (take k pkts) ++
      (match pkts !! k with
       | Some p => [unsent_event fd p]
       | None => []
       end) ++
      (if (k =? 0)%nat then [] else [Esnb_free_bulk (map snb_id (take k pkts))]) /\
    pool w' = take k pkts ++ pool w.
Proof.
  intros Hwf fd n k.
  destruct (SendPackets_spec pkts Hwf (Z.of_nat n) w)
    as (w' & Hrun & _ & _ & Hpool & Htr & _).
  { rewrite Nat2Z.id. reflexivity. }
  rewrite Nat2Z.id in Hrun, Hpool, Htr. fold fd n k in Hrun, Hpool, Htr.
  assert (Hk : (k <= n)%nat) by apply sendable_le.
  exists w'. split; [exact Hrun|]. split; [exact Hk|]. split; [|exact Hpool].
  rewrite Htr. f_equal. f_equal. f_equal.
  destruct (Nat.ltb_spec k n) as [Hlt|Hge]; [reflexivity|].
  rewrite (lookup_ge_None_2 pkts k) by (fold n; lia). reflexivity.
Qed.

(** C5, with three buffers of which the second cannot be written. *)
Lemma SendPackets_stops_at_first_failure_witness :
  let b1 := packet 1 [Byte.x61] in
  let b2 := packet 2 [Byte.x62] in
  let b3 := packet 3 [Byte.x63] in
  let w := connected 0 (Socket [] [None; Some EAGAIN] []) [] in
  Forall (fun p => snb_wf p = true) [b1; b2; b3] /\
  exists w',
    SendPackets [b1; b2; b3] 3 w = Some (1, w') /\
    trace w' = [sent_event 4 b1; unsent_event 4 b2; Esnb_free_bulk [1%nat]] /\
    pool w' = [b1].
Proof.
  cbv zeta.
  assert (Hwf : Forall (fun p => snb_wf p = true)
                  [packet 1 [Byte.x61]; packet 2 [Byte.x62]; packet 3 [Byte.x63]])
    by (repeat constructor).
  split; [exact Hwf|].
  destruct (SendPackets_stops_at_first_failure _
              (connected 0 (Socket [] [None; Some EAGAIN] []) []) Hwf)
    as (w' & Hrun & _ & Htr & Hpool).
  exists w'. split; [exact Hrun|]. split; [exact Htr|exact Hpool].
Defined.

(** C6.  A call of [SendPackets], whatever the outcome of its writes,
    returns with the active and the retired descriptor and the Idle-Poll
    Counter as it found them; it has created no Acceptor task, and nothing
    it did belongs to connection-loss handling. *)
Theorem SendPackets_leaves_slot_alone (pkts : list snbuf) (cnt : Z) (w : world) :
  Forall (fun p => snb_wf p = true) pkts ->
  (Z.to_nat cnt <= length pkts)%nat ->
  exists k w' evs,
    SendPackets pkts cnt w = Some (k, w') /\
    client_fd_ (port w') = client_fd_ (port w) /\
    old_client_fd_ (port w') = old_client_fd_ (port w) /\
    recv_skip_cnt_ (port w') = recv_skip_cnt_ (port w) /\
    threads w' = threads w /\
    trace w' = trace w ++ evs /\
    Forall (fun e => is_loss_event e = false) evs.
Proof.
  intros Hwf Hlen.
  destruct (SendPackets_spec pkts Hwf cnt w Hlen)
    as (w' & Hrun & Hp & Hk & _ & Htr & _).
  eexists _, w', _. split; [exact Hrun|].
  rewrite Hp. do 3 (split; [reflexivity|]).
  split; [apply Hk|]. split; [exact Htr|].
  repeat apply Forall_app_2.
  - apply Forall_forall. intros e He.
    apply list_elem_of_fmap in He as (p & -> & _). reflexivity.
  - destruct (_ <? _)%nat; [|constructor].
    destruct (pkts !! _); repeat constructor.
  - destruct (_ =? _)%nat; repeat constructor.
Qed.

(** C6, with two buffers of which the first cannot be written. *)
Lemma SendPackets_leaves_slot_alone_witness :
  let w := connected 0 (Socket [] [Some EAGAIN] []) [] in
  exists k w',
    SendPackets [packet 1 [Byte.x61]; packet 2 [Byte.x62]] 2 w = Some (k, w') /\
    port w' = port w /\ threads w' = threads w.
Proof.
  cbv zeta.
  destruct (SendPackets_leaves_slot_alone
              [packet 1 [Byte.x61]; packet 2 [Byte.x62]] 2
              (connected 0 (Socket [] [Some EAGAIN] []) []))
    as (k & w' & evs & Hrun & Hc & Ho & Hs & Ht & _).
  - repeat constructor.
  - cbn. lia.
  - exists k, w'. split; [exact Hrun|]. split; [|exact Ht].
    destruct (SendPackets_frame _ _ _ _ _ Hrun) as [Hp _]. exact Hp.
Defined.

(** C7.  With no connection active, a receive call returns no buffer and
    leaves the world as it is; a send call returns 0, its only action on the
    world the write on descriptor -1 that fails at once with [EBADF] (none
    when the batch is empty): the port object, the descriptor table, the
    sockets and the pool are as before. *)
Theorem data_paths_idle_when_disconnected (w : world) (rcnt : Z)
    (pkts : list snbuf) (scnt : Z) :
  client_fd_ (port w) = NOT_CONNECTED ->
  Forall (fun p => snb_wf p = true) pkts ->
  (Z.to_nat scnt <= length pkts)%nat ->
  RecvPackets rcnt w = Some (([], 0), w) /\
  exists w',
    SendPackets pkts scnt w = Some (0, w') /\
    port w' = port w /\ fdtab w' = fdtab w /\ socks w' = socks w /\
    pool w' = pool w /\ threads w' = threads w /\
    trace w' = trace w ++
               match Z.to_nat scnt, pkts !! 0%nat with
               | S _, Some p => [unsent_event NOT_CONNECTED p]
               | _, _ => []
               end.
Proof.
  intros Hc Hwf Hlen. split; [apply RecvPackets_not_connected; exact Hc|].
  unfold SendPackets. unfold this at 1. unfold gets at 1. unfold bind at 1.
  rewrite Hc. destruct (Z.to_nat scnt) as [|n] eqn:Hn.
  - cbn. exists w. rewrite app_nil_r. repeat split.
  - destruct (lookup_lt_is_Some_2 pkts 0) as [pkt Hpkt]; [lia|].
    pose proof (batch_lookup_wf pkts Hwf 0 pkt Hpkt) as Hw.
    cbn [send_loop]. rewrite Hpkt, (fill_iov_wf pkt Hw).
    change {| msg_name := None; msg_namelen := None;
              msg_iov := msg_iov (msg_of pkt); msg_iovlen := nb_segs pkt;
              msg_control := None; msg_controllen := None;
              msg_flags := None |}
      with (msg_of pkt).
    erewrite bind_run.
    2: { erewrite bind_run; [|apply sendmsg_closed, sock_of_NOT_CONNECTED].
         reflexivity. }
    cbn. eexists. split; [reflexivity|]. repeat split.
Qed.

(** C7, with a batch of one buffer. *)
Lemma data_paths_idle_when_disconnected_witness :
  let w := booted [] [blank 0] in
  RecvPackets 8 w = Some (([], 0), w) /\
  exists w',
    SendPackets [packet 1 [Byte.x61]] 1 w = Some (0, w') /\
    port w' = port w /\ pool w' = pool w.
Proof.
  cbv zeta.
  destruct (data_paths_idle_when_disconnected (booted [] [blank 0]) 8
              [packet 1 [Byte.x61]] 1)
    as (Hr & w' & Hs & Hp & _ & _ & Hpool & _).
  - reflexivity.
  - repeat constructor.
  - cbn. lia.
  - split; [exact Hr|]. exists w'. split; [exact Hs|]. split; assumption.
Defined.

(** The gather list.  On an open connection every buffer of a batch that
    gets written is written by one [sendmsg] whose gather list is the
    buffer's segments in chain order, the other fields of the header left
    unassigned; for each such write the peer is sent one datagram that is
    the concatenation of the segments' bytes in that order. *)
Lemma SendPackets_gathers_segments (pkts : list snbuf) (cnt : Z)
    (w : world) (j : nat) (s : socket) :
  Forall (fun p => snb_wf p = true) pkts ->
  (Z.to_nat cnt <= length pkts)%nat ->
  let fd := client_fd_ (port w) in
  sock_of w fd = Some (j, s) ->
  let k := sendable w fd (Z.to_nat cnt) in
  (exists w' s',
     SendPackets pkts cnt w = Some (Z.of_nat k, w') /\
     trace w' =
       trace w ++ map (sent_event fd) (take k pkts) ++
       (if (k <? Z.to_nat cnt)%nat
        then match pkts !! k with
             | Some p => [unsent_event fd p]
             | None => []
             end
        else []) ++
       (if (k =? 0)%nat then []
        else [Esnb_free_bulk (map snb_id (take k pkts))]) /\
     sock_of w' fd = Some (j, s') /\
     outbox s' = outbox s ++ map payload (take k pkts)) /\
  Forall (fun p =>
            sent_event fd p =
            Esendmsg fd {| msg_name := None; msg_namelen := None;
                           msg_iov := map iov_of (segments p);
                           msg_iovlen := length (segments p);
                           msg_control := None; msg_controllen := None;
                           msg_flags := None |}
                     (Z.of_nat (length (concat (map seg_bytes (segments p))))) /\
            gather (msg_of p) = concat (map seg_bytes (segments p)) /\
            payload p = concat (map seg_bytes (segments p))) pkts.
Proof.
  intros Hwf Hlen fd Hs k. split.
  - destruct (SendPackets_spec pkts Hwf cnt w Hlen)
      as (w' & Hrun & _ & _ & _ & Htr & Hout).
    fold fd k in Hrun, Htr, Hout.
    destruct (Hout j s Hs) as (s' & Hs' & _ & Ho).
    exists w', s'. split; [exact Hrun|]. split; [exact Htr|split; assumption].
  - eapply Forall_impl; [exact Hwf|]. cbn beta. intros p Hp.
    pose proof (gather_wf p Hp) as Hg.
    unfold sent_event, msg_of, payload in *.
    unfold snb_wf in Hp. apply Nat.eqb_eq in Hp. rewrite Hp in *.
    split; [reflexivity|]. split; [exact Hg|reflexivity].
Qed.

(** C8, where it fails.  The header [SendPackets] hands to [sendmsg] has its
    gather list and the length of it assigned and no other field:
    [msg_name], [msg_namelen], [msg_control], [msg_controllen] and
    [msg_flags] hold what the stack held.  On an open connection with no
    fault queued on the socket, when [sendmsg] fails on what it finds there
    the write of the first buffer fails: the call returns 0, the peer is
    sent no datagram and no buffer is released. *)
Theorem SendPackets_unassigned_header (pkts : list snbuf) (cnt : Z)
    (w : world) (j : nat) (s : socket) (e : Z) (g : list (option Z))
    (p : snbuf) :
  Forall (fun p => snb_wf p = true) pkts ->
  (0 < Z.to_nat cnt <= length pkts)%nat ->
  let fd := client_fd_ (port w) in
  sock_of w fd = Some (j, s) ->
  tx_faults s = [] ->
  hdr_junk w = Some e :: g ->
  pkts !! 0%nat = Some p ->
  (msg_iov (msg_of p) = map iov_of (segments p) /\
   msg_name (msg_of p) = None /\ msg_namelen (msg_of p) = None /\
   msg_control (msg_of p) = None /\ msg_controllen (msg_of p) = None /\
   msg_flags (msg_of p) = None) /\
  exists w' s',
    SendPackets pkts cnt w = Some (0, w') /\
    trace w' = trace w ++ [unsent_event fd p] /\
    sock_of w' fd = Some (j, s') /\
    outbox s' = outbox s /\
    pool w' = pool w.
Proof.
  intros Hwf [Hpos Hlen] fd Hs Hf Hg Hp.
  split; [repeat split|].
  destruct (SendPackets_spec pkts Hwf cnt w Hlen)
    as (w' & Hrun & _ & _ & Hpool & Htr & Hout).
  fold fd in Hrun, Hpool, Htr, Hout.
  assert (Hk : sendable w fd (Z.to_nat cnt) = 0%nat).
  { unfold sendable. rewrite Hs, Hg.
    destruct (Z.to_nat cnt) as [|n]; [lia|reflexivity]. }
  rewrite Hk in Hrun, Hpool, Htr, Hout.
  destruct (Hout j s Hs) as (s' & Hs' & _ & Ho).
  exists w', s'. split; [exact Hrun|].
  cbn [take map app] in Htr, Ho, Hpool.
  rewrite Hp in Htr.
  destruct (Nat.ltb_spec 0 (Z.to_nat cnt)) as [_|?]; [|lia].
  rewrite app_nil_r in Htr, Ho.
  split; [exact Htr|]. split; [exact Hs'|]. split; [exact Ho|exact Hpool].
Qed.

(** C8, with a buffer of three segments of 1, 2 and 3 bytes, on a connection
    whose peer is there to read, when the kernel refuses the header with
    [EINVAL]: nothing is sent. *)
Lemma SendPackets_unassigned_header_witness :
  let w := set_hdr_junk [Some EINVAL] (connected 0 tty []) in
  snb_wf chained = true /\
  exists w' s',
    SendPackets [chained] 1 w = Some (0, w') /\
    trace w' = [Esendmsg 4 (msg_of chained) (-1)] /\
    sock_of w' 4 = Some (2%nat, s') /\
    outbox s' = [] /\
    pool w' = [].
Proof.
  cbv zeta. split; [reflexivity|].
  destruct (SendPackets_unassigned_header [chained] 1
              (set_hdr_junk [Some EINVAL] (connected 0 tty [])) 2%nat tty
              EINVAL [] chained)
    as [_ (w' & s' & Hrun & Htr & Hs & Ho & Hpool)].
  - repeat constructor.
  - cbn. lia.
  - reflexivity.
  - reflexivity.
  - reflexivity.
  - reflexivity.
  - exists w', s'. split; [exact Hrun|]. split; [exact Htr|].
    split; [exact Hs|]. split; [exact Ho|exact Hpool].
Defined.

(** * Further properties of the receive path *)

Lemma snb_append_id (pkt : snbuf) (len : Z) :
  snb_id (snb_append pkt len) = snb_id pkt.
Proof. unfold snb_append. destruct (_ && _); reflexivity. Qed.

Lemma recv_frame (fd : Z) (buf : list Byte.byte) (len : Z) (w : world) r d w' :
  recv fd buf len w = Some ((r, d), w') ->
  port w' = port w /\ pool w' = pool w /\ fdtab w' = fdtab w.
Proof.
  unfold recv. mstep.
  destruct (sock_of w fd) as [[i s]|];
    [destruct (inbox s) as [|[?|?|] ?]|];
    intros H; inversion H; repeat split.
Qed.

(** The books of the receive loop: the buffers of the array and of the
    pool are, by their identities and in order, those it started with; the
    count has grown by the number of buffers added and has not passed
    [cnt]; the descriptor table is untouched; and the port object is as
    before or as [CloseConnection] leaves it. *)
Lemma recv_loop_account (fuel : nat) (fd cnt : Z) :
  forall pkts received (w : world) out n (w' : world),
    recv_loop fuel fd cnt pkts received w = Some ((out, n), w') ->
    map snb_id out ++ map snb_id (pool w') =
      map snb_id pkts ++ map snb_id (pool w) /\
    n - received = Z.of_nat (length out) - Z.of_nat (length pkts) /\
    received <= n <= Z.max received cnt /\
    fdtab w' = fdtab w /\
    (port w' = port w \/ port w' = closed (port w)).
Proof.
  induction fuel as [|fuel IH]; intros pkts received w out n w' H;
    [discriminate|].
  cbn [recv_loop] in H.
  destruct (Z.ltb_spec received cnt) as [Hlt|Hge];
    [|inversion H; subst out n w'; repeat split; auto; lia].
  apply bind_Some in H as (a & w1 & Ha & H).
  destruct (pool w) as [|b rest] eqn:Hpool.
  { rewrite (snb_alloc_none w Hpool) in Ha. inversion Ha; subst a w1.
    inversion H; subst out n w'. cbn. rewrite Hpool.
    repeat split; auto; lia. }
  rewrite (snb_alloc_some w b rest Hpool) in Ha.
  inversion Ha; subst a w1. clear Ha.
  apply bind_Some in H as ([r d] & w2 & Hr & H).
  apply recv_frame in Hr as (Hp2 & Hpool2 & Hf2). cbn in Hp2, Hpool2, Hf2.
  destruct (0 <? r).
  - apply IH in H as (Hids & Hn & Hb & Hf & Hp).
    rewrite Hpool2 in Hids. rewrite map_app in Hids. cbn [map] in Hids.
    rewrite snb_append_id in Hids. cbn [snb_id set__data] in Hids.
    rewrite <- app_assoc in Hids. cbn [app] in Hids.
    rewrite length_app in Hn. cbn [length] in Hn.
    split; [exact Hids|]. split; [lia|]. split; [lia|].
    split; [congruence|]. rewrite Hp2 in Hp. exact Hp.
  - apply bind_Some in H as ([] & w3 & Hfree & H).
    rewrite snb_free_run in Hfree. inversion Hfree; subst w3. clear Hfree.
    apply bind_Some in H as (e & w4 & He & H).
    unfold gets in He. inversion He; subst e w4. clear He.
    destruct (_ && _).
    + inversion H; subst out n w'. cbn. rewrite Hpool2.
      repeat split; auto; lia.
    + destruct (_ && _).
      * apply IH in H as (Hids & Hn & Hb & Hf & Hp).
        cbn in Hids, Hf, Hp. rewrite Hpool2 in Hids.
        split; [exact Hids|]. split; [lia|]. split; [lia|].
        split; [congruence|]. rewrite Hp2 in Hp. exact Hp.
      * rewrite (bind_run _ _ _ _ _ (CloseConnection_run _)) in H.
        inversion H; subst out n w'. cbn. rewrite Hpool2, Hp2.
        repeat split; auto; lia.
Qed.

Lemma RecvPackets_account (cnt : Z) (w : world) pkts n (w' : world) :
  RecvPackets cnt w = Some ((pkts, n), w') ->
  map snb_id pkts ++ map snb_id (pool w') = map snb_id (pool w) /\
  n = Z.of_nat (length pkts) /\
  0 <= n <= Z.max 0 cnt /\
  fdtab w' = fdtab w.
Proof.
  unfold RecvPackets. intros H.
  apply bind_Some in H as (fd & w0 & Hfd & H).
  unfold this, gets in Hfd. inversion Hfd; subst fd w0. clear Hfd.
  destruct (client_fd_ (port w) =? NOT_CONNECTED).
  { inversion H; subst pkts n w'. cbn. repeat split; lia. }
  apply bind_Some in H as (skip & w0 & Hsk & H).
  unfold this, gets in Hsk. inversion Hsk; subst skip w0. clear Hsk.
  destruct (negb (recv_skip_cnt_ (port w) =? 0)).
  { unfold this_set, modify, bind, ret in H.
    inversion H; subst pkts n w'. cbn. repeat split; lia. }
  apply bind_Some in H as (q & w0 & Hq & H).
  unfold gets in Hq. inversion Hq; subst q w0. clear Hq.
  apply bind_Some in H as ([out m] & w1 & Hl & H).
  apply recv_loop_account in Hl as (Hids & Hn & Hb & Hf & _).
  cbn [map app length] in Hids, Hn.
  assert (Hw : pool w' = pool w1 /\ fdtab w' = fdtab w1 /\ pkts = out /\ n = m).
  { destruct (m =? 0); unfold this_set, modify, bind, ret in H;
      inversion H; subst; repeat split. }
  destruct Hw as (Hp & Hf' & -> & ->). rewrite Hp, Hf'.
  split; [exact Hids|]. split; [lia|]. split; [lia|exact Hf].
Qed.

(** The receive path makes no [sendmsg]: what the coming ones will find in
    their headers is as before. *)
Lemma recv_loop_hdr_junk (fuel : nat) (fd cnt : Z) :
  forall pkts received (w : world) r (w' : world),
    recv_loop fuel fd cnt pkts received w = Some (r, w') ->
    hdr_junk w' = hdr_junk w.
Proof.
  induction fuel as [|fuel IH]; intros pkts received w r w' H;
    [discriminate|].
  cbn [recv_loop] in H.
  destruct (received <? cnt); [|inversion H; reflexivity].
  apply bind_Some in H as (a & w1 & Ha & H).
  assert (Hw1 : hdr_junk w1 = hdr_junk w).
  { destruct (pool w) as [|b rest] eqn:Hpool.
    - rewrite (snb_alloc_none w Hpool) in Ha. inversion Ha. reflexivity.
    - rewrite (snb_alloc_some w b rest Hpool) in Ha. inversion Ha.
      reflexivity. }
  destruct a as [pkt|]; [|inversion H; subst; exact Hw1].
  apply bind_Some in H as ([r0 d] & w2 & Hr & H).
  assert (Hw2 : hdr_junk w2 = hdr_junk w1).
  { unfold recv in Hr. mstep.
    destruct (sock_of w1 fd) as [[i s]|];
      [destruct (inbox s) as [|[?|?|] ?]|];
      inversion Hr; reflexivity. }
  destruct (0 <? r0).
  - apply IH in H. congruence.
  - apply bind_Some in H as ([] & w3 & Hfree & H).
    rewrite snb_free_run in Hfree. inversion Hfree; subst w3. clear Hfree.
    apply bind_Some in H as (e & w4 & He & H).
    unfold gets in He. inversion He; subst e w4. clear He.
    destruct (_ && _); [inversion H; subst; cbn; congruence|].
    destruct (_ && _).
    + apply IH in H. cbn in H. congruence.
    + rewrite (bind_run _ _ _ _ _ (CloseConnection_run _)) in H.
      inversion H; subst. cbn. congruence.
Qed.

Lemma RecvPackets_hdr_junk (cnt : Z) (w : world) r (w' : world) :
  RecvPackets cnt w = Some (r, w') -> hdr_junk w' = hdr_junk w.
Proof.
  unfold RecvPackets. intros H.
  apply bind_Some in H as (fd & w0 & Hfd & H).
  unfold this, gets in Hfd. inversion Hfd; subst fd w0. clear Hfd.
  destruct (client_fd_ (port w) =? NOT_CONNECTED); [inversion H; reflexivity|].
  apply bind_Some in H as (skip & w0 & Hsk & H).
  unfold this, gets in Hsk. inversion Hsk; subst skip w0. clear Hsk.
  destruct (negb (recv_skip_cnt_ (port w) =? 0)).
  { unfold this_set, modify, bind, ret in H. inversion H; reflexivity. }
  apply bind_Some in H as (q & w0 & Hq & H).
  unfold gets in Hq. inversion Hq; subst q w0. clear Hq.
  apply bind_Some in H as ([out m] & w1 & Hl & H).
  apply recv_loop_hdr_junk in Hl.
  destruct (m =? 0); unfold this_set, modify, bind, ret in H;
    inversion H; subst; cbn; exact Hl.
Qed.

(** X1.  The receive path returns at most [cnt] buffers, and none for a [cnt]
    that is not positive; the count it returns is the number of buffers
    stored. *)
Theorem RecvPackets_at_most_cnt (cnt : Z) (w : world) :
  exists pkts w',
    RecvPackets cnt w = Some ((pkts, Z.of_nat (length pkts)), w') /\
    Z.of_nat (length pkts) <= Z.max 0 cnt.
Proof.
  destruct (RecvPackets_returns cnt w) as (pkts & w' & Hrun & _).
  exists pkts, w'. split; [exact Hrun|].
  apply RecvPackets_account in Hrun as (_ & _ & Hb & _). lia.
Qed.

(** X2.  The receive path neither loses nor duplicates a buffer: the
    buffers it returns together with those of the pool afterwards are the
    buffers of the pool before, each as many times; in what order the pool
    holds them is the allocator's business and is not said. *)
Theorem RecvPackets_conserves_buffers (cnt : Z) (w : world) :
  exists pkts w',
    RecvPackets cnt w = Some ((pkts, Z.of_nat (length pkts)), w') /\
    map snb_id pkts ++ map snb_id (pool w') ≡ₚ map snb_id (pool w).
Proof.
  destruct (RecvPackets_returns cnt w) as (pkts & w' & Hrun & _).
  exists pkts, w'. split; [exact Hrun|].
  apply RecvPackets_account in Hrun as (Hids & _). rewrite Hids.
  reflexivity.
Qed.

(** A run of datagrams that are not empty, read into as many buffers of
    the pool while the count allows. *)
Lemma recv_loop_datagrams (fd cnt : Z) (q : list rx_event) (pl : list snbuf) :
  forall (ds : list (list Byte.byte)) (bs : list snbuf) (fuel : nat)
         pkts received (w : world) i s,
    Forall (fun d => d <> []) ds ->
    length ds = length bs ->
    sock_of w fd = Some (i, s) ->
    inbox s = map RxDatagram ds ++ q ->
    pool w = bs ++ pl ->
    Z.of_nat (length ds) <= Z.max 0 (cnt - received) ->
    exists w1,
      recv_loop (length ds + fuel) fd cnt pkts received w =
      recv_loop fuel fd cnt (pkts ++ zip_with filled bs ds)
                (received + Z.of_nat (length ds)) w1 /\
      port w1 = port w /\ pool w1 = pl /\ fdtab w1 = fdtab w /\
      sock_of w1 fd = Some (i, Socket q (tx_faults s) (outbox s)).
Proof.
  induction ds as [|d ds IH]; intros bs fuel pkts received w i s
    Hne Hlen Hs Hq Hp Hcnt.
  - destruct bs; [|discriminate]. exists w. cbn.
    rewrite app_nil_r, Z.add_0_r. repeat split; try assumption.
    rewrite Hs. destruct s; cbn in *; subst; reflexivity.
  - destruct bs as [|b bs]; [discriminate|].
    apply Forall_cons in Hne as [Hd Hne]. cbn [length] in *.
    cbn [map app] in Hq, Hp.
    cbn [Nat.add].
    rewrite (recv_loop_datagram _ fd cnt pkts received w b (bs ++ pl) i s d
               (map RxDatagram ds ++ q)) by (try assumption; lia).
    destruct (IH bs fuel (pkts ++ [filled b d]) (received + 1)
                (after_read fd i s b (bs ++ pl) d (map RxDatagram ds ++ q) w)
                i (Socket (map RxDatagram ds ++ q) (tx_faults s) (outbox s)))
      as (w1 & Hrun & Hport & Hpool & Hfd & Hsock).
    + exact Hne.
    + lia.
    + unfold after_read. rewrite sock_of_log.
      erewrite sock_of_ext; [eapply sock_of_put; exact Hs| |]; reflexivity.
    + reflexivity.
    + reflexivity.
    + lia.
    + exists w1. rewrite Hrun. cbn [zip_with].
      rewrite <- app_assoc. cbn [app].
      replace (received + 1 + Z.of_nat (length ds))
        with (received + Z.of_nat (S (length ds))) by lia.
      split; [reflexivity|]. split; [exact Hport|]. split; [exact Hpool|].
      split; [exact Hfd|exact Hsock].
Qed.

(** The receive loop on a connection with nothing queued leaves the
    connection's socket as it is. *)
Lemma recv_loop_idle (fuel : nat) (fd cnt : Z) pkts received (w : world) i s :
  sock_of w fd = Some (i, s) ->
  inbox s = [] ->
  exists w',
    recv_loop (S fuel) fd cnt pkts received w = Some ((pkts, received), w') /\
    port w' = port w /\ sock_of w' fd = Some (i, s).
Proof.
  intros Hs Hq.
  destruct (Z.le_gt_cases cnt received) as [Hge|Hlt].
  { exists w. split; [apply recv_loop_done; exact Hge|]. auto. }
  destruct (pool w) as [|b rest] eqn:Hp.
  { eexists. split; [apply recv_loop_exhausted; assumption|]. auto. }
  pose proof (snb_alloc_some w b rest Hp) as Ha.
  assert (Hs1 : sock_of (log (Esnb_alloc (Some (snb_id b))) (set_pool rest w)) fd
                = Some (i, s)) by exact Hs.
  rewrite (recv_loop_unread fuel fd cnt pkts received w _ _ (fresh b) (-1) _
             Hlt Ha (recv_empty _ _ _ _ _ _ Hs1 Hq)) by lia.
  eexists. split; [reflexivity|]. split; [reflexivity|exact Hs].
Qed.

Lemma ids_zip_filled (bs : list snbuf) :
  forall ds : list (list Byte.byte),
    length ds = length bs ->
    map snb_id (zip_with filled bs ds) = map snb_id bs.
Proof.
  induction bs as [|b bs IH]; intros [|d ds] Hlen; try discriminate;
    [reflexivity|].
  cbn [zip_with map]. rewrite IH by (cbn in Hlen; lia).
  destruct (filled_buffer b d) as (Hid & _). rewrite Hid. reflexivity.
Qed.

Lemma payload_zip_filled (bs : list snbuf) :
  forall ds : list (list Byte.byte),
    length ds = length bs ->
    map payload (zip_with filled bs ds) = map (take (Z.to_nat SNBUF_DATA)) ds.
Proof.
  induction bs as [|b bs IH]; intros [|d ds] Hlen; try discriminate;
    [reflexivity|].
  cbn [zip_with map]. rewrite IH by (cbn in Hlen; lia).
  destruct (filled_buffer b d) as (_ & _ & Hpay & _). rewrite Hpay.
  reflexivity.
Qed.

(** A call that gets to read, with only datagrams queued. *)
Lemma RecvPackets_batch (cnt : Z) (w : world) (i : nat)
    (s : socket) (ds : list (list Byte.byte)) :
  let fd := client_fd_ (port w) in
  fd <> NOT_CONNECTED ->
  recv_skip_cnt_ (port w) = 0 ->
  sock_of w fd = Some (i, s) ->
  inbox s = map RxDatagram ds ->
  Forall (fun d => d <> []) ds ->
  let n := (Z.to_nat cnt `min` (length (pool w) `min` length ds))%nat in
  let pkts := zip_with filled (take n (pool w)) (take n ds) in
  exists w',
    RecvPackets cnt w = Some ((pkts, Z.of_nat n), w') /\
    map snb_id pkts = map snb_id (take n (pool w)) /\
    map payload pkts = map (take (Z.to_nat SNBUF_DATA)) (take n ds) /\
    client_fd_ (port w') = fd /\
    old_client_fd_ (port w') = old_client_fd_ (port w) /\
    sock_of w' fd =
      Some (i, Socket (map RxDatagram (drop n ds)) (tx_faults s) (outbox s)) /\
    recv_skip_cnt_ (port w') = if (n =? 0)%nat then RECV_SKIP_TICKS else 0.
Proof.
  intros fd Hc Hskip Hs Hq Hne n pkts.
  assert (Hn : (n <= Z.to_nat cnt /\ n <= length (pool w) /\ n <= length ds)%nat)
    by (subst n; lia).
  destruct Hn as (Hn1 & Hn2 & Hn3).
  assert (Hlt : length (take n ds) = n) by (rewrite length_take; lia).
  assert (Hlb : length (take n (pool w)) = n) by (rewrite length_take; lia).
  destruct (recv_loop_datagrams fd cnt (map RxDatagram (drop n ds))
              (drop n (pool w)) (take n ds) (take n (pool w))
              (S (length ds - n)) [] 0 w i s)
    as (w1 & Hrun & Hport & Hpool & Hfd & Hsock).
  { apply Forall_take. exact Hne. }
  { congruence. }
  { exact Hs. }
  { rewrite <- map_app, take_drop. exact Hq. }
  { rewrite take_drop. reflexivity. }
  { rewrite Hlt. lia. }
  rewrite Hlt in Hrun. cbn [app] in Hrun. rewrite Z.add_0_l in Hrun.
  fold pkts in Hrun.
  assert (Hlast : exists w2,
            recv_loop (S (length ds - n)) fd cnt pkts (Z.of_nat n) w1 =
            Some ((pkts, Z.of_nat n), w2) /\
            port w2 = port w1 /\
            sock_of w2 fd =
              Some (i, Socket (map RxDatagram (drop n ds)) (tx_faults s)
                              (outbox s))).
  { destruct (Z.le_gt_cases cnt (Z.of_nat n)) as [Hge|Hless].
    { exists w1. split; [apply recv_loop_done; exact Hge|]. auto. }
    destruct (pool w1) as [|b rest] eqn:Hp1.
    { eexists. split; [apply recv_loop_exhausted; assumption|].
      split; [reflexivity|exact Hsock]. }
    assert (Hall : n = length ds).
    { assert (n < length (pool w))%nat.
      { rewrite <- (take_drop n (pool w)), length_app, Hlb.
        rewrite <- Hpool. cbn [length]. lia. }
      subst n. lia. }
    assert (Hnil : drop n ds = []) by (apply drop_ge; lia).
    rewrite Hnil in Hsock |- *.
    destruct (recv_loop_idle (length ds - n) fd cnt pkts (Z.of_nat n) w1 i _
                Hsock eq_refl) as (w2 & Hrun2 & Hport2 & Hsock2).
    exists w2. split; [exact Hrun2|]. split; [exact Hport2|exact Hsock2]. }
  destruct Hlast as (w2 & Hrun2 & Hport2 & Hpend2).
  rewrite Hrun2 in Hrun.
  assert (Hfuel : S (length (pending w fd)) = (n + S (length ds - n))%nat).
  { unfold pending. rewrite Hs, Hq, length_map. lia. }
  rewrite <- Hfuel in Hrun.
  pose proof (RecvPackets_polls cnt w _ _ _ Hc Hskip Hrun) as Hcall.
  eexists. split; [exact Hcall|].
  split; [apply ids_zip_filled; congruence|].
  split; [apply payload_zip_filled; congruence|].
  destruct (Nat.eqb_spec n 0) as [Hz|Hnz].
  - replace (Z.of_nat n =? 0) with true by (symmetry; apply Z.eqb_eq; lia).
    cbn [port set_port client_fd_ old_client_fd_ recv_skip_cnt_
         with_recv_skip_cnt].
    rewrite Hport2, Hport. repeat split. exact Hpend2.
  - replace (Z.of_nat n =? 0) with false by (symmetry; apply Z.eqb_neq; lia).
    rewrite Hport2, Hport. repeat split; try assumption.
Qed.

(** X3.  A batch.  With datagrams [ds], none of them empty, and nothing else
    queued on the active connection, a call that gets to read returns
    [n] buffers, the least of [cnt], the size of the pool and the number of
    datagrams: they are the first [n] buffers of the pool, filled with the
    first [n] datagrams in their order of arrival, each cut to the data
    area.  The other datagrams stay queued, the connection stays active, and
    the Idle-Poll Counter is set to [RECV_SKIP_TICKS] exactly when [n] is
    zero. *)
Theorem RecvPackets_batch_in_order (cnt : Z) (w : world) (i : nat)
    (s : socket) (ds : list (list Byte.byte)) :
  let fd := client_fd_ (port w) in
  fd <> NOT_CONNECTED ->
  recv_skip_cnt_ (port w) = 0 ->
  sock_of w fd = Some (i, s) ->
  inbox s = map RxDatagram ds ->
  Forall (fun d => d <> []) ds ->
  let n := (Z.to_nat cnt `min` (length (pool w) `min` length ds))%nat in
  let pkts := zip_with filled (take n (pool w)) (take n ds) in
  exists w',
    RecvPackets cnt w = Some ((pkts, Z.of_nat n), w') /\
    map snb_id pkts = map snb_id (take n (pool w)) /\
    map payload pkts = map (take (Z.to_nat SNBUF_DATA)) (take n ds) /\
    client_fd_ (port w') = fd /\
    old_client_fd_ (port w') = old_client_fd_ (port w) /\
    pending w' fd = map RxDatagram (drop n ds) /\
    recv_skip_cnt_ (port w') = if (n =? 0)%nat then RECV_SKIP_TICKS else 0.
Proof.
  intros fd Hc Hskip Hs Hq Hne n pkts.
  destruct (RecvPackets_batch cnt w i s ds Hc Hskip Hs Hq Hne)
    as (w' & Hrun & Hids & Hpay & Hfd & Hold & Hsock & Hcnt).
  exists w'. repeat (split; [assumption|]).
  split; [|exact Hcnt].
  unfold pending. subst fd. cbv zeta in Hsock. rewrite Hsock. reflexivity.
Qed.

(** X3, with three datagrams waiting, two buffers in the pool and eight
    asked for. *)
Lemma RecvPackets_batch_in_order_witness :
  let ds := [[Byte.x61]; [Byte.x62; Byte.x63]; [Byte.x64]] in
  let w := connected 0 (Socket (map RxDatagram ds) [] []) [blank 0; blank 1] in
  exists pkts w',
    RecvPackets 8 w = Some ((pkts, 2), w') /\
    map snb_id pkts = [0; 1]%nat /\
    map payload pkts = [[Byte.x61]; [Byte.x62; Byte.x63]] /\
    pending w' 4 = [RxDatagram [Byte.x64]] /\
    client_fd_ (port w') = 4.
Proof.
  cbv zeta.
  destruct (RecvPackets_batch_in_order 8
              (connected 0 (Socket (map RxDatagram
                 [[Byte.x61]; [Byte.x62; Byte.x63]; [Byte.x64]]) [] [])
                 [blank 0; blank 1])
              2%nat
              (Socket (map RxDatagram
                 [[Byte.x61]; [Byte.x62; Byte.x63]; [Byte.x64]]) [] [])
              [[Byte.x61]; [Byte.x62; Byte.x63]; [Byte.x64]])
    as (w' & Hrun & Hids & Hpay & Hfd & _ & Hpend & _).
  - discriminate.
  - reflexivity.
  - reflexivity.
  - reflexivity.
  - repeat constructor; discriminate.
  - eexists _, w'. split; [exact Hrun|]. split; [exact Hids|].
    split; [exact Hpay|]. split; [exact Hpend|exact Hfd].
Defined.

(** * Further properties of the send path *)

(** X4.  A send in flight when the connection is lost.  A [SendPackets] that has
    read [client_fd_] goes on with that descriptor: after
    [CloseConnection] its loop still writes to the same peer, as many
    packets as it would have written before the loss, because the
    descriptor is kept open; a [SendPackets] that starts after the loss
    sends nothing. *)
Theorem send_in_flight_survives_loss (pkts : list snbuf) (n : nat) (w : world) :
  Forall (fun p => snb_wf p = true) pkts ->
  (n <= length pkts)%nat ->
  let fd := client_fd_ (port w) in
  let k := sendable w fd n in
  exists w1 w2 w3,
    CloseConnection w = Some (tt, w1) /\
    send_loop n fd pkts 0 0 w1 = Some (Z.of_nat k, w2) /\
    (forall j s, sock_of w fd = Some (j, s) ->
       exists s', sock_of w2 fd = Some (j, s') /\
                  outbox s' = outbox s ++ map payload (take k pkts)) /\
    SendPackets pkts (Z.of_nat n) w1 = Some (0, w3) /\
    socks w3 = socks w.
Proof.
  intros Hwf Hn fd k.
  rewrite CloseConnection_run. cbv zeta.
  match goal with |- context [Some (tt, ?w)] => set (w1 := w) end.
  assert (Hsock : forall x, sock_of w1 x = sock_of w x) by reflexivity.
  assert (Hk : sendable w1 fd n = k) by (unfold sendable; rewrite Hsock; reflexivity).
  destruct (send_loop_spec pkts Hwf fd n 0 0 w1)
    as (w2 & Hrun & _ & _ & _ & _ & Hout); [cbn; lia|].
  rewrite Hk, Z.add_0_l, drop_0 in *.
  destruct (SendPackets_spec pkts Hwf (Z.of_nat n) w1)
    as (w3 & Hrun3 & _ & _ & _ & Htr3 & _); [rewrite Nat2Z.id; exact Hn|].
  assert (Hz : sendable w1 (client_fd_ (port w1)) (Z.to_nat (Z.of_nat n)) = 0%nat)
    by reflexivity.
  rewrite Hz in Hrun3.
  exists w1, w2, w3. split; [reflexivity|]. split; [exact Hrun|].
  split.
  { intros j s Hs. destruct (Hout j s Hs) as (s' & Hs' & _ & Ho). eauto. }
  split; [exact Hrun3|].
  clear -Hrun3 Hwf. unfold SendPackets in Hrun3.
  apply bind_Some in Hrun3 as (fd0 & w0 & Hfd & H).
  unfold this, gets in Hfd. inversion Hfd; subst fd0 w0. clear Hfd.
  apply bind_Some in H as (sent & w4 & Hl & H).
  assert (Hs : socks w4 = socks w1 /\ sent = 0).
  { change (client_fd_ (port w1)) with NOT_CONNECTED in Hl.
    destruct (Z.to_nat (Z.of_nat n)) as [|m]; cbn [send_loop] in Hl.
    - inversion Hl; subst; auto.
    - destruct (pkts !! 0%nat) as [pkt|]; [|discriminate].
      destruct (fill_iov (nb_segs pkt) (segments pkt)) as [iov|]; [|discriminate].
      erewrite bind_run in Hl;
        [|apply sendmsg_closed, sock_of_NOT_CONNECTED].
      cbn in Hl. inversion Hl; subst; auto. }
  destruct Hs as [Hs ->]. cbn in H. inversion H; subst w3. exact Hs.
Qed.

(** X4, with two packets, on a connection that takes them. *)
Lemma send_in_flight_survives_loss_witness :
  let b1 := packet 1 [Byte.x61] in
  let b2 := packet 2 [Byte.x62] in
  let w := connected 0 tty [] in
  exists w1 w2 s',
    CloseConnection w = Some (tt, w1) /\
    client_fd_ (port w1) = NOT_CONNECTED /\
    send_loop 2 4 [b1; b2] 0 0 w1 = Some (2, w2) /\
    sock_of w2 4 = Some (2%nat, s') /\
    outbox s' = [[Byte.x61]; [Byte.x62]].
Proof.
  cbv zeta.
  destruct (send_in_flight_survives_loss
              [packet 1 [Byte.x61]; packet 2 [Byte.x62]] 2 (connected 0 tty []))
    as (w1 & w2 & w3 & Hc & Hrun & Hout & _).
  - repeat constructor.
  - cbn. lia.
  - destruct (Hout 2%nat tty eq_refl) as (s' & Hs & Ho).
    exists w1, w2, s'. split; [exact Hc|].
    split; [rewrite CloseConnection_run in Hc; inversion Hc; reflexivity|].
    split; [exact Hrun|]. split; [exact Hs|exact Ho].
Defined.

Lemma wf_zip_filled (bs : list snbuf) (ds : list (list Byte.byte)) :
  Forall (fun p => snb_wf p = true) (zip_with filled bs ds).
Proof.
  revert ds. induction bs as [|b bs IH]; intros [|d ds]; cbn [zip_with];
    try constructor.
  - destruct (filled_buffer b d) as (_ & _ & _ & Hwf). exact Hwf.
  - apply IH.
Qed.

(** X5.  Received and sent back.  The buffers a receive call returns, passed to a
    send call on the same connection, are written in their order of arrival:
    the peer gets each datagram back, cut to the data area, up to the first
    write that fails.  The buffers written are back in the pool; those that
    were not are left to the caller. *)
Theorem RecvPackets_then_SendPackets (cnt : Z) (w : world) (i : nat)
    (s : socket) (ds : list (list Byte.byte)) :
  let fd := client_fd_ (port w) in
  fd <> NOT_CONNECTED ->
  recv_skip_cnt_ (port w) = 0 ->
  sock_of w fd = Some (i, s) ->
  inbox s = map RxDatagram ds ->
  Forall (fun d => d <> []) ds ->
  let n := (Z.to_nat cnt `min` (length (pool w) `min` length ds))%nat in
  let k := sendable w fd n in
  exists pkts w1 w2 s2,
    RecvPackets cnt w = Some ((pkts, Z.of_nat n), w1) /\
    SendPackets pkts (Z.of_nat n) w1 = Some (Z.of_nat k, w2) /\
    sock_of w2 fd = Some (i, s2) /\
    outbox s2 = outbox s ++ map (take (Z.to_nat SNBUF_DATA)) (take k ds) /\
    inbox s2 = map RxDatagram (drop n ds) /\
    map snb_id (pool w2) =
      map snb_id (take k (pool w)) ++ map snb_id (drop n (pool w)) /\
    client_fd_ (port w2) = fd.
Proof.
  intros fd Hc Hskip Hs Hq Hne n k.
  assert (Hn : (n <= Z.to_nat cnt /\ n <= length (pool w) /\ n <= length ds)%nat)
    by (subst n; lia).
  destruct Hn as (Hn1 & Hn2 & Hn3).
  destruct (RecvPackets_batch cnt w i s ds Hc Hskip Hs Hq Hne)
    as (w1 & Hrun & Hids & Hpay & Hfd & _ & Hsock & _).
  cbv zeta in Hrun, Hids, Hpay, Hfd, Hsock. fold fd in Hfd, Hsock. fold n in Hrun, Hids, Hpay, Hsock.
  set (pkts := zip_with filled (take n (pool w)) (take n ds)) in *.
  assert (Hlen : length pkts = n).
  { subst pkts. rewrite length_zip_with, !length_take. lia. }
  destruct (SendPackets_spec pkts (wf_zip_filled _ _) (Z.of_nat n) w1)
    as (w2 & Hsend & Hp2 & _ & Hpool & _ & Hout).
  { rewrite Nat2Z.id, Hlen. reflexivity. }
  rewrite Nat2Z.id, Hfd in Hsend, Hpool, Hout.
  assert (Hk : sendable w1 fd n = k).
  { subst k. unfold sendable. rewrite Hsock, Hs.
    rewrite (RecvPackets_hdr_junk _ _ _ _ Hrun). reflexivity. }
  rewrite Hk in Hsend, Hpool, Hout.
  assert (Hkn : (k <= n)%nat) by (rewrite <- Hk; apply sendable_le).
  destruct (Hout _ _ Hsock) as (s2 & Hs2 & Hin2 & Hout2).
  destruct (RecvPackets_account _ _ _ _ _ Hrun) as (Hacc & _).
  exists pkts, w1, w2, s2.
  split; [exact Hrun|]. split; [exact Hsend|]. split; [exact Hs2|].
  split.
  { rewrite Hout2. cbn [outbox]. f_equal.
    rewrite <- firstn_map, Hpay, firstn_map, take_take.
    replace (k `min` n)%nat with k by lia. reflexivity. }
  split; [rewrite Hin2; reflexivity|].
  split; [|rewrite Hp2; exact Hfd].
  rewrite Hpool, map_app. f_equal.
  - rewrite <- firstn_map, Hids, firstn_map, take_take.
    replace (k `min` n)%nat with k by lia. reflexivity.
  - rewrite Hids in Hacc.
    rewrite <- (take_drop n (pool w)) in Hacc at 2.
    rewrite map_app in Hacc. apply app_inv_head in Hacc. exact Hacc.
Qed.

(** X5, with three datagrams echoed, of which the third cannot be written. *)
Lemma RecvPackets_then_SendPackets_witness :
  let ds := [[Byte.x61]; [Byte.x62; Byte.x63]; [Byte.x64]] in
  let s := Socket (map RxDatagram ds) [None; None; Some EAGAIN] [] in
  let w := connected 0 s [blank 0; blank 1; blank 2; blank 3] in
  exists pkts w1 w2 s2,
    RecvPackets 8 w = Some ((pkts, 3), w1) /\
    SendPackets pkts 3 w1 = Some (2, w2) /\
    sock_of w2 4 = Some (2%nat, s2) /\
    outbox s2 = [[Byte.x61]; [Byte.x62; Byte.x63]] /\
    map snb_id (pool w2) = [0; 1; 3]%nat.
Proof.
  cbv zeta.
  destruct (RecvPackets_then_SendPackets 8
              (connected 0
                 (Socket (map RxDatagram
                    [[Byte.x61]; [Byte.x62; Byte.x63]; [Byte.x64]])
                    [None; None; Some EAGAIN] [])
                 [blank 0; blank 1; blank 2; blank 3])
              2%nat
              (Socket (map RxDatagram
                 [[Byte.x61]; [Byte.x62; Byte.x63]; [Byte.x64]])
                 [None; None; Some EAGAIN] [])
              [[Byte.x61]; [Byte.x62; Byte.x63]; [Byte.x64]])
    as (pkts & w1 & w2 & s2 & Hrun & Hsend & Hs2 & Hout & _ & Hpool & _).
  - discriminate.
  - reflexivity.
  - reflexivity.
  - reflexivity.
  - repeat constructor; discriminate.
  - exists pkts, w1, w2, s2. split; [exact Hrun|]. split; [exact Hsend|].
    split; [exact Hs2|]. split; [exact Hout|exact Hpool].
Defined.

(** * Further properties of the Acceptor *)

Lemma accept4_error (lfd flags : Z) (w : world) l e q :
  fd_lookup (fdtab w) lfd = Some l ->
  backlog w = AcceptError e :: q ->
  accept4 lfd flags w =
  Some (-1, log (Eaccept4 lfd (-1)) (set_errno e (set_backlog q w))).
Proof. unfold accept4. mstep. intros -> ->. reflexivity. Qed.

Lemma accept4_peer (lfd flags : Z) (w : world) l s q :
  fd_lookup (fdtab w) lfd = Some l ->
  backlog w = AcceptPeer s :: q ->
  accept4 lfd flags w =
  Some (Z.of_nat (lowest_free (fdtab w)),
        log (Eaccept4 lfd (Z.of_nat (lowest_free (fdtab w))))
          (set_fdtab (fd_store (fdtab w) (lowest_free (fdtab w))
                               (Some (length (socks w))))
             (set_socks (socks w ++ [s]) (set_backlog q w)))).
Proof. unfold accept4. mstep. intros -> ->. reflexivity. Qed.

(** What the accept loop leaves in the trace for a failed [accept4]: the
    call, and a log entry unless the call was interrupted. *)
Lemma accept_loop_retries (lfd : Z) (l : nat) (s : socket)
    (q : list accept_event) :
  forall (es : list Z) (fuel : nat) (w : world),
    (length es < fuel)%nat ->
    listen_fd_ (port w) = lfd ->
    fd_lookup (fdtab w) lfd = Some l ->
    backlog w = map AcceptError es ++ AcceptPeer s :: q ->
    exists w1,
      accept_loop fuel w = Some (Z.of_nat (lowest_free (fdtab w)), w1) /\
      port w1 = port w /\
      fdtab w1 = fd_store (fdtab w) (lowest_free (fdtab w))
                          (Some (length (socks w))) /\
      socks w1 = socks w ++ [s] /\
      backlog w1 = q /\
      pool w1 = pool w /\
      trace w1 = trace w ++ flat_map (accept_failure lfd) es ++
                 [Eaccept4 lfd (Z.of_nat (lowest_free (fdtab w)))].
Proof.
  induction es as [|e es IH]; intros fuel w Hfuel Hl Hfd Hq;
    (destruct fuel as [|fuel]; [cbn in Hfuel; lia|]); cbn [accept_loop].
  - unfold this at 1. unfold gets at 1. unfold bind at 1. rewrite Hl.
    erewrite bind_run; [|eapply accept4_peer; [exact Hfd|exact Hq]].
    destruct (Z.leb_spec 0 (Z.of_nat (lowest_free (fdtab w)))); [|lia].
    eexists. split; [reflexivity|]. repeat split.
  - unfold this at 1. unfold gets at 1. unfold bind at 1. rewrite Hl.
    erewrite bind_run; [|eapply accept4_error; [exact Hfd|exact Hq]].
    cbn [Z.leb Z.compare]. unfold gets at 1. unfold bind at 1.
    cbn [errno log set_errno].
    match goal with
    | |- context [bind ?c (fun _ => accept_loop fuel) ?w0] =>
      assert (Hlog : exists w2, c w0 = Some (tt, w2) /\
                port w2 = port w /\ fdtab w2 = fdtab w /\
                socks w2 = socks w /\ pool w2 = pool w /\
                backlog w2 = map AcceptError es ++ AcceptPeer s :: q /\
                trace w2 = trace w ++ accept_failure lfd e)
    end.
    { unfold accept_failure.
      destruct (e =? EINTR); cbn; eexists; (split; [reflexivity|]);
        repeat split; cbn; rewrite <- ?app_assoc; reflexivity. }
    destruct Hlog as (w2 & Hrun2 & Hp2 & Hf2 & Hs2 & Hpool2 & Hb2 & Ht2).
    erewrite bind_run; [|exact Hrun2].
    destruct (IH fuel w2) as (w1 & Hrun & Hp & Hf & Hs & Hb & Hpool & Ht).
    + cbn in Hfuel. lia.
    + rewrite Hp2. exact Hl.
    + rewrite Hf2. exact Hfd.
    + exact Hb2.
    + exists w1. rewrite Hf2, Hs2 in *.
      split; [exact Hrun|]. split; [congruence|]. split; [exact Hf|].
      split; [exact Hs|]. split; [exact Hb|]. split; [congruence|].
      rewrite Ht, Ht2. cbn [flat_map]. rewrite <- !app_assoc. reflexivity.
Qed.

(** X6.  The Acceptor does not give up on a failed [accept4].  With no
    descriptor retired and the listening socket open, it goes through the
    failures that come before the first peer, logging each one that is not an
    interrupted call, then installs the peer's descriptor as the active one
    and resets the Idle-Poll Counter. *)
Theorem AcceptNewClient_retries_until_peer (w : world) (l : nat)
    (es : list Z) (s : socket) (q : list accept_event) :
  old_client_fd_ (port w) = NOT_CONNECTED ->
  fd_lookup (fdtab w) (listen_fd_ (port w)) = Some l ->
  backlog w = map AcceptError es ++ AcceptPeer s :: q ->
  let fd := Z.of_nat (lowest_free (fdtab w)) in
  exists w',
    AcceptNewClient w = Some (tt, w') /\
    client_fd_ (port w') = fd /\
    sock_of w' fd = Some (length (socks w), s) /\
    recv_skip_cnt_ (port w') = 0 /\
    backlog w' = q /\
    trace w' = trace w ++
               flat_map (accept_failure (listen_fd_ (port w))) es ++
               [Eaccept4 (listen_fd_ (port w)) fd].
Proof.
  intros Hold Hfd Hq fd.
  destruct (accept_loop_retries (listen_fd_ (port w)) l s q es
              (S (length (backlog w))) w)
    as (w1 & Hrun & Hp & Hf & Hs & Hb & _ & Ht); try assumption; try reflexivity.
  { rewrite Hq, length_app, length_map. cbn [length]. lia. }
  unfold AcceptNewClient. unfold gets at 1. unfold bind at 1.
  erewrite bind_run; [|exact Hrun].
  mstep. rewrite Hp, Hold. cbn.
  eexists. split; [reflexivity|]. cbn.
  split; [reflexivity|].
  split.
  { unfold sock_of. cbn. rewrite Hf, Hs. subst fd.
    rewrite fd_lookup_store_lowest.
    rewrite lookup_app_r by lia. rewrite Nat.sub_diag. reflexivity. }
  split; [reflexivity|]. split; [exact Hb|exact Ht].
Qed.

(** X6, with two failed accepts, the first of them interrupted, then a peer. *)
Lemma AcceptNewClient_retries_until_peer_witness :
  let w := booted [AcceptError EINTR; AcceptError EAGAIN; AcceptPeer tty] [] in
  exists w',
    AcceptNewClient w = Some (tt, w') /\
    client_fd_ (port w') = 4 /\
    sock_of w' 4 = Some (2%nat, tty) /\
    trace w' = [Eaccept4 3 (-1); Eaccept4 3 (-1); Elog; Eaccept4 3 4].
Proof.
  cbv zeta.
  destruct (AcceptNewClient_retries_until_peer
              (booted [AcceptError EINTR; AcceptError EAGAIN; AcceptPeer tty] [])
              1%nat [EINTR; EAGAIN] tty [])
    as (w' & Hrun & Hc & Hs & _ & _ & Ht).
  - reflexivity.
  - reflexivity.
  - reflexivity.
  - exists w'. split; [exact Hrun|]. split; [exact Hc|].
    split; [exact Hs|exact Ht].
Defined.

(** ** What a returning Acceptor has done *)

Lemma accept4_inv (lfd flags : Z) (w : world) (r : Z) (w0 : world) :
  accept4 lfd flags w = Some (r, w0) ->
  port w0 = port w /\
  ((r = -1 /\ fdtab w0 = fdtab w /\ socks w0 = socks w) \/
   (r = Z.of_nat (lowest_free (fdtab w)) /\
    fdtab w0 = fd_store (fdtab w) (lowest_free (fdtab w))
                        (Some (length (socks w))))).
Proof.
  unfold accept4. mstep.
  destruct (fd_lookup (fdtab w) lfd) as [l|]; mstep.
  - destruct (backlog w) as [|[e|s] q]; mstep; try discriminate;
      intros H; inversion H; subst; cbn; auto.
  - intros H; inversion H; subst; cbn; auto.
Qed.

Lemma accept_loop_inv (fuel : nat) :
  forall (w : world) (r : Z) (w1 : world),
    accept_loop fuel w = Some (r, w1) ->
    port w1 = port w /\
    r = Z.of_nat (lowest_free (fdtab w)) /\
    fdtab w1 = fd_store (fdtab w) (lowest_free (fdtab w))
                        (Some (length (socks w))).
Proof.
  induction fuel as [|fuel IH]; intros w r w1 H; [discriminate|].
  cbn [accept_loop] in H.
  apply bind_Some in H as (lfd & w0 & Hl & H).
  unfold this, gets in Hl. inversion Hl; subst lfd w0. clear Hl.
  apply bind_Some in H as (r1 & w0 & Ha & H).
  apply accept4_inv in Ha as (Hp & [(-> & Hf & Hs)|(-> & Hf)]).
  - cbn [Z.leb Z.compare] in H.
    apply bind_Some in H as (e & w2 & He & H).
    unfold gets in He. inversion He; subst e w2. clear He.
    apply bind_Some in H as ([] & w3 & Hlog & H).
    assert (Hw3 : port w3 = port w0 /\ fdtab w3 = fdtab w0 /\ socks w3 = socks w0).
    { destruct (negb (errno w0 =? EINTR)); unfold log_perr, modify, ret in Hlog;
        inversion Hlog; repeat split. }
    destruct Hw3 as (Hp3 & Hf3 & Hs3).
    apply IH in H as (Hp1 & -> & Hf1).
    rewrite Hf3, Hf, Hs3, Hs in Hf1. rewrite Hf3, Hf.
    split; [congruence|]. split; [reflexivity|exact Hf1].
  - destruct (Z.leb_spec 0 (Z.of_nat (lowest_free (fdtab w)))); [|lia].
    inversion H; subst. auto.
Qed.

Lemma lowest_free_not_open (t : list (option nat)) (k : nat) :
  t !! lowest_free t <> Some (Some k).
Proof.
  induction t as [|[j|] t IH]; cbn [lowest_free].
  - discriminate.
  - exact IH.
  - discriminate.
Qed.

(** Storing at the lowest free slot, and clearing it, leave the open
    descriptors as they are. *)
Lemma fd_lookup_store_other (t : list (option nat)) (v : option nat)
    (fd : Z) (k : nat) :
  fd_lookup t fd = Some k ->
  fd_lookup (fd_store t (lowest_free t) v) fd = Some k /\
  fd_lookup (<[lowest_free t := None]> (fd_store t (lowest_free t) v)) fd
  = Some k.
Proof.
  unfold fd_lookup. destruct (fd <? 0); [discriminate|].
  destruct (t !! Z.to_nat fd) as [[j|]|] eqn:Hfd; try discriminate.
  intros H; inversion H; subst j.
  assert (Hne : lowest_free t <> Z.to_nat fd).
  { intros E. rewrite <- E in Hfd. exact (lowest_free_not_open t k Hfd). }
  assert (Hst : fd_store t (lowest_free t) v !! Z.to_nat fd = Some (Some k)).
  { unfold fd_store. destruct (lowest_free t <? length t)%nat.
    - rewrite list_lookup_insert_ne by exact Hne. exact Hfd.
    - rewrite lookup_app_l by (eapply lookup_lt_Some; exact Hfd). exact Hfd. }
  rewrite list_lookup_insert_ne by exact Hne. rewrite Hst. auto.
Qed.

Lemma AcceptNewClient_inv (w w' : world) :
  AcceptNewClient w = Some (tt, w') ->
  let r := lowest_free (fdtab w) in
  let t1 := fd_store (fdtab w) r (Some (length (socks w))) in
  (old_client_fd_ (port w) = NOT_CONNECTED /\
   port w' = with_client_fd (Z.of_nat r) (with_recv_skip_cnt 0 (port w)) /\
   fdtab w' = t1) \/
  (old_client_fd_ (port w) <> NOT_CONNECTED /\
   port w' = with_recv_skip_cnt 0 (port w) /\
   (client_fd_ (port w) = NOT_CONNECTED -> fdtab w' = <[r := None]> t1)).
Proof.
  intros H r t1. unfold AcceptNewClient in H.
  apply bind_Some in H as (q & w0 & Hq & H).
  unfold gets in Hq. inversion Hq; subst q w0. clear Hq.
  apply bind_Some in H as (r0 & w1 & Ha & H).
  apply accept_loop_inv in Ha as (Hp & -> & Hf). fold r in H, Hf. fold t1 in Hf.
  apply bind_Some in H as ([] & w2 & Hs & H).
  unfold this_set, modify in Hs. inversion Hs; subst w2. clear Hs.
  apply bind_Some in H as (old & w3 & Ho & H).
  unfold this, gets in Ho. inversion Ho; subst old w3. clear Ho.
  cbn [port set_port old_client_fd_ with_recv_skip_cnt] in H.
  rewrite Hp in H.
  destruct (Z.eqb_spec (old_client_fd_ (port w)) NOT_CONNECTED) as [Hold|Hold];
    cbn [negb] in H.
  - left. unfold this_set, modify in H. inversion H; subst w'. cbn.
    rewrite ?Hp. auto.
  - right. split; [exact Hold|].
    apply bind_Some in H as (cfd & w4 & Hc & H).
    unfold this, gets in Hc. inversion Hc; subst cfd w4. clear Hc.
    cbn [port set_port client_fd_ with_recv_skip_cnt] in H.
    apply bind_Some in H as (r2 & w5 & Hd & H).
    apply bind_Some in H as (r3 & w6 & Hcl & H).
    unfold ret in H. inversion H; subst w6. clear H.
    split.
    + apply dup2_port in Hd. apply close_port in Hcl.
      rewrite Hcl, Hd. cbn. rewrite ?Hp. reflexivity.
    + intros Hidle. rewrite ?Hp in Hd. rewrite Hidle in Hd.
      assert (Hf5 : fdtab w5 = t1).
      { unfold dup2 in Hd. mstep.
        destruct (fd_lookup (fdtab w1) (Z.of_nat r)); mstep;
          inversion Hd; subst; cbn; exact Hf. }
      unfold close in Hcl. mstep. rewrite Hf5 in Hcl.
      unfold t1, r in Hcl. rewrite fd_lookup_store_lowest in Hcl.
      mstep. inversion Hcl; subst. cbn. rewrite Nat2Z.id. reflexivity.
Qed.

Lemma RecvPackets_port (cnt : Z) (w : world) r (w' : world) :
  RecvPackets cnt w = Some (r, w') ->
  exists c p,
    port w' = with_recv_skip_cnt c p /\
    (p = port w \/ p = closed (port w)) /\
    (c = recv_skip_cnt_ (port w) \/
     (recv_skip_cnt_ (port w) <> 0 /\
      c = (recv_skip_cnt_ (port w) - 1) mod 2 ^ 32) \/
     c = RECV_SKIP_TICKS).
Proof.
  assert (Heta : forall p, p = with_recv_skip_cnt (recv_skip_cnt_ p) p)
    by (intros []; reflexivity).
  unfold RecvPackets. intros H.
  apply bind_Some in H as (fd & w0 & Hfd & H).
  unfold this, gets in Hfd. inversion Hfd; subst fd w0. clear Hfd.
  destruct (client_fd_ (port w) =? NOT_CONNECTED).
  { inversion H; subst. exists (recv_skip_cnt_ (port w')), (port w'). auto. }
  apply bind_Some in H as (skip & w0 & Hsk & H).
  unfold this, gets in Hsk. inversion Hsk; subst skip w0. clear Hsk.
  destruct (Z.eqb_spec (recv_skip_cnt_ (port w)) 0) as [Hz|Hnz]; cbn [negb] in H.
  2: { unfold this_set, modify, bind, ret in H. inversion H; subst. cbn.
       eexists _, (port w). split; [reflexivity|]. auto. }
  apply bind_Some in H as (q & w0 & Hq & H).
  unfold gets in Hq. inversion Hq; subst q w0. clear Hq.
  apply bind_Some in H as ([out m] & w1 & Hl & H).
  apply recv_loop_account in Hl as (_ & _ & _ & _ & Hp).
  assert (Hc1 : recv_skip_cnt_ (port w1) = recv_skip_cnt_ (port w))
    by (destruct Hp as [-> | ->]; reflexivity).
  destruct (m =? 0); unfold this_set, modify, bind, ret in H;
    inversion H; subst; cbn.
  - exists RECV_SKIP_TICKS, (port w1). split; [reflexivity|]. auto.
  - exists (recv_skip_cnt_ (port w')), (port w').
    split; [apply Heta|]. auto.
Qed.

Lemma driver_inv_step (w w' : world) :
  driver_inv w -> driver_step w w' ->
  driver_inv w' /\ listen_fd_ (port w') = listen_fd_ (port w).
Proof.
  unfold driver_inv, retired_means_idle.
  intros (Ht & Hc & Hr) [Ha|[cnt r Hrecv|pkts cnt k Hs]].
  - apply AcceptNewClient_inv in Ha as [(Hold & -> & _)|(Hold & -> & _)];
      cbn; unfold RECV_SKIP_TICKS in *; repeat split; auto; try lia;
      try contradiction.
  - apply RecvPackets_port in Hrecv as (c & p & -> & Hp & Hcnt).
    unfold RECV_SKIP_TICKS in *.
    assert (Hrange : 0 <= c <= 256).
    { destruct Hcnt as [-> | [[Hnz ->] | ->]]; try lia.
      rewrite Z.mod_small; lia. }
    destruct Hp as [-> | ->]; cbn; repeat split; auto; lia.
  - apply SendPackets_frame in Hs as [-> _]. repeat split; auto; lia.
Qed.

Lemma driver_inv_fresh (w : world) :
  accept_thread_ (port w) = 0 ->
  0 <= recv_skip_cnt_ (port w) <= RECV_SKIP_TICKS ->
  old_client_fd_ (port w) = NOT_CONNECTED ->
  driver_inv w.
Proof.
  intros Ht Hc Ho. split; [exact Ht|]. split; [exact Hc|].
  intros H. contradiction.
Qed.

Lemma driver_inv_rtc (w w' : world) :
  driver_inv w -> rtc driver_step w w' ->
  driver_inv w' /\ listen_fd_ (port w') = listen_fd_ (port w).
Proof.
  intros Hinv Hsteps. induction Hsteps as [w|w1 w2 w3 Hstep _ IH]; [auto|].
  destruct (driver_inv_step w1 w2 Hinv Hstep) as [Hinv2 Hl].
  destruct (IH Hinv2) as [Hinv3 Hl3]. split; [exact Hinv3|congruence].
Qed.

(** X7.  The port object keeps its invariants through any calls of the Acceptor
    and of the data paths: [accept_thread_] stays zero, the Idle-Poll
    Counter stays between 0 and [RECV_SKIP_TICKS] (so that its decrement
    never wraps), a retired descriptor goes with an idle slot, and
    [listen_fd_] does not change. *)
Theorem driver_invariant_kept (w w' : world) :
  driver_inv w -> rtc driver_step w w' ->
  driver_inv w' /\ listen_fd_ (port w') = listen_fd_ (port w).
Proof.
  intros Hinv Hsteps. induction Hsteps as [w|w1 w2 w3 Hstep _ IH].
  - split; [exact Hinv|reflexivity].
  - destruct (driver_inv_step w1 w2 Hinv Hstep) as [Hinv2 Hl].
    destruct (IH Hinv2) as [Hinv3 Hl3].
    split; [exact Hinv3|]. rewrite Hl3. exact Hl.
Qed.

(** X7, from the world [Init] leaves behind: a peer is accepted, its shutdown
    is read, a second peer is accepted. *)
Lemma driver_invariant_kept_witness :
  let w := booted [AcceptPeer (Socket [RxShutdown] [] []); AcceptPeer tty]
                  [blank 0] in
  exists w1 w2 w3,
    AcceptNewClient w = Some (tt, w1) /\
    RecvPackets 1 w1 = Some (([], 0), w2) /\
    AcceptNewClient w2 = Some (tt, w3) /\
    driver_inv w3 /\ listen_fd_ (port w3) = 3 /\
    old_client_fd_ (port w3) = 4 /\ client_fd_ (port w3) = NOT_CONNECTED.
Proof.
  cbv zeta.
  assert (H1 : exists w1, AcceptNewClient
            (booted [AcceptPeer (Socket [RxShutdown] [] []); AcceptPeer tty]
                    [blank 0]) = Some (tt, w1))
    by (eexists; vm_compute; reflexivity).
  destruct H1 as (w1 & H1).
  assert (H2 : exists w2, RecvPackets 1 w1 = Some (([], 0), w2)).
  { vm_compute in H1. inversion H1; subst w1. eexists. vm_compute. reflexivity. }
  destruct H2 as (w2 & H2).
  assert (H3 : exists w3, AcceptNewClient w2 = Some (tt, w3) /\
                          old_client_fd_ (port w3) = 4 /\
                          client_fd_ (port w3) = NOT_CONNECTED).
  { vm_compute in H1. inversion H1; subst w1.
    vm_compute in H2. inversion H2; subst w2.
    eexists. split; [vm_compute; reflexivity|]. split; reflexivity. }
  destruct H3 as (w3 & H3 & Ho & Hc).
  destruct (driver_invariant_kept
              (booted [AcceptPeer (Socket [RxShutdown] [] []); AcceptPeer tty]
                      [blank 0]) w3) as [Hinv Hl].
  - apply driver_inv_fresh; cbn; unfold RECV_SKIP_TICKS; try reflexivity; lia.
  - eapply rtc_l; [apply step_accept; exact H1|].
    eapply rtc_l; [apply step_data; eapply step_recv; exact H2|].
    eapply rtc_l; [apply step_accept; exact H3|]. apply rtc_refl.
  - exists w1, w2, w3. split; [exact H1|]. split; [exact H2|].
    split; [exact H3|]. split; [exact Hinv|]. split; [exact Hl|].
    split; [exact Ho|exact Hc].
Defined.

(** X8.  No call of the Acceptor or of a data path closes a descriptor that was
    open before it: a descriptor open at one point is open, on the same
    socket, at every later point. *)
Theorem open_descriptors_stay_open (w w' : world) :
  driver_inv w -> rtc driver_step w w' ->
  forall (fd : Z) (k : nat),
    fd_lookup (fdtab w) fd = Some k -> fd_lookup (fdtab w') fd = Some k.
Proof.
  intros Hinv Hsteps. induction Hsteps as [w|w1 w2 w3 Hstep _ IH]; [auto|].
  intros fd k Hfd. destruct (driver_inv_step w1 w2 Hinv Hstep) as [Hinv2 _].
  apply (IH Hinv2). clear IH Hinv2.
  destruct Hstep as [Ha|[cnt r Hrecv|pkts cnt k' Hs]].
  - destruct (fd_lookup_store_other (fdtab w1) (Some (length (socks w1))) fd k Hfd)
      as [Hst Hcl].
    apply AcceptNewClient_inv in Ha as [(_ & _ & ->)|(Hold & _ & Hf)];
      [exact Hst|].
    rewrite Hf; [exact Hcl|]. apply Hinv. exact Hold.
  - destruct r as [out m].
    apply RecvPackets_account in Hrecv as (_ & _ & _ & ->). exact Hfd.
  - apply SendPackets_frame in Hs as [_ (-> & _)]. exact Hfd.
Qed.

(** X8, after a loss and a second accept, the retired descriptor 4 is still
    open on the first peer's socket. *)
Lemma open_descriptors_stay_open_witness :
  let peer := Socket [RxShutdown] [] [] in
  let w := connected 0 peer [blank 0] in
  exists w1,
    RecvPackets 1 w = Some (([], 0), w1) /\
    old_client_fd_ (port w1) = 4 /\
    fd_lookup (fdtab w1) 4 = Some 2%nat.
Proof.
  cbv zeta.
  assert (H1 : exists w1, RecvPackets 1 (connected 0 (Socket [RxShutdown] [] [])
                                           [blank 0]) = Some (([], 0), w1) /\
                          old_client_fd_ (port w1) = 4)
    by (eexists; split; [vm_compute; reflexivity|reflexivity]).
  destruct H1 as (w1 & H1 & Ho).
  exists w1. split; [exact H1|]. split; [exact Ho|].
  apply (open_descriptors_stay_open
           (connected 0 (Socket [RxShutdown] [] []) [blank 0]) w1).
  - apply driver_inv_fresh; cbn; unfold RECV_SKIP_TICKS; try reflexivity; lia.
  - eapply rtc_l; [apply step_data; eapply step_recv; exact H1|]. apply rtc_refl.
  - reflexivity.
Defined.

(** A descriptor opened on the lowest free number and closed again leaves
    the table as it was, for every lookup. *)
Lemma fd_lookup_store_close (t : list (option nat)) (v : option nat) (fd : Z) :
  fd_lookup (<[lowest_free t := None]> (fd_store t (lowest_free t) v)) fd =
  fd_lookup t fd.
Proof.
  unfold fd_lookup. destruct (fd <? 0); [reflexivity|].
  set (r := lowest_free t). set (n := Z.to_nat fd).
  pose proof (lowest_free_le t) as Hle. fold r in Hle.
  destruct (decide (n = r)) as [->|Hne].
  - assert (Hfree : forall k, t !! r <> Some (Some k))
      by (intros k; apply lowest_free_not_open).
    assert (Hlen : (r < length (fd_store t r v))%nat).
    { apply lookup_lt_is_Some. exists v. apply lookup_store_lowest. }
    rewrite list_lookup_insert_eq by exact Hlen.
    destruct (t !! r) as [[k|]|]; [exfalso; exact (Hfree k eq_refl)| |];
      reflexivity.
  - rewrite list_lookup_insert_ne by congruence.
    unfold fd_store. destruct (Nat.ltb_spec r (length t)) as [Hlt|Hge].
    + rewrite list_lookup_insert_ne by congruence. reflexivity.
    + replace (r - length t)%nat with 0%nat by lia. cbn [replicate app].
      destruct (decide (n < length t)%nat) as [Hn|Hn].
      * rewrite lookup_app_l by exact Hn. reflexivity.
      * rewrite (lookup_ge_None_2 t n) by lia.
        rewrite lookup_ge_None_2; [reflexivity|].
        rewrite length_app. cbn. lia.
Qed.

(** X9.  After the first loss of a connection the port never has one again.
    With a descriptor retired, every call of the Acceptor and of the data
    paths leaves [client_fd_] at [NOT_CONNECTED] and the retired descriptor
    where it is; the descriptor table answers every lookup as before, so
    that a peer accepted from then on has its descriptor closed within the
    same call; and the receive path returns no buffer. *)
Theorem no_connection_after_first_loss (w w' : world) :
  driver_inv w ->
  old_client_fd_ (port w) <> NOT_CONNECTED ->
  rtc driver_step w w' ->
  client_fd_ (port w') = NOT_CONNECTED /\
  old_client_fd_ (port w') = old_client_fd_ (port w) /\
  (forall fd, fd_lookup (fdtab w') fd = fd_lookup (fdtab w) fd) /\
  (forall cnt, RecvPackets cnt w' = Some (([], 0), w')).
Proof.
  intros Hinv Hold Hsteps.
  induction Hsteps as [w|w1 w2 w3 Hstep _ IH].
  - assert (Hc : client_fd_ (port w) = NOT_CONNECTED) by (apply Hinv; exact Hold).
    split; [exact Hc|]. split; [reflexivity|]. split; [reflexivity|].
    intros cnt. apply RecvPackets_not_connected. exact Hc.
  - assert (Hc : client_fd_ (port w1) = NOT_CONNECTED) by (apply Hinv; exact Hold).
    destruct (driver_inv_step w1 w2 Hinv Hstep) as [Hinv2 _].
    assert (Hstay : old_client_fd_ (port w2) = old_client_fd_ (port w1) /\
                    forall fd, fd_lookup (fdtab w2) fd = fd_lookup (fdtab w1) fd).
    { destruct Hstep as [Ha|[cnt r Hrecv|pkts cnt k Hs]].
      - apply AcceptNewClient_inv in Ha as [(Hno & _)|(_ & Hp & Hf)];
          [contradiction|].
        rewrite Hp, (Hf Hc). split; [reflexivity|].
        intros fd. apply fd_lookup_store_close.
      - rewrite (RecvPackets_not_connected cnt w1 Hc) in Hrecv.
        inversion Hrecv; subst w2. split; reflexivity.
      - apply SendPackets_frame in Hs as [Hp (Hf & _)].
        rewrite Hp, Hf. split; reflexivity. }
    destruct Hstay as [Ho Hf].
    destruct (IH Hinv2) as (H1 & H2 & H3 & H4); [rewrite Ho; exact Hold|].
    split; [exact H1|]. split; [congruence|].
    split; [intros fd; rewrite H3; apply Hf|exact H4].
Qed.

(** X9, with a connection lost, then two peers in the accept queue. *)
Lemma no_connection_after_first_loss_witness :
  let peer := Socket [RxDatagram [Byte.x41]] [] [] in
  let w := connected 0 (Socket [RxShutdown] [] []) [blank 0] in
  exists r w1 w2 w3,
    RecvPackets 1 w = Some (r, w1) /\
    old_client_fd_ (port w1) = 4 /\
    AcceptNewClient (set_backlog [AcceptPeer peer; AcceptPeer peer] w1) =
      Some (tt, w2) /\
    AcceptNewClient w2 = Some (tt, w3) /\
    backlog w3 = [] /\
    client_fd_ (port w3) = NOT_CONNECTED /\
    fd_lookup (fdtab w3) 5 = None.
Proof.
  cbv zeta.
  assert (Hev : exists r w1 w2 w3,
            RecvPackets 1 (connected 0 (Socket [RxShutdown] [] []) [blank 0]) =
              Some (r, w1) /\
            old_client_fd_ (port w1) = 4 /\
            AcceptNewClient
              (set_backlog [AcceptPeer (Socket [RxDatagram [Byte.x41]] [] []);
                            AcceptPeer (Socket [RxDatagram [Byte.x41]] [] [])] w1) =
              Some (tt, w2) /\
            AcceptNewClient w2 = Some (tt, w3) /\
            backlog w3 = [])
    by (do 4 eexists; vm_compute; repeat split).
  destruct Hev as (r & w1 & w2 & w3 & Hrecv & Ho & Ha2 & Ha3 & Hb).
  assert (Hw1 : driver_inv w1 /\ fd_lookup (fdtab w1) 5 = None).
  { vm_compute in Hrecv. inversion Hrecv; subst r w1.
    split; [|reflexivity].
    split; [reflexivity|]. split; [unfold RECV_SKIP_TICKS; cbn; lia|].
    intros _. reflexivity. }
  destruct Hw1 as [Hinv H5].
  destruct (no_connection_after_first_loss
              (set_backlog [AcceptPeer (Socket [RxDatagram [Byte.x41]] [] []);
                            AcceptPeer (Socket [RxDatagram [Byte.x41]] [] [])] w1)
              w3)
    as (Hc & _ & Hf & _).
  - exact Hinv.
  - cbn. rewrite Ho. discriminate.
  - eapply rtc_l; [apply step_accept; exact Ha2|].
    eapply rtc_l; [apply step_accept; exact Ha3|]. apply rtc_refl.
  - exists r, w1, w2, w3. repeat (split; [assumption|]).
    rewrite Hf. exact H5.
Defined.

(** * Setup and teardown *)

Ltac hstep :=
  repeat (progress (unfold Init, DeInit, AcceptThreadMain, sys_socket, unlink,
                           sys_bind, listen, pthread_cancel, pthread_detach,
                           pthread_create, close,
                           hbind, hret, lift, hgets, hmodify, hfail, bind, ret,
                           gets, modify, fail, this, this_set,
                           set_kernel, set_addr, set_names, hlog, set_port,
                           set_errno, set_fdtab, set_socks, set_spawn, log,
                           with_client_fd, with_old_client_fd, with_listen_fd,
                           with_accept_thread in *;
                    cbn -[fd_lookup fd_store lowest_free c_str snprintf strlen
                          set_first_char first_char sockaddr_name String.append
                          Z.add Z.ltb Z.eqb Z.leb Z.of_nat bool_decide filter
                          Ascii.eqb] in *;
                    change (-1 <? 0) with true in *;
                    change (0 <? 0) with false in * )).

Ltac init_case :=
  match goal with
  | |- context [match bind_fault ?h with _ => _ end] =>
    destruct (bind_fault h) eqn:?
  | |- context [match listen_fault ?h with _ => _ end] =>
    destruct (listen_fault h) eqn:?
  | |- context [if negb (Ascii.eqb ?a ?b) then _ else _] =>
    destruct (Ascii.eqb a b) eqn:?
  | |- context [if bool_decide ?P then _ else _] =>
    destruct (bool_decide P) eqn:?
  | |- context [if negb (?a =? ?b) then _ else _] =>
    destruct (a =? b) eqn:?
  | |- context [if ?a =? ?b then _ else _] =>
    destruct (a =? b) eqn:?
  end.

Lemma of_nat_ltb_0 (n : nat) : (Z.of_nat n <? 0) = false.
Proof. apply Z.ltb_ge. lia. Qed.

(** Whatever comes after it, once [socket] has given a descriptor [Init]
    returns with that descriptor in [listen_fd_] and in the descriptor
    table; it has bound, or tried to bind, the address [init_addr]. *)
Lemma Init_after_socket (ntx nrx : Z) (name : string) (path : option string)
    (h : host) :
  ntx <= 1 -> nrx <= 1 -> socket_fault h = None ->
  let k := kernel h in
  let fd := lowest_free (fdtab k) in
  let p := init_sun_path name path in
  exists r h' rb rest,
    Init ntx nrx name path h = Some (r, h') /\
    listen_fd_ (port (kernel h')) = Z.of_nat fd /\
    client_fd_ (port (kernel h')) = NOT_CONNECTED /\
    old_client_fd_ (port (kernel h')) = NOT_CONNECTED /\
    fdtab (kernel h') = fd_store (fdtab k) fd (Some (length (socks k))) /\
    socks (kernel h') = socks k ++ [Socket [] [] []] /\
    addr_ h' = init_addr name path /\
    syslog h' =
      syslog h ++ Hsocket AF_UNIX SOCK_SEQPACKET 0 (Z.of_nat fd) ::
      (if is_abstract p then []
       else [Hunlink p (if bool_decide (c_str p ∈ names h) then 0 else -1)]) ++
      Hbind (Z.of_nat fd) (init_addr name path) (init_addrlen name path) rb ::
      rest /\
    Forall (fun e => match e with Epthread_create _ => True | _ => False end)
           (drop (length (trace k)) (trace (kernel h'))).
Proof.
  intros H1 H2 Hs k fd p.
  assert (Hq : (1 <? ntx) || (1 <? nrx) = false)
    by (apply orb_false_iff; split; apply Z.ltb_ge; lia).
  unfold init_addr, init_addrlen, is_abstract. fold p.
  unfold Init. fold (init_sun_path name path). fold p.
  hstep. rewrite Hq, Hs. hstep.
  rewrite ?of_nat_ltb_0, ?fd_lookup_store_lowest.
  repeat (init_case; hstep;
          rewrite ?of_nat_ltb_0, ?fd_lookup_store_lowest);
    do 4 eexists; (split; [reflexivity|]); cbn;
    rewrite <- ?app_assoc; cbn;
    repeat (split; [reflexivity|]);
    rewrite ?drop_app_length, ?drop_all; repeat constructor.
Qed.

(** X10.  [Init] refuses a port with more than one queue in a direction: it
    returns [EINVAL] having made no system call and created no Acceptor; the
    slot is already set to no connection. *)
Theorem Init_rejects_multiqueue (ntx nrx : Z) (name : string)
    (path : option string) (h : host) :
  1 < ntx \/ 1 < nrx ->
  exists h',
    Init ntx nrx name path h =
    Some (Some (snobj_err EINVAL "Cannot have more than 1 queue per RX/TX"%string),
          h') /\
    syslog h' = syslog h /\ names h' = names h /\
    fdtab (kernel h') = fdtab (kernel h) /\
    trace (kernel h') = trace (kernel h) /\
    threads (kernel h') = threads (kernel h) /\
    listen_fd_ (port (kernel h')) = listen_fd_ (port (kernel h)) /\
    client_fd_ (port (kernel h')) = NOT_CONNECTED /\
    old_client_fd_ (port (kernel h')) = NOT_CONNECTED.
Proof.
  intros Hq.
  assert (Hb : (1 <? ntx) || (1 <? nrx) = true)
    by (apply orb_true_iff; destruct Hq; [left|right]; apply Z.ltb_lt; assumption).
  hstep. rewrite Hb. eexists. split; [reflexivity|]. repeat split.
Qed.

(** X10, with two transmit queues. *)
Lemma Init_rejects_multiqueue_witness :
  exists h',
    Init 2 1 "p0" None (machine [] []) =
    Some (Some (snobj_err 22 "Cannot have more than 1 queue per RX/TX"%string), h') /\
    fdtab (kernel h') = [Some 0; Some 0; Some 0]%nat /\ syslog h' = [].
Proof.
  destruct (Init_rejects_multiqueue 2 1 "p0" None (machine [] []))
    as (h' & Hrun & Hlog & _ & Hfd & _); [left; lia|].
  exists h'. split; [exact Hrun|]. split; [exact Hfd|exact Hlog].
Defined.

(** ** The address *)

Lemma c_str_idem (s : string) : c_str (c_str s) = c_str s.
Proof.
  induction s as [|c s IH]; cbn; [reflexivity|].
  destruct (Ascii.eqb c zero) eqn:E; cbn; [reflexivity|].
  rewrite E, IH. reflexivity.
Qed.

Lemma c_str_app (a b : string) :
  c_str a = a -> c_str b = b -> c_str (a +:+ b) = a +:+ b.
Proof.
  induction a as [|c a IH]; cbn; intros Ha Hb; [exact Hb|].
  change (String c a +:+ b) with (String c (a +:+ b)). cbn.
  destruct (Ascii.eqb c zero); [discriminate|].
  f_equal. apply IH; [congruence|exact Hb].
Qed.

Lemma c_str_take (n : nat) :
  forall s, c_str s = s -> c_str (str_take n s) = str_take n s.
Proof.
  induction n as [|n IH]; intros [|c s] Hs; cbn in *; try reflexivity.
  destruct (Ascii.eqb c zero); [discriminate|].
  f_equal. apply IH. congruence.
Qed.

Lemma length_str_take (n : nat) :
  forall s, (String.length (str_take n s) <= n)%nat.
Proof.
  induction n as [|n IH]; intros [|c s]; cbn; try lia.
  specialize (IH s). lia.
Qed.

Lemma str_take_all (s : string) : str_take (String.length s) s = s.
Proof. induction s as [|c s IH]; cbn; [reflexivity|]. rewrite IH. reflexivity. Qed.

Lemma init_sun_path_c_str (name : string) (path : option string) :
  c_str (init_sun_path name path) = init_sun_path name path.
Proof.
  unfold init_sun_path, snprintf. destruct path as [path|].
  - apply c_str_take, c_str_idem.
  - apply c_str_take. apply c_str_app; [apply c_str_idem|].
    apply c_str_app; [reflexivity|apply c_str_idem].
Qed.

Lemma init_sun_path_length (name : string) (path : option string) :
  (String.length (init_sun_path name path) <= 107)%nat.
Proof.
  unfold init_sun_path, snprintf. destruct path; apply length_str_take.
Qed.

Lemma set_first_char_length (c : ascii) (s : string) :
  s <> EmptyString ->
  String.length (set_first_char c s) = String.length s.
Proof. destruct s; [congruence|reflexivity]. Qed.

Lemma is_abstract_nonempty (p : string) :
  is_abstract p = true -> p <> EmptyString.
Proof. intros H ->. discriminate H. Qed.

(** The name [bind] reads from the address is the whole of [sun_path]. *)
Lemma sockaddr_name_init (name : string) (path : option string) :
  sockaddr_name (init_addr name path) (init_addrlen name path) =
  sun_path (init_addr name path).
Proof.
  unfold sockaddr_name, init_addrlen, strlen.
  rewrite init_sun_path_c_str.
  replace (Z.to_nat (sizeof_sun_family + Z.of_nat (String.length (init_sun_path name path))
                     - sizeof_sun_family))
    with (String.length (init_sun_path name path)) by lia.
  unfold init_addr. cbn [sun_path].
  destruct (is_abstract (init_sun_path name path)) eqn:E.
  - rewrite <- (set_first_char_length zero) by (apply is_abstract_nonempty; exact E).
    apply str_take_all.
  - apply str_take_all.
Qed.

(** X11.  The address [Init] binds fits [struct sockaddr_un]: the path is at most
    107 characters, whatever the length of the configured path or of the
    port's name, and the length passed to [bind] covers it exactly. *)
Theorem Init_address_bounds (ntx nrx : Z) (name : string)
    (path : option string) (h : host) :
  ntx <= 1 -> nrx <= 1 -> socket_fault h = None ->
  exists r h' rb,
    Init ntx nrx name path h = Some (r, h') /\
    Hbind (listen_fd_ (port (kernel h'))) (addr_ h') (init_addrlen name path) rb
      ∈ syslog h' /\
    (String.length (sun_path (addr_ h')) <= 107)%nat /\
    init_addrlen name path =
      sizeof_sun_family + Z.of_nat (String.length (sun_path (addr_ h'))) /\
    init_addrlen name path <= 109 /\
    sockaddr_name (addr_ h') (init_addrlen name path) = sun_path (addr_ h') /\
    (forall path0, path = Some path0 ->
       is_abstract (init_sun_path name path) = false ->
       sun_path (addr_ h') = str_take 107 (c_str path0)).
Proof.
  intros H1 H2 Hs.
  destruct (Init_after_socket ntx nrx name path h H1 H2 Hs)
    as (r & h' & rb & rest & Hrun & Hl & _ & _ & _ & _ & Ha & Hlog & _).
  exists r, h', rb. split; [exact Hrun|].
  rewrite Hl, Ha, Hlog.
  pose proof (init_sun_path_length name path) as Hlen.
  assert (Hsame : String.length (sun_path (init_addr name path)) =
                  String.length (init_sun_path name path)).
  { unfold init_addr. cbn [sun_path].
    destruct (is_abstract (init_sun_path name path)) eqn:E; [|reflexivity].
    apply set_first_char_length, is_abstract_nonempty. exact E. }
  split.
  { rewrite !elem_of_app. right. rewrite elem_of_cons. right.
    rewrite elem_of_app. right. apply elem_of_cons. left. reflexivity. }
  split; [lia|].
  assert (Hal : init_addrlen name path =
                sizeof_sun_family +
                Z.of_nat (String.length (sun_path (init_addr name path)))).
  { unfold init_addrlen, strlen. rewrite init_sun_path_c_str, Hsame. reflexivity. }
  split; [exact Hal|].
  split; [rewrite Hal; unfold sizeof_sun_family; lia|].
  split; [apply sockaddr_name_init|].
  intros path0 -> Hfile. unfold init_addr. cbn [sun_path]. rewrite Hfile.
  reflexivity.
Qed.

(** X11, with a configured path of 120 characters. *)
Lemma Init_address_bounds_witness :
  let long := String.concat "" (replicate 12 "/abcdefghi"%string) in
  exists r h',
    Init 1 1 "p0" (Some long) (machine [] []) = Some (r, h') /\
    String.length long = 120%nat /\
    sun_path (addr_ h') = str_take 107 long /\
    init_addrlen "p0" (Some long) = 109.
Proof.
  cbv zeta.
  destruct (Init_address_bounds 1 1 "p0"
              (Some (String.concat "" (replicate 12 "/abcdefghi"%string)))
              (machine [] []))
    as (r & h' & rb & Hrun & _ & _ & _ & _ & _ & Hpath); try lia; [reflexivity|].
  exists r, h'. split; [exact Hrun|]. split; [reflexivity|].
  split; [|reflexivity].
  rewrite (Hpath _ eq_refl eq_refl). reflexivity.
Defined.

(** X12.  [Init] closes nothing.  Once [socket] has given a descriptor, [Init]
    returns, with [NULL] or with an error, leaving that descriptor open and
    recorded in [listen_fd_], and every descriptor that was open still
    open: a failed [bind], [listen] or [pthread_create] leaves the
    listening socket behind. *)
Theorem Init_leaves_socket_open (ntx nrx : Z) (name : string)
    (path : option string) (h : host) :
  ntx <= 1 -> nrx <= 1 -> socket_fault h = None ->
  exists r h',
    Init ntx nrx name path h = Some (r, h') /\
    listen_fd_ (port (kernel h')) =
      Z.of_nat (lowest_free (fdtab (kernel h))) /\
    fd_lookup (fdtab (kernel h')) (listen_fd_ (port (kernel h'))) =
      Some (length (socks (kernel h))) /\
    (forall fd k, fd_lookup (fdtab (kernel h)) fd = Some k ->
                  fd_lookup (fdtab (kernel h')) fd = Some k) /\
    Forall (fun e => match e with Epthread_create _ => True | _ => False end)
           (drop (length (trace (kernel h))) (trace (kernel h'))).
Proof.
  intros H1 H2 Hs.
  destruct (Init_after_socket ntx nrx name path h H1 H2 Hs)
    as (r & h' & rb & rest & Hrun & Hl & _ & _ & Hf & _ & _ & _ & Htr).
  exists r, h'. split; [exact Hrun|]. split; [exact Hl|].
  rewrite Hl, Hf. split; [apply fd_lookup_store_lowest|].
  split; [|exact Htr].
  intros fd k Hfd. apply fd_lookup_store_other. exact Hfd.
Qed.

(** X12, when the kernel refuses the [bind]. *)
Lemma Init_leaves_socket_open_witness :
  let h := {| kernel := process []; addr_ := SockaddrUn 0 EmptyString;
              names := []; socket_fault := None; bind_fault := Some 13;
              listen_fault := None; syslog := [] |} in
  exists h',
    Init 1 1 "p0" None h =
    Some (Some (snobj_err 13 "bind(/tmp/bess_unix_p0) failed"%string), h') /\
    listen_fd_ (port (kernel h')) = 3 /\
    fd_lookup (fdtab (kernel h')) 3 = Some 1%nat.
Proof.
  cbv zeta.
  destruct (Init_leaves_socket_open 1 1 "p0" None
              {| kernel := process []; addr_ := SockaddrUn 0 EmptyString;
                 names := []; socket_fault := None; bind_fault := Some 13;
                 listen_fault := None; syslog := [] |})
    as (r & h' & Hrun & Hl & Hopen & _); try lia; [reflexivity|].
  assert (Hev : exists h0, Init 1 1 "p0" None
              {| kernel := process []; addr_ := SockaddrUn 0 EmptyString;
                 names := []; socket_fault := None; bind_fault := Some 13;
                 listen_fault := None; syslog := [] |} =
            Some (Some (snobj_err 13 "bind(/tmp/bess_unix_p0) failed"%string), h0))
    by (eexists; vm_compute; reflexivity).
  destruct Hev as (h0 & Hev). rewrite Hev in Hrun. inversion Hrun; subst r h0.
  exists h'. split; [exact Hev|]. rewrite Hl in Hopen. split; [exact Hl|exact Hopen].
Defined.

Lemma sockaddr_name_file (p : string) :
  c_str p = p ->
  sockaddr_name {| sun_family := AF_UNIX; sun_path := p |}
                (sizeof_sun_family + strlen p) = p.
Proof.
  intros Hp. unfold sockaddr_name, strlen. rewrite Hp. cbn [sun_path].
  replace (Z.to_nat (sizeof_sun_family + Z.of_nat (String.length p) - sizeof_sun_family))
    with (String.length p) by lia.
  apply str_take_all.
Qed.

Lemma sockaddr_name_abstract (p : string) :
  c_str p = p -> p <> EmptyString ->
  sockaddr_name {| sun_family := AF_UNIX; sun_path := set_first_char zero p |}
                (sizeof_sun_family + strlen p) = set_first_char zero p.
Proof.
  intros Hp Hne. unfold sockaddr_name, strlen. rewrite Hp. cbn [sun_path].
  replace (Z.to_nat (sizeof_sun_family + Z.of_nat (String.length p) - sizeof_sun_family))
    with (String.length p) by lia.
  rewrite <- (set_first_char_length zero p Hne). apply str_take_all.
Qed.

Lemma set_first_char_nonempty c p : set_first_char c p <> EmptyString.
Proof. destruct p; discriminate. Qed.

Ltac exists_host Er :=
  hstep; rewrite ?Er; hstep; eexists; (split; [reflexivity|]); cbn;
  rewrite ?Er; repeat (split; [reflexivity|]).

Lemma Init_runs (ntx nrx : Z) (name : string) (path : option string) (h : host) :
  ntx <= 1 -> nrx <= 1 ->
  socket_fault h = None -> bind_fault h = None -> listen_fault h = None ->
  (is_abstract (init_sun_path name path) = true ->
   sun_path (init_addr name path) ∉ names h) ->
  let k := kernel h in
  let fd := lowest_free (fdtab k) in
  let r := hd 0 (spawn_rets k) in
  exists h',
    Init ntx nrx name path h =
      Some (if r =? 0 then None
            else Some (snobj_err r "pthread_create() failed"%string), h') /\
    port (kernel h') =
      {| recv_skip_cnt_ := recv_skip_cnt_ (port k); listen_fd_ := Z.of_nat fd;
         client_fd_ := NOT_CONNECTED; old_client_fd_ := NOT_CONNECTED;
         accept_thread_ := 0 |} /\
    fdtab (kernel h') = fd_store (fdtab k) fd (Some (length (socks k))) /\
    socks (kernel h') = socks k ++ [Socket [] [] []] /\
    backlog (kernel h') = backlog k /\
    pool (kernel h') = pool k /\
    threads (kernel h') = (if r =? 0 then S (threads k) else threads k) /\
    trace (kernel h') = trace k ++ [Epthread_create r] /\
    last (syslog h') = Some (Hlisten (Z.of_nat fd) 1 0) /\
    (sun_path (init_addr name path) <> EmptyString ->
     sun_path (init_addr name path) ∈ names h') /\
    (forall n, n ∈ names h' -> n = sun_path (init_addr name path) \/ n ∈ names h).
Proof.
  intros H1 H2 Hs Hb Hl Hfree k fd r. subst k fd r.
  assert (Hq : (1 <? ntx) || (1 <? nrx) = false)
    by (apply orb_false_iff; split; apply Z.ltb_ge; lia).
  pose proof (init_sun_path_c_str name path) as Hc.
  unfold init_addr, is_abstract in *. cbn [sun_path] in *.
  unfold Init. fold (init_sun_path name path).
  set (p := init_sun_path name path) in *.
  destruct (Ascii.eqb (first_char p) "@") eqn:Ea.
  - pose proof (is_abstract_nonempty p Ea) as Hne.
    destruct (hd 0 (spawn_rets (kernel h)) =? 0) eqn:Er.
    all: hstep; rewrite Hq, Hs; hstep; rewrite ?of_nat_ltb_0, ?Ea; hstep.
    all: rewrite fd_lookup_store_lowest, Hb; hstep.
    all: rewrite (sockaddr_name_abstract p Hc Hne).
    all: rewrite bool_decide_eq_false_2 by apply set_first_char_nonempty.
    all: rewrite bool_decide_eq_false_2 by (apply Hfree; reflexivity).
    all: hstep; rewrite fd_lookup_store_lowest, Hl; exists_host Er.
    all: split; [apply last_snoc|].
    all: split; [intros _; apply elem_of_cons; left; reflexivity|].
    all: intros n Hn; apply elem_of_cons in Hn; exact Hn.
  - destruct (hd 0 (spawn_rets (kernel h)) =? 0) eqn:Er.
    all: hstep; rewrite Hq, Hs; hstep; rewrite ?of_nat_ltb_0, ?Ea; hstep.
    all: rewrite Hc.
    all: destruct (bool_decide (p ∈ names h)) eqn:Eu; hstep.
    all: rewrite fd_lookup_store_lowest, Hb; hstep.
    all: rewrite (sockaddr_name_file p Hc).
    all: destruct (bool_decide (p = EmptyString)) eqn:Ee; hstep;
      [|rewrite bool_decide_eq_false_2
          by first [ exact (proj1 (bool_decide_eq_false _) Eu)
                   | intros [Hx _]%list_elem_of_filter; exact (Hx eq_refl) ];
        hstep];
      rewrite fd_lookup_store_lowest, Hl; exists_host Er.
    all: split; [apply last_snoc|].
    all: apply bool_decide_eq_true in Ee || apply bool_decide_eq_false in Ee.
    all: split; [intros Hp; try contradiction; apply elem_of_cons; left; reflexivity|].
    all: intros n Hn; rewrite ?elem_of_cons, ?list_elem_of_filter in Hn; tauto.
Qed.

(** X13.  [Init] with nothing refused: the port listens on a new socket bound to
    its address, an Acceptor has been started, and the port object satisfies
    the invariant of the driver, which every later step keeps.  A socket file
    left at the path by an earlier run does not stop it. *)
Theorem Init_establishes_invariant (ntx nrx : Z) (name : string)
    (path : option string) (h : host) :
  ntx <= 1 -> nrx <= 1 ->
  socket_fault h = None -> bind_fault h = None -> listen_fault h = None ->
  (is_abstract (init_sun_path name path) = true ->
   sun_path (init_addr name path) ∉ names h) ->
  hd 0 (spawn_rets (kernel h)) = 0 ->
  0 <= recv_skip_cnt_ (port (kernel h)) <= RECV_SKIP_TICKS ->
  exists h',
    Init ntx nrx name path h = Some (None, h') /\
    fd_lookup (fdtab (kernel h')) (listen_fd_ (port (kernel h'))) =
      Some (length (socks (kernel h))) /\
    client_fd_ (port (kernel h')) = NOT_CONNECTED /\
    threads (kernel h') = S (threads (kernel h)) /\
    last (syslog h') = Some (Hlisten (listen_fd_ (port (kernel h'))) 1 0) /\
    (sun_path (init_addr name path) <> EmptyString ->
     sun_path (init_addr name path) ∈ names h') /\
    driver_inv (kernel h') /\
    (forall w, rtc driver_step (kernel h') w ->
               driver_inv w /\
               listen_fd_ (port w) = listen_fd_ (port (kernel h'))).
Proof.
  intros H1 H2 Hs Hb Hl Hfree Hr Hc.
  destruct (Init_runs ntx nrx name path h H1 H2 Hs Hb Hl Hfree)
    as (h' & Hrun & Hp & Hf & _ & _ & _ & Ht & _ & Hlog & Hn & _).
  rewrite Hr in Hrun, Ht. cbn in Hrun, Ht.
  assert (Hinv : driver_inv (kernel h'))
    by (apply driver_inv_fresh; rewrite Hp; cbn; auto).
  exists h'. split; [exact Hrun|].
  rewrite Hp. cbn [listen_fd_ client_fd_].
  split; [rewrite Hf; apply fd_lookup_store_lowest|].
  split; [reflexivity|]. split; [exact Ht|]. split; [exact Hlog|].
  split; [exact Hn|]. split; [exact Hinv|].
  intros w Hw. destruct (driver_inv_rtc _ _ Hinv Hw) as [Hi Hlf].
  split; [exact Hi|]. rewrite Hlf, Hp. reflexivity.
Qed.

(** X13, a port at a path where an earlier run left its socket file: [Init]
    leaves the world the data paths start from. *)
Lemma Init_establishes_invariant_witness :
  exists h',
    Init 1 1 "p0" None (machine [] ["/tmp/bess_unix_p0"%string]) =
      Some (None, h') /\
    kernel h' = log (Epthread_create 0) (booted [] []) /\
    names h' = ["/tmp/bess_unix_p0"%string] /\
    driver_inv (kernel h').
Proof.
  destruct (Init_establishes_invariant 1 1 "p0" None
              (machine [] ["/tmp/bess_unix_p0"%string]))
    as (h' & Hrun & _ & _ & _ & _ & _ & Hinv & _);
    try reflexivity; try (cbn; lia);
    try (unfold RECV_SKIP_TICKS; cbn; lia);
    try (intros Hx; vm_compute in Hx; discriminate Hx).
  assert (Hev : exists h0,
            Init 1 1 "p0" None (machine [] ["/tmp/bess_unix_p0"%string]) =
              Some (None, h0) /\
            kernel h0 = log (Epthread_create 0) (booted [] []) /\
            names h0 = ["/tmp/bess_unix_p0"%string])
    by (eexists; vm_compute; repeat split).
  destruct Hev as (h0 & Hev & Hk & Hn).
  assert (E : h0 = h') by congruence. subst h0.
  exists h'. split; [exact Hrun|]. split; [exact Hk|].
  split; [exact Hn|exact Hinv].
Defined.

Lemma fd_lookup_nat (t : list (option nat)) (n k : nat) :
  fd_lookup t (Z.of_nat n) = Some k <-> t !! n = Some (Some k).
Proof.
  unfold fd_lookup. rewrite of_nat_ltb_0, Nat2Z.id.
  destruct (t !! n) as [[j|]|]; split; congruence.
Qed.

Lemma AcceptNewClient_takes_peer (w : world) (l : nat) (s : socket)
    (q : list accept_event) :
  old_client_fd_ (port w) = NOT_CONNECTED ->
  fd_lookup (fdtab w) (listen_fd_ (port w)) = Some l ->
  backlog w = AcceptPeer s :: q ->
  exists w',
    AcceptNewClient w = Some (tt, w') /\
    backlog w' = q /\
    socks w' = socks w ++ [s] /\
    fdtab w' = fd_store (fdtab w) (lowest_free (fdtab w))
                        (Some (length (socks w))) /\
    port w' = with_client_fd (Z.of_nat (lowest_free (fdtab w)))
                (with_recv_skip_cnt 0 (port w)) /\
    trace w' = trace w ++
               [Eaccept4 (listen_fd_ (port w)) (Z.of_nat (lowest_free (fdtab w)))].
Proof.
  intros Hold Hl Hq. unfold AcceptNewClient.
  unfold gets at 1. unfold bind at 1. rewrite Hq.
  cbn [length accept_loop]. unfold accept4. mstep.
  rewrite Hl, Hq. mstep.
  destruct (Z.leb_spec 0 (Z.of_nat (lowest_free (fdtab w)))); [|lia].
  mstep. rewrite Hold. cbn.
  eexists. split; [reflexivity|]. cbn. repeat split.
Qed.

(** X14.  The thread [Init] starts, run when a peer connects: it installs the
    peer's socket in the slot on a descriptor other than the listening one,
    which stays as it is. *)
Theorem Init_then_AcceptThreadMain (ntx nrx : Z) (name : string)
    (path : option string) (h : host) (s : socket) (q : list accept_event) :
  ntx <= 1 -> nrx <= 1 ->
  socket_fault h = None -> bind_fault h = None -> listen_fault h = None ->
  (is_abstract (init_sun_path name path) = true ->
   sun_path (init_addr name path) ∉ names h) ->
  hd 0 (spawn_rets (kernel h)) = 0 ->
  backlog (kernel h) = AcceptPeer s :: q ->
  exists h1 h2,
    Init ntx nrx name path h = Some (None, h1) /\
    AcceptThreadMain h1 = Some (tt, h2) /\
    syslog h2 = syslog h1 ++ [Hpthread_detach] /\
    backlog (kernel h2) = q /\
    recv_skip_cnt_ (port (kernel h2)) = 0 /\
    listen_fd_ (port (kernel h2)) = listen_fd_ (port (kernel h1)) /\
    client_fd_ (port (kernel h2)) <> listen_fd_ (port (kernel h1)) /\
    old_client_fd_ (port (kernel h2)) = NOT_CONNECTED /\
    sock_of (kernel h2) (client_fd_ (port (kernel h2))) =
      Some (S (length (socks (kernel h))), s) /\
    sock_of (kernel h2) (listen_fd_ (port (kernel h2))) =
      Some (length (socks (kernel h)), Socket [] [] []).
Proof.
  intros H1 H2 Hs Hb Hl Hfree Hr Hq.
  destruct (Init_runs ntx nrx name path h H1 H2 Hs Hb Hl Hfree)
    as (h1 & Hrun & Hp & Hf & Hss & Hbk & _).
  rewrite Hr in Hrun. cbn in Hrun.
  assert (Hlis : fd_lookup (fdtab (kernel h1)) (listen_fd_ (port (kernel h1))) =
                 Some (length (socks (kernel h))))
    by (rewrite Hp, Hf; apply fd_lookup_store_lowest).
  assert (Hold : old_client_fd_ (port (kernel h1)) = NOT_CONNECTED)
    by (rewrite Hp; reflexivity).
  rewrite <- Hbk in Hq.
  destruct (AcceptNewClient_takes_peer (kernel h1) _ s q Hold Hlis Hq)
    as (w2 & Hacc & Hb2 & Hs2 & Hf2 & Hp2 & _).
  exists h1, (set_kernel w2 (hlog Hpthread_detach h1)).
  split; [exact Hrun|].
  split.
  { unfold AcceptThreadMain, pthread_detach, hbind, hmodify, lift.
    cbn [kernel hlog]. rewrite Hacc. reflexivity. }
  cbn [syslog kernel set_kernel hlog].
  split; [reflexivity|].
  split; [exact Hb2|].
  rewrite Hp2. cbn [recv_skip_cnt_ listen_fd_ client_fd_ old_client_fd_
                    with_client_fd with_recv_skip_cnt].
  split; [reflexivity|]. split; [reflexivity|].
  split.
  { intros E. rewrite <- E in Hlis.
    apply fd_lookup_nat in Hlis. exact (lowest_free_not_open _ _ Hlis). }
  split; [exact Hold|].
  unfold sock_of. rewrite Hf2, Hs2.
  split.
  - rewrite fd_lookup_store_lowest, Hss, length_app. cbn [length].
    rewrite lookup_app_r by (rewrite length_app; cbn; lia).
    rewrite length_app. cbn [length].
    replace (length (socks (kernel h)) + 1 - (length (socks (kernel h)) + 1))%nat
      with 0%nat by lia.
    cbn. do 3 f_equal. lia.
  - destruct (fd_lookup_store_other (fdtab (kernel h1)) (Some (length (socks (kernel h1))))
                _ _ Hlis) as [-> _].
    rewrite Hss. rewrite lookup_app_l by (rewrite length_app; cbn; lia).
    rewrite lookup_app_r by lia. rewrite Nat.sub_diag. reflexivity.
Qed.

(** X14, with an abstract address, and a peer that writes one datagram. *)
Lemma Init_then_AcceptThreadMain_witness :
  let s := Socket [RxDatagram [Byte.x01]] [] [] in
  exists h1 h2,
    Init 1 1 "p0" (Some "@bess"%string) (machine [AcceptPeer s] []) =
      Some (None, h1) /\
    AcceptThreadMain h1 = Some (tt, h2) /\
    listen_fd_ (port (kernel h2)) = 3 /\
    client_fd_ (port (kernel h2)) = 4 /\
    sock_of (kernel h2) 4 = Some (2%nat, s).
Proof.
  cbv zeta.
  destruct (Init_then_AcceptThreadMain 1 1 "p0" (Some "@bess"%string)
              (machine [AcceptPeer (Socket [RxDatagram [Byte.x01]] [] [])] [])
              (Socket [RxDatagram [Byte.x01]] [] []) [])
    as (h1 & h2 & Hrun & Hacc & _ & _ & _ & _ & _ & _ & _ & _);
    try reflexivity; try (cbn; lia);
    try (intros _; vm_compute; apply not_elem_of_nil).
  assert (Hev : exists k1 k2,
            Init 1 1 "p0" (Some "@bess"%string)
              (machine [AcceptPeer (Socket [RxDatagram [Byte.x01]] [] [])] []) =
              Some (None, k1) /\
            AcceptThreadMain k1 = Some (tt, k2) /\
            listen_fd_ (port (kernel k2)) = 3 /\
            client_fd_ (port (kernel k2)) = 4 /\
            sock_of (kernel k2) 4 =
              Some (2%nat, Socket [RxDatagram [Byte.x01]] [] []))
    by (do 2 eexists; vm_compute; repeat split).
  destruct Hev as (k1 & k2 & Hev & Hacc' & Hl & Hc & Hsk).
  assert (E1 : k1 = h1) by congruence. subst k1.
  assert (E2 : k2 = h2) by congruence. subst k2.
  exists h1, h2. split; [exact Hrun|]. split; [exact Hacc|].
  split; [exact Hl|]. split; [exact Hc|exact Hsk].
Defined.

(** X15.  An abstract address that is in use: [bind] fails with [EADDRINUSE] and
    [Init] returns the error, the listening socket left open and no
    Acceptor started.  The message names no address, the first character of
    [sun_path] being NUL by then. *)
Theorem Init_abstract_address_in_use (ntx nrx : Z) (name : string)
    (path : option string) (h : host) :
  ntx <= 1 -> nrx <= 1 ->
  socket_fault h = None -> bind_fault h = None ->
  is_abstract (init_sun_path name path) = true ->
  sun_path (init_addr name path) ∈ names h ->
  exists h',
    Init ntx nrx name path h =
      Some (Some (snobj_err EADDRINUSE "bind() failed"%string), h') /\
    fd_lookup (fdtab (kernel h')) (listen_fd_ (port (kernel h'))) =
      Some (length (socks (kernel h))) /\
    names h' = names h /\
    threads (kernel h') = threads (kernel h) /\
    trace (kernel h') = trace (kernel h).
Proof.
  intros H1 H2 Hs Hb Ha Hin.
  assert (Hq : (1 <? ntx) || (1 <? nrx) = false)
    by (apply orb_false_iff; split; apply Z.ltb_ge; lia).
  pose proof (init_sun_path_c_str name path) as Hc.
  pose proof (is_abstract_nonempty _ Ha) as Hne.
  unfold init_addr in Hin. rewrite Ha in Hin. cbn [sun_path] in Hin.
  unfold is_abstract in Ha.
  unfold Init. fold (init_sun_path name path).
  set (p := init_sun_path name path) in *.
  hstep. rewrite Hq, Hs. hstep. rewrite ?of_nat_ltb_0, ?Ha. hstep.
  rewrite fd_lookup_store_lowest, Hb. hstep.
  rewrite (sockaddr_name_abstract p Hc Hne).
  rewrite bool_decide_eq_false_2 by apply set_first_char_nonempty.
  rewrite bool_decide_eq_true_2 by exact Hin.
  hstep.
  assert (Hz : c_str (set_first_char zero p) = EmptyString)
    by (destruct p; reflexivity).
  rewrite Hz.
  eexists. split; [reflexivity|]. cbn.
  split; [apply fd_lookup_store_lowest|]. repeat split.
Qed.

(** X15, with the abstract address [@bess] bound by another socket. *)
Lemma Init_abstract_address_in_use_witness :
  exists h',
    Init 1 1 "p0" (Some "@bess"%string)
         (machine [] [String zero "bess"%string]) =
      Some (Some (snobj_err EADDRINUSE "bind() failed"%string), h') /\
    fd_lookup (fdtab (kernel h')) 3 = Some 1%nat.
Proof.
  destruct (Init_abstract_address_in_use 1 1 "p0" (Some "@bess"%string)
              (machine [] [String zero "bess"%string]))
    as (h' & Hrun & Hopen & _); try reflexivity; try (cbn; lia).
  { vm_compute. apply elem_of_cons. left. reflexivity. }
  assert (Hl : exists k,
            Init 1 1 "p0" (Some "@bess"%string)
                 (machine [] [String zero "bess"%string]) = Some k /\
            listen_fd_ (port (kernel (snd k))) = 3)
    by (eexists; vm_compute; split; reflexivity).
  destruct Hl as (k & Hk & Hl3).
  assert (E : k = (Some (snobj_err EADDRINUSE "bind() failed"%string), h'))
    by congruence.
  subst k. cbn [snd] in Hl3. rewrite Hl3 in Hopen.
  exists h'. split; [exact Hrun|exact Hopen].
Defined.

(** X16.  [socket] refused: [Init] returns its error having opened no descriptor,
    bound no name and started no Acceptor; [listen_fd_] holds the -1. *)
Theorem Init_socket_failure (ntx nrx e : Z) (name : string)
    (path : option string) (h : host) :
  ntx <= 1 -> nrx <= 1 -> socket_fault h = Some e ->
  exists h',
    Init ntx nrx name path h =
      Some (Some (snobj_err e "socket(AF_UNIX) failed"%string), h') /\
    listen_fd_ (port (kernel h')) = -1 /\
    fdtab (kernel h') = fdtab (kernel h) /\
    names h' = names h /\
    threads (kernel h') = threads (kernel h) /\
    trace (kernel h') = trace (kernel h) /\
    syslog h' = syslog h ++ [Hsocket AF_UNIX SOCK_SEQPACKET 0 (-1)].
Proof.
  intros H1 H2 Hs.
  assert (Hq : (1 <? ntx) || (1 <? nrx) = false)
    by (apply orb_false_iff; split; apply Z.ltb_ge; lia).
  hstep. rewrite Hq, Hs. hstep.
  eexists. split; [reflexivity|]. repeat split.
Qed.

(** X16, when the process has no descriptor left ([EMFILE]). *)
Lemma Init_socket_failure_witness :
  let h := {| kernel := process []; addr_ := SockaddrUn 0 EmptyString;
              names := []; socket_fault := Some 24; bind_fault := None;
              listen_fault := None; syslog := [] |} in
  exists h',
    Init 1 1 "p0" None h =
      Some (Some (snobj_err 24 "socket(AF_UNIX) failed"%string), h') /\
    listen_fd_ (port (kernel h')) = -1.
Proof.
  cbv zeta.
  destruct (Init_socket_failure 1 1 24 "p0" None
              {| kernel := process []; addr_ := SockaddrUn 0 EmptyString;
                 names := []; socket_fault := Some 24; bind_fault := None;
                 listen_fault := None; syslog := [] |})
    as (h' & Hrun & Hl & _); try reflexivity; try lia.
  exists h'. split; [exact Hrun|exact Hl].
Defined.

(** ** Teardown *)

Lemma fd_lookup_closed_same (t : list (option nat)) (a : Z) :
  fd_lookup (<[Z.to_nat a := None]> t) a = None.
Proof.
  unfold fd_lookup. destruct (a <? 0); [reflexivity|].
  destruct (decide (Z.to_nat a < length t)%nat) as [Hlt|Hge].
  - rewrite list_lookup_insert_eq by exact Hlt. reflexivity.
  - rewrite list_insert_ge by lia.
    rewrite lookup_ge_None_2 by lia. reflexivity.
Qed.

Lemma fd_lookup_closed_other (t : list (option nat)) (a fd : Z) :
  0 <= a -> fd <> a ->
  fd_lookup (<[Z.to_nat a := None]> t) fd = fd_lookup t fd.
Proof.
  intros Ha Hne. unfold fd_lookup.
  destruct (Z.ltb_spec fd 0); [reflexivity|].
  rewrite list_lookup_insert_ne by lia. reflexivity.
Qed.

(** [close] always returns; afterwards the descriptor is closed and every
    other one is as before. *)
Lemma close_run (a : Z) (w : world) :
  exists r w',
    close a w = Some (r, w') /\
    port w' = port w /\ threads w' = threads w /\
    trace w' = trace w ++ [Eclose a r] /\
    fd_lookup (fdtab w') a = None /\
    (forall fd, fd <> a -> fd_lookup (fdtab w') fd = fd_lookup (fdtab w) fd).
Proof.
  unfold close. mstep.
  destruct (fd_lookup (fdtab w) a) as [k|] eqn:Hk; mstep.
  - do 2 eexists. split; [reflexivity|]. cbn. repeat split.
    + apply fd_lookup_closed_same.
    + intros fd Hne. apply fd_lookup_closed_other; [|exact Hne].
      unfold fd_lookup in Hk. destruct (Z.ltb_spec a 0); [discriminate|lia].
  - do 2 eexists. split; [reflexivity|]. cbn. repeat split. exact Hk.
Qed.

Lemma DeInit_run (h : host) :
  let p := port (kernel h) in
  exists r1 r2 h',
    DeInit h = Some (tt, h') /\
    port (kernel h') = p /\
    threads (kernel h') = threads (kernel h) /\
    names h' = names h /\
    syslog h' = syslog h ++
      (if accept_thread_ p =? 0 then []
       else [Hpthread_cancel (accept_thread_ p)]) /\
    trace (kernel h') = trace (kernel h) ++
      Eclose (listen_fd_ p) r1 ::
      (if 0 <=? client_fd_ p then [Eclose (client_fd_ p) r2] else []) /\
    fd_lookup (fdtab (kernel h')) (listen_fd_ p) = None /\
    fd_lookup (fdtab (kernel h')) (client_fd_ p) = None /\
    (forall fd, fd <> listen_fd_ p -> fd <> client_fd_ p ->
                fd_lookup (fdtab (kernel h')) fd =
                fd_lookup (fdtab (kernel h)) fd).
Proof.
  intros p. subst p.
  set (h0 := if accept_thread_ (port (kernel h)) =? 0 then h
             else hlog (Hpthread_cancel (accept_thread_ (port (kernel h)))) h).
  assert (Hk0 : kernel h0 = kernel h)
    by (subst h0; destruct (_ =? 0); reflexivity).
  destruct (close_run (listen_fd_ (port (kernel h))) (kernel h))
    as (r1 & w1 & Hc1 & Hp1 & Ht1 & Htr1 & Hcl1 & Hoth1).
  destruct (close_run (client_fd_ (port (kernel h))) w1)
    as (r2 & w2 & Hc2 & Hp2 & Ht2 & Htr2 & Hcl2 & Hoth2).
  exists r1, r2.
  exists (if 0 <=? client_fd_ (port (kernel h))
          then set_kernel w2 h0 else set_kernel w1 h0).
  split.
  { unfold DeInit. unfold hbind at 1. unfold lift at 1. unfold this, gets.
    unfold hbind at 1. subst h0.
    destruct (accept_thread_ (port (kernel h)) =? 0); cbn [negb];
      unfold pthread_cancel, hmodify, hbind, lift, hret;
      cbn [kernel set_kernel hlog]; rewrite Hc1; cbn [kernel set_kernel];
      rewrite Hp1;
      (destruct (0 <=? client_fd_ (port (kernel h))); [|reflexivity]);
      cbn [kernel set_kernel]; rewrite Hc2; reflexivity. }
  assert (Hneg : (0 <=? client_fd_ (port (kernel h))) = false ->
                 forall t, fd_lookup t (client_fd_ (port (kernel h))) = None).
  { intros E t. apply Z.leb_gt in E. unfold fd_lookup.
    destruct (Z.ltb_spec (client_fd_ (port (kernel h))) 0); [reflexivity|lia]. }
  destruct (0 <=? client_fd_ (port (kernel h))) eqn:Ec; cbn [kernel set_kernel].
  - rewrite Hp2, Hp1, Ht2, Ht1, Htr2, Htr1, <- app_assoc.
    repeat (split; [try reflexivity|]).
    + subst h0. destruct (_ =? 0); reflexivity.
    + subst h0. destruct (_ =? 0); cbn; rewrite ?app_nil_r; reflexivity.
    + destruct (decide (listen_fd_ (port (kernel h)) = client_fd_ (port (kernel h))))
        as [E|E]; [rewrite E; exact Hcl2|].
      rewrite Hoth2 by exact E. exact Hcl1.
    + exact Hcl2.
    + intros fd H1 H2. rewrite Hoth2 by exact H2. apply Hoth1. exact H1.
  - rewrite Hp1, Ht1, Htr1.
    repeat (split; [try reflexivity|]).
    + subst h0. destruct (_ =? 0); reflexivity.
    + subst h0. destruct (_ =? 0); cbn; rewrite ?app_nil_r; reflexivity.
    + exact Hcl1.
    + destruct (decide (client_fd_ (port (kernel h)) = listen_fd_ (port (kernel h))))
        as [E|E]; [rewrite E; exact Hcl1|].
      rewrite Hoth1 by exact E. apply Hneg. reflexivity.
    + intros fd H1 H2. apply Hoth1. exact H1.
Qed.

(** X17.  [DeInit] always returns.  It closes the listening descriptor and the
    active one and no other, calls [pthread_cancel] only for a non-zero
    [accept_thread_], and leaves the port object as it was: the slots still
    hold the numbers of the descriptors it closed. *)
Theorem DeInit_closes_listener_and_peer (h : host) :
  let p := port (kernel h) in
  exists r1 r2 h',
    DeInit h = Some (tt, h') /\
    port (kernel h') = p /\
    fd_lookup (fdtab (kernel h')) (listen_fd_ p) = None /\
    fd_lookup (fdtab (kernel h')) (client_fd_ p) = None /\
    (forall fd, fd <> listen_fd_ p -> fd <> client_fd_ p ->
                fd_lookup (fdtab (kernel h')) fd =
                fd_lookup (fdtab (kernel h)) fd) /\
    trace (kernel h') = trace (kernel h) ++
      Eclose (listen_fd_ p) r1 ::
      (if 0 <=? client_fd_ p then [Eclose (client_fd_ p) r2] else []) /\
    syslog h' = syslog h ++
      (if accept_thread_ p =? 0 then []
       else [Hpthread_cancel (accept_thread_ p)]).
Proof.
  intros p.
  destruct (DeInit_run h)
    as (r1 & r2 & h' & Hrun & Hp & _ & _ & Hlog & Htr & Hl & Hc & Hoth).
  exists r1, r2, h'. repeat (split; [assumption|]). exact Hlog.
Qed.

(** X18.  A connection lost before teardown is never closed: [CloseConnection]
    retires its descriptor, and [DeInit], which closes the listening
    descriptor and the active one, leaves the retired one open. *)
Theorem lost_connection_outlives_DeInit (h : host) (k : nat) :
  fd_lookup (fdtab (kernel h)) (client_fd_ (port (kernel h))) = Some k ->
  client_fd_ (port (kernel h)) <> listen_fd_ (port (kernel h)) ->
  exists w1 h',
    CloseConnection (kernel h) = Some (tt, w1) /\
    DeInit (set_kernel w1 h) = Some (tt, h') /\
    old_client_fd_ (port (kernel h')) = client_fd_ (port (kernel h)) /\
    fd_lookup (fdtab (kernel h')) (old_client_fd_ (port (kernel h'))) = Some k /\
    exists r1,
      trace (kernel h') =
      trace w1 ++ [Eclose (listen_fd_ (port (kernel h))) r1].
Proof.
  intros Hopen Hne.
  pose proof (CloseConnection_run (kernel h)) as Hcc. cbv zeta in Hcc.
  eexists. 
  destruct (DeInit_run (set_kernel
              {| port := {| recv_skip_cnt_ := recv_skip_cnt_ (port (kernel h));
                            listen_fd_ := listen_fd_ (port (kernel h));
                            client_fd_ := NOT_CONNECTED;
                            old_client_fd_ := client_fd_ (port (kernel h));
                            accept_thread_ := 0 |};
                 errno := errno (kernel h); fdtab := fdtab (kernel h);
                 socks := socks (kernel h); backlog := backlog (kernel h);
                 spawn_rets := tl (spawn_rets (kernel h));
                 threads := (if hd 0 (spawn_rets (kernel h)) =? 0
                             then S (threads (kernel h)) else threads (kernel h));
                 hdr_junk := hdr_junk (kernel h);
                 pool := pool (kernel h);
                 trace := trace (kernel h) ++
                          Epthread_create (hd 0 (spawn_rets (kernel h))) ::
                          (if hd 0 (spawn_rets (kernel h)) =? 0 then [] else [Elog]) |}
              h))
    as (r1 & r2 & h' & Hrun & Hp & _ & _ & _ & Htr & _ & _ & Hoth).
  cbn [kernel set_kernel port listen_fd_ client_fd_ accept_thread_ fdtab trace]
    in Hp, Htr, Hoth.
  exists h'. split; [exact Hcc|]. split; [exact Hrun|].
  rewrite Hp. cbn [old_client_fd_]. split; [reflexivity|].
  split.
  - rewrite Hoth; [exact Hopen|exact Hne|].
    intros E. rewrite E in Hopen. discriminate Hopen.
  - exists r1. exact Htr.
Qed.

(** X18, with the peer on descriptor 4 and the listening socket on
    descriptor 3. *)
Lemma lost_connection_outlives_DeInit_witness :
  exists w1 h',
    CloseConnection (connected 0 tty []) = Some (tt, w1) /\
    DeInit (set_kernel w1 (set_kernel (connected 0 tty []) (machine [] []))) =
      Some (tt, h') /\
    fd_lookup (fdtab (kernel h')) 3 = None /\
    fd_lookup (fdtab (kernel h')) 4 = Some 2%nat.
Proof.
  destruct (lost_connection_outlives_DeInit
              (set_kernel (connected 0 tty []) (machine [] [])) 2)
    as (w1 & h' & Hcc & Hrun & _ & _ & _); [reflexivity|discriminate|].
  assert (Hev : exists k1 k2,
            CloseConnection (connected 0 tty []) = Some (tt, k1) /\
            DeInit (set_kernel k1 (set_kernel (connected 0 tty []) (machine [] []))) =
              Some (tt, k2) /\
            fd_lookup (fdtab (kernel k2)) 3 = None /\
            fd_lookup (fdtab (kernel k2)) 4 = Some 2%nat)
    by (do 2 eexists; vm_compute; repeat split).
  destruct Hev as (k1 & k2 & Hcc' & Hrun' & H3 & H4).
  cbn [kernel set_kernel] in Hcc.
  assert (E1 : k1 = w1) by congruence. subst k1.
  assert (E2 : k2 = h') by congruence. subst k2.
  exists w1, h'. repeat (split; [assumption|]). exact H4.
Defined.

(** X19.  [accept_thread_] is zero whenever a driver call has returned, so
    that [DeInit] cancels nothing: it issues no [pthread_cancel] and the
    Acceptor tasks started by [Init] or by [CloseConnection] are as before,
    while the listening descriptor is closed. *)
Theorem DeInit_never_cancels (w0 : world) (h : host) :
  driver_inv w0 -> rtc driver_step w0 (kernel h) ->
  exists h',
    DeInit h = Some (tt, h') /\
    syslog h' = syslog h /\
    threads (kernel h') = threads (kernel h) /\
    fd_lookup (fdtab (kernel h')) (listen_fd_ (port w0)) = None.
Proof.
  intros Hinv Hsteps.
  destruct (driver_inv_rtc _ _ Hinv Hsteps) as [(Ht & _) Hl].
  destruct (DeInit_run h)
    as (r1 & r2 & h' & Hrun & _ & Hth & _ & Hlog & _ & Hcl & _).
  rewrite Ht in Hlog. cbn in Hlog. rewrite app_nil_r in Hlog.
  rewrite Hl in Hcl.
  exists h'. repeat (split; [assumption|]). exact Hcl.
Qed.

(** X19, on a port that lost its peer, with the relaunched Acceptor
    waiting. *)
Lemma DeInit_never_cancels_witness :
  let s := Socket [RxShutdown] [] [] in
  exists r w h',
    RecvPackets 1 (connected 0 s [blank 0]) = Some (r, w) /\
    threads w = 2%nat /\
    DeInit (set_kernel w (machine [] [])) = Some (tt, h') /\
    syslog h' = [] /\ threads (kernel h') = 2%nat.
Proof.
  cbv zeta.
  assert (Hev : exists r w,
            RecvPackets 1 (connected 0 (Socket [RxShutdown] [] []) [blank 0]) =
              Some (r, w) /\ threads w = 2%nat)
    by (do 2 eexists; vm_compute; split; reflexivity).
  destruct Hev as (r & w & Hrecv & Hth).
  destruct (DeInit_never_cancels
              (connected 0 (Socket [RxShutdown] [] []) [blank 0])
              (set_kernel w (machine [] [])))
    as (h' & Hrun & Hlog & Hth' & _).
  { apply driver_inv_fresh; [reflexivity|unfold RECV_SKIP_TICKS; cbn; lia|reflexivity]. }
  { eapply rtc_l; [|apply rtc_refl]. apply step_data.
    eapply step_recv. exact Hrecv. }
  exists r, w, h'. split; [exact Hrecv|]. split; [exact Hth|].
  split; [exact Hrun|]. split; [exact Hlog|]. rewrite Hth'. exact Hth.
Defined.

(** X20.  [Init] assigns [listen_fd_] only after the check of the queue counts,
    so that a port rejected there still has the zero [listen_fd_] was
    constructed with: if [DeInit] runs on it, it closes descriptor 0. *)
Theorem DeInit_after_rejected_Init (ntx nrx : Z) (name : string)
    (path : option string) (h : host) :
  1 < ntx \/ 1 < nrx ->
  port (kernel h) = constructed ->
  exists e h1 r1 h2,
    Init ntx nrx name path h = Some (Some e, h1) /\
    DeInit h1 = Some (tt, h2) /\
    trace (kernel h2) = trace (kernel h) ++ [Eclose 0 r1] /\
    fd_lookup (fdtab (kernel h2)) 0 = None.
Proof.
  intros Hq Hp.
  assert (Hb : (1 <? ntx) || (1 <? nrx) = true)
    by (apply orb_true_iff; destruct Hq; [left|right]; apply Z.ltb_lt; assumption).
  assert (Hi : exists h1,
            Init ntx nrx name path h =
              Some (Some (snobj_err EINVAL
                            "Cannot have more than 1 queue per RX/TX"%string), h1) /\
            port (kernel h1) =
              with_old_client_fd NOT_CONNECTED
                (with_client_fd NOT_CONNECTED (port (kernel h))) /\
            trace (kernel h1) = trace (kernel h)).
  { hstep. rewrite Hb. eexists. split; [reflexivity|]. split; reflexivity. }
  destruct Hi as (h1 & Hrun & Hp1 & Htr1).
  rewrite Hp in Hp1. cbn in Hp1.
  destruct (DeInit_run h1)
    as (r1 & r2 & h2 & Hd & _ & _ & _ & _ & Htr & Hcl & _).
  rewrite Hp1 in Htr, Hcl. cbn in Htr, Hcl. rewrite Htr1 in Htr.
  exists (snobj_err EINVAL "Cannot have more than 1 queue per RX/TX"%string),
    h1, r1, h2.
  repeat (split; [assumption|]). exact Hcl.
Qed.

(** X20, with two transmit queues, in a process whose descriptor 0 is
    open. *)
Lemma DeInit_after_rejected_Init_witness :
  exists e h1 h2,
    Init 2 1 "p0" None (machine [] []) = Some (Some e, h1) /\
    DeInit h1 = Some (tt, h2) /\
    fd_lookup (fdtab (kernel (machine [] []))) 0 = Some 0%nat /\
    fd_lookup (fdtab (kernel h2)) 0 = None.
Proof.
  destruct (DeInit_after_rejected_Init 2 1 "p0" None (machine [] []))
    as (e & h1 & r1 & h2 & Hrun & Hd & _ & Hcl); [left; lia|reflexivity|].
  exists e, h1, h2. split; [exact Hrun|]. split; [exact Hd|].
  split; [reflexivity|exact Hcl].
Defined.
